(** * Population / shelter-capacity analysis of a drawn map shape

    A shallow embedding of [performAnalysis] from
    [public/js/map/drawing.js], together with the parts of Leaflet it
    calls, and the properties of the analysis that the specification
    states.  The rest of the module is embedded too: the loader of the
    population layer, the results panel and the handlers that
    [initializeDrawing] registers, with the properties the code shows.

    Conventions of the embedding.
    - A JavaScript number is an exact rational ([Q]) or [NaN], and the
      sums of the analysis are exact.  The source adds IEEE doubles, whose
      rounding makes a sum depend on the order of its terms: the
      accumulation on doubles is embedded on its own, in [Doubles].
    - [NaN] also stands for a component that is missing ([undefined]):
      the code of the repository ([>], truthiness) treats the two alike,
      and so does Leaflet wherever the analysis can observe it (see
      [L.polygon]).
    - A JavaScript abrupt completion ([throw]) is explicit: code that may
      throw has type [completion A], and [try_catch] is the [try]/[catch]
      statement.
    - The mutable [let] variables of [performAnalysis] are the record
      [Locals], threaded through the [forEach] callbacks.
    - The entries of a dataset are record objects whose fields may be
      missing.  Arrays that hold a [null] entry in place of a record are
      treated in [Entries], which extends the callbacks and the
      functions built on them to such arrays. *)

From Stdlib Require Import String.
From Stdlib Require Import QArith Qabs Qminmax Lqa List Bool Arith Lia Permutation.
From Stdlib Require Floats.
Import ListNotations.
Local Open Scope Q_scope.

(** ** JavaScript numbers *)

Inductive number : Type :=
| Num (q : Q)
| NaN.

(** [a > b] for a literal [b]: false on [NaN]. *)
Definition gt (a : number) (b : Q) : bool :=
  match a with
  | Num q => negb (Qle_bool q b)
  | NaN => false
  end.

(** The value of a numeric field that passes a truthiness test
    ([if (!area.poptot) return;]), [None] when the test fails:
    [0], [NaN] and a missing field are falsy. *)
Definition truthyNumber (n : number) : option Q :=
  match n with
  | Num q => if Qeq_bool q 0 then None else Some q
  | NaN => None
  end.

(** ** Abrupt completions *)

Inductive exn : Type :=
| TypeError
| Error.

Inductive completion (A : Type) : Type :=
| Normal (a : A)
| Throw (e : exn).
Arguments Normal {A} a.
Arguments Throw {A} e.

Definition bind {A B} (c : completion A) (k : A -> completion B) : completion B :=
  match c with
  | Normal a => k a
  | Throw e => Throw e
  end.

Notation "x <- c ;; k" := (bind c (fun x => k))
  (at level 61, c at next level, right associativity).

(** [try { body } catch (err) { handler }] *)
Definition try_catch {A} (body : completion A) (handler : exn -> completion A)
  : completion A :=
  match body with
  | Normal a => Normal a
  | Throw e => handler e
  end.

(** [arr.forEach(callback)], the callback updating the enclosing locals [S]:
    an exception leaving the callback leaves [forEach]. *)
Fixpoint forEach {A S} (callback : S -> A -> completion S) (arr : list A) (s : S)
  : completion S :=
  match arr with
  | [] => Normal s
  | x :: rest => s' <- callback s x ;; forEach callback rest s'
  end.

(** [arr.map(callback)] *)
Fixpoint Array_map {A B} (callback : A -> completion B) (arr : list A)
  : completion (list B) :=
  match arr with
  | [] => Normal []
  | x :: rest =>
      y <- callback x ;;
      ys <- Array_map callback rest ;;
      Normal (y :: ys)
  end.

(** [arr.filter(x => x !== null)] on an array whose [null] entries are [None]. *)
Fixpoint filter_not_null {A} (arr : list (option A)) : list A :=
  match arr with
  | [] => []
  | Some x :: rest => x :: filter_not_null rest
  | None :: rest => filter_not_null rest
  end.

(** ** Leaflet *)

Module L.

Record LatLng : Type := mkLatLng { lat : Q; lng : Q }.

Record LatLngBounds : Type :=
  mkBounds { southWest : LatLng; northEast : LatLng }.

(** Modelled from the spec: Leaflet's [L.latLng(lat, lng)] is not part of
    the repository; a vertex with a component that is not a number is a
    malformed geometry, which Leaflet rejects with
    [Error("Invalid LatLng object")]. *)
Definition latLng (a b : number) : completion LatLng :=
  match a, b with
  | Num la, Num ln => Normal (mkLatLng la ln)
  | _, _ => Throw Error
  end.

(** Modelled from the spec: [L.polygon(latlngs)] converts every vertex
    with [L.latLng], so that a vertex with a component that is not a
    number makes the construction fail.  Leaflet's own constructor
    differs in two details, neither of which the analysis can observe,
    since it reads the bounds of the polygon only and does so inside
    its [try]: a last vertex equal to the first is dropped from the
    vertex list after the bounds are computed, and an array whose first
    vertex starts with [undefined] is read as nested rings, the failure
    then arising at the first use of the bounds ([intersects]) instead
    of at the construction. *)
Definition polygon (latlngs : list (number * number)) : completion (list LatLng) :=
  Array_map (fun c => latLng (fst c) (snd c)) latlngs.

Definition extend (b : LatLngBounds) (p : LatLng) : LatLngBounds :=
  mkBounds
    (mkLatLng (Qmin (lat p) (lat (southWest b))) (Qmin (lng p) (lng (southWest b))))
    (mkLatLng (Qmax (lat p) (lat (northEast b))) (Qmax (lng p) (lng (northEast b)))).

(** Modelled from the spec: the bounding box of a geometry is the
    axis-aligned rectangle given by its min/max latitude and longitude;
    a geometry without vertices has none. *)
Definition getBounds (vs : list LatLng) : option LatLngBounds :=
  match vs with
  | [] => None
  | v :: rest => Some (fold_left extend rest (mkBounds v v))
  end.

(** Modelled from the spec: two bounding boxes intersect when they
    overlap in latitude and in longitude (shared edges count);
    reading the corners of a missing box is a [TypeError]. *)
Definition intersects (this : option LatLngBounds) (other : LatLngBounds)
  : completion bool :=
  match this with
  | None => Throw TypeError
  | Some b =>
      Normal
        ((Qle_bool (lat (southWest b)) (lat (northEast other))
          && Qle_bool (lat (southWest other)) (lat (northEast b)))
         && (Qle_bool (lng (southWest b)) (lng (northEast other))
             && Qle_bool (lng (southWest other)) (lng (northEast b))))
  end.

(** Modelled from the spec: a point lies within a bounding box when
    both coordinates are between the corners (edges included). *)
Definition contains (this : LatLngBounds) (p : LatLng) : bool :=
  Qle_bool (lat (southWest this)) (lat p)
  && Qle_bool (lat p) (lat (northEast this))
  && Qle_bool (lng (southWest this)) (lng p)
  && Qle_bool (lng p) (lng (northEast this)).

(** The drawn layer handed to the analysis: [L.Circle] with what
    [getLatLng()], [getRadius()] and [getBounds()] return, or
    [L.Rectangle] / [L.Polygon] with what [getBounds()] returns. *)
Inductive Layer : Type :=
| Circle (center : LatLng) (radius : Q) (bounds : LatLngBounds)
| Rectangle (bounds : LatLngBounds)
| Polygon (bounds : LatLngBounds).

End L.

(** ** Data model *)

(** A position of a ring: [null] ([None]) or an array of numbers. *)
Definition Coord : Type := option (list number).

(** [coord[i]]: reading a property of [null] is a [TypeError]; reading past
    the end of an array gives [undefined]. *)
Definition index (coord : Coord) (i : nat) : completion number :=
  match coord with
  | None => Throw TypeError
  | Some elems => Normal (nth i elems NaN)
  end.

(** [area.geom.coordinates], when present: the array of rings of a polygon,
    each ring an array of positions, or any other value, for which
    [coordinates[0] || coordinates] is not an array. *)
Inductive Coordinates : Type :=
| Rings (rings : list (list Coord))
| NotArray.

Module Area.
Record Geom : Type := mkGeom { coordinates : option Coordinates }.
Record t : Type := mk { geom : option Geom; poptot : number }.
End Area.

Module Bunker.
Record Geom : Type := mkGeom { coordinates : option (list number) }.
Record t : Type := mk { geom : option Geom; plasser : number }.
End Bunker.

(** The [let] variables of [performAnalysis]. *)
Record Locals : Type := mkLocals {
  totalPopulation : Q;
  areasIntersected : nat;
  areasProcessed : nat;
  areasWithErrors : nat;
  totalShelterCapacity : Q;
  bunkersInside : nat
}.

Record AnalysisResult : Type := mkResult {
  locals :> Locals;
  coveragePercentage : Q
}.

(** [let totalPopulation = 0; ...]: every sum and count starts at zero. *)
Definition initialLocals : Locals := mkLocals 0 0 0 0 0 0.

(** [areasProcessed++] *)
Definition inc_areasProcessed (s : Locals) : Locals :=
  mkLocals (totalPopulation s) (areasIntersected s) (S (areasProcessed s))
           (areasWithErrors s) (totalShelterCapacity s) (bunkersInside s).

(** [areasWithErrors++] *)
Definition inc_areasWithErrors (s : Locals) : Locals :=
  mkLocals (totalPopulation s) (areasIntersected s) (areasProcessed s)
           (S (areasWithErrors s)) (totalShelterCapacity s) (bunkersInside s).

(** [areasIntersected++; totalPopulation += area.poptot;], the sum taken
    exactly. *)
Definition add_population (poptot : Q) (s : Locals) : Locals :=
  mkLocals (totalPopulation s + poptot) (S (areasIntersected s)) (areasProcessed s)
           (areasWithErrors s) (totalShelterCapacity s) (bunkersInside s).

(** [bunkersInside++; totalShelterCapacity += bunker.plasser;], the sum
    taken exactly. *)
Definition add_capacity (plasser : Q) (s : Locals) : Locals :=
  mkLocals (totalPopulation s) (areasIntersected s) (areasProcessed s)
           (areasWithErrors s) (totalShelterCapacity s + plasser) (S (bunkersInside s)).

(** [totalPopulation > 0 ? (totalShelterCapacity / totalPopulation) * 100 : 0] *)
Definition coverage (totalShelterCapacity totalPopulation : Q) : Q :=
  if negb (Qle_bool totalPopulation 0)
  then (totalShelterCapacity / totalPopulation) * 100
  else 0.

(** ** The analysis *)

Section Analysis.

(** [convertUTMToWGS84(easting, northing)] of [./config.js]: returns the
    array [[lng, lat]] or throws. *)
Variable convertUTMToWGS84 : number -> number -> completion (number * number).

(** Leaflet's [a.distanceTo(b)], in metres. *)
Variable distanceTo : L.LatLng -> L.LatLng -> Q.

(** The callback of [coords.map] in [performAnalysis]: the position as
    [[lat, lng]], or [null] when the conversion threw. *)
Definition convertCoord (coord : Coord) : completion (option (number * number)) :=
  try_catch
    (c0 <- index coord 0 ;;
     c1 <- index coord 1 ;;
     if gt c0 180 || gt c1 90 then
       wgs84 <- convertUTMToWGS84 c0 c1 ;;
       Normal (Some (snd wgs84, fst wgs84))
     else
       Normal (Some (c1, c0)))
    (fun err => Normal None).

(** [for (const coord of convertedCoords) { ... break; }]: is some vertex
    within the radius of the circle's centre? *)
Fixpoint anyVertexInCircle (convertedCoords : list (number * number))
         (shapeCenter : L.LatLng) (shapeRadius : Q) : completion bool :=
  match convertedCoords with
  | [] => Normal false
  | coord :: rest =>
      point <- L.latLng (fst coord) (snd coord) ;;
      if Qle_bool (distanceTo point shapeCenter) shapeRadius
      then Normal true
      else anyVertexInCircle rest shapeCenter shapeRadius
  end.

(** [isIntersecting], for the converted ring of a population area. *)
Definition isIntersecting (drawnShape : L.Layer)
           (convertedCoords : list (number * number)) : completion bool :=
  polygon <- L.polygon convertedCoords ;;
  let polygonBounds := L.getBounds polygon in
  match drawnShape with
  | L.Circle shapeCenter shapeRadius shapeBounds =>
      boxes <- L.intersects polygonBounds shapeBounds ;;
      if boxes
      then anyVertexInCircle convertedCoords shapeCenter shapeRadius
      else Normal false
  | L.Rectangle shapeBounds | L.Polygon shapeBounds =>
      L.intersects polygonBounds shapeBounds
  end.

(** [area.geom.coordinates[0] || area.geom.coordinates], when it is an
    array: the first ring, or the (empty) array of rings itself. *)
Definition firstRing (rings : list (list Coord)) : list Coord :=
  match rings with
  | ring :: _ => ring
  | [] => []
  end.

(** The callback of [populationData.forEach]. *)
Definition areaCallback (drawnShape : L.Layer) (s : Locals) (area : Area.t)
  : completion Locals :=
  let s := inc_areasProcessed s in
  match Area.geom area with
  | None => Normal s
  | Some geom =>
  match Area.coordinates geom with
  | None => Normal s
  | Some coordinates =>
  match truthyNumber (Area.poptot area) with
  | None => Normal s
  | Some poptot =>
      try_catch
        (match coordinates with
         | NotArray => Normal s
         | Rings rings =>
             mapped <- Array_map convertCoord (firstRing rings) ;;
             let convertedCoords := filter_not_null mapped in
             if (length convertedCoords <? 3)%nat then Normal s
             else
               hit <- isIntersecting drawnShape convertedCoords ;;
               if hit then Normal (add_population poptot s) else Normal s
         end)
        (fun error => Normal (inc_areasWithErrors s))
  end end end.

(** [isInside], for the position of a bunker. *)
Definition isInside (drawnShape : L.Layer) (bunkerLatLng : L.LatLng) : bool :=
  match drawnShape with
  | L.Circle shapeCenter shapeRadius _ =>
      Qle_bool (distanceTo bunkerLatLng shapeCenter) shapeRadius
  | L.Rectangle shapeBounds | L.Polygon shapeBounds =>
      L.contains shapeBounds bunkerLatLng
  end.

(** The callback of [bunkerData.forEach]. *)
Definition bunkerCallback (drawnShape : L.Layer) (s : Locals) (bunker : Bunker.t)
  : completion Locals :=
  match Bunker.geom bunker with
  | None => Normal s
  | Some geom =>
  match Bunker.coordinates geom with
  | None => Normal s
  | Some coordinates =>
  match truthyNumber (Bunker.plasser bunker) with
  | None => Normal s
  | Some plasser =>
      try_catch
        (let utmEasting := nth 0 coordinates NaN in
         let utmNorthing := nth 1 coordinates NaN in
         wgs84Coords <- convertUTMToWGS84 utmEasting utmNorthing ;;
         let lat := snd wgs84Coords in
         let lng := fst wgs84Coords in
         bunkerLatLng <- L.latLng lat lng ;;
         if isInside drawnShape bunkerLatLng
         then Normal (add_capacity plasser s)
         else Normal s)
        (fun error => Normal s)
  end end end.

(** [performAnalysis(drawnShape, populationData, bunkerData, shelterData)];
    [shelterData] is never read.  The result is what the function has
    computed when it hands over to [updateAnalysisResults]. *)
Definition performAnalysis (drawnShape : L.Layer)
           (populationData : list Area.t) (bunkerData : list Bunker.t)
  : completion AnalysisResult :=
  let s := initialLocals in
  s <- (if (length populationData =? 0)%nat then Normal s
        else forEach (areaCallback drawnShape) populationData s) ;;
  s <- (if (length bunkerData =? 0)%nat then Normal s
        else forEach (bunkerCallback drawnShape) bunkerData s) ;;
  Normal (mkResult s (coverage (totalShelterCapacity s) (totalPopulation s))).

End Analysis.

(** ** The analysis with its sums on doubles *)

(** JavaScript numbers are IEEE 754 doubles.  The only arithmetic of
    [performAnalysis] is that of its two sums and of the coverage: the
    coordinates are compared, never added.  Here the populations, the
    capacities, the sums and the coverage are doubles, with the rounding
    of [+=], [/] and [*]; the geometry is as above. *)
Module Doubles.

Import PrimFloat.

(** [!x] for a number [x]: true of [0], [-0] and [NaN]. *)
Definition falsy (x : float) : bool :=
  PrimFloat.eqb x 0%float || negb (PrimFloat.eqb x x).

Module Area.
Record t : Type := mk { geom : option Area.Geom; poptot : float }.
End Area.

Module Bunker.
Record t : Type := mk { geom : option Bunker.Geom; plasser : float }.
End Bunker.

(** The [let] variables of [performAnalysis]. *)
Record Locals : Type := mkLocals {
  totalPopulation : float;
  areasIntersected : nat;
  areasProcessed : nat;
  areasWithErrors : nat;
  totalShelterCapacity : float;
  bunkersInside : nat
}.

Record AnalysisResult : Type := mkResult {
  locals :> Locals;
  coveragePercentage : float
}.

(** [let totalPopulation = 0; ...] *)
Definition initialLocals : Locals := mkLocals 0%float 0 0 0 0%float 0.

(** [areasProcessed++] *)
Definition inc_areasProcessed (s : Locals) : Locals :=
  mkLocals (totalPopulation s) (areasIntersected s) (S (areasProcessed s))
           (areasWithErrors s) (totalShelterCapacity s) (bunkersInside s).

(** [areasWithErrors++] *)
Definition inc_areasWithErrors (s : Locals) : Locals :=
  mkLocals (totalPopulation s) (areasIntersected s) (areasProcessed s)
           (S (areasWithErrors s)) (totalShelterCapacity s) (bunkersInside s).

(** [areasIntersected++; totalPopulation += area.poptot;] *)
Definition add_population (poptot : float) (s : Locals) : Locals :=
  mkLocals (PrimFloat.add (totalPopulation s) poptot) (S (areasIntersected s))
           (areasProcessed s) (areasWithErrors s) (totalShelterCapacity s)
           (bunkersInside s).

(** [bunkersInside++; totalShelterCapacity += bunker.plasser;] *)
Definition add_capacity (plasser : float) (s : Locals) : Locals :=
  mkLocals (totalPopulation s) (areasIntersected s) (areasProcessed s)
           (areasWithErrors s) (PrimFloat.add (totalShelterCapacity s) plasser)
           (S (bunkersInside s)).

(** [totalPopulation > 0 ? (totalShelterCapacity / totalPopulation) * 100 : 0] *)
Definition coverage (totalShelterCapacity totalPopulation : float) : float :=
  if PrimFloat.ltb 0%float totalPopulation
  then PrimFloat.mul (PrimFloat.div totalShelterCapacity totalPopulation) 100%float
  else 0%float.

(** The four counts of the locals: areas intersected, processed and with
    errors, and bunkers inside. *)
Definition counts (s : Locals) : nat * nat * nat * nat :=
  (areasIntersected s, areasProcessed s, areasWithErrors s, bunkersInside s).

Section Analysis.

Variable convertUTMToWGS84 : number -> number -> completion (number * number).
Variable distanceTo : L.LatLng -> L.LatLng -> Q.

(** The callback of [populationData.forEach]. *)
Definition areaCallback (drawnShape : L.Layer) (s : Locals) (area : Area.t)
  : completion Locals :=
  let s := inc_areasProcessed s in
  match Area.geom area with
  | None => Normal s
  | Some geom =>
  match Area.coordinates geom with
  | None => Normal s
  | Some coordinates =>
  if falsy (Area.poptot area) then Normal s
  else
      try_catch
        (match coordinates with
         | NotArray => Normal s
         | Rings rings =>
             mapped <- Array_map (convertCoord convertUTMToWGS84) (firstRing rings) ;;
             let convertedCoords := filter_not_null mapped in
             if (length convertedCoords <? 3)%nat then Normal s
             else
               hit <- isIntersecting distanceTo drawnShape convertedCoords ;;
               if hit then Normal (add_population (Area.poptot area) s) else Normal s
         end)
        (fun error => Normal (inc_areasWithErrors s))
  end end.

(** The callback of [bunkerData.forEach]. *)
Definition bunkerCallback (drawnShape : L.Layer) (s : Locals) (bunker : Bunker.t)
  : completion Locals :=
  match Bunker.geom bunker with
  | None => Normal s
  | Some geom =>
  match Bunker.coordinates geom with
  | None => Normal s
  | Some coordinates =>
  if falsy (Bunker.plasser bunker) then Normal s
  else
      try_catch
        (let utmEasting := nth 0 coordinates NaN in
         let utmNorthing := nth 1 coordinates NaN in
         wgs84Coords <- convertUTMToWGS84 utmEasting utmNorthing ;;
         let lat := snd wgs84Coords in
         let lng := fst wgs84Coords in
         bunkerLatLng <- L.latLng lat lng ;;
         if isInside distanceTo drawnShape bunkerLatLng
         then Normal (add_capacity (Bunker.plasser bunker) s)
         else Normal s)
        (fun error => Normal s)
  end end.

(** [performAnalysis(drawnShape, populationData, bunkerData, shelterData)] *)
Definition performAnalysis (drawnShape : L.Layer)
           (populationData : list Area.t) (bunkerData : list Bunker.t)
  : completion AnalysisResult :=
  let s := initialLocals in
  s <- (if (length populationData =? 0)%nat then Normal s
        else forEach (areaCallback drawnShape) populationData s) ;;
  s <- (if (length bunkerData =? 0)%nat then Normal s
        else forEach (bunkerCallback drawnShape) bunkerData s) ;;
  Normal (mkResult s (coverage (totalShelterCapacity s) (totalPopulation s))).

End Analysis.

End Doubles.

(** ** Loading the population layer *)

(** [getColorByPopulation(population)] *)
Definition getColorByPopulation (population : Q) : string :=
  if negb (Qle_bool population 2000) then "#BD0026"%string
  else if negb (Qle_bool population 1000) then "#FC4E2A"%string
  else if negb (Qle_bool population 500) then "#FD8D3C"%string
  else if negb (Qle_bool population 100) then "#FEB24C"%string
  else "#FFEDA0"%string.

(** A polygon on the population layer: the vertices it was built from
    (what [L.polygon] of this file returns), its fill colour
    and the population shown in its popup. *)
Record DrawnPolygon : Type := mkDrawn {
  latlngs : list L.LatLng;
  fillColor : string;
  popup : Q
}.

(** [successCount], [errorCount] and the layer being filled. *)
Record LoadState : Type := mkLoad {
  successCount : nat;
  errorCount : nat;
  populationLayer : list DrawnPolygon
}.

(** [errorCount++] *)
Definition inc_errorCount (s : LoadState) : LoadState :=
  mkLoad (successCount s) (S (errorCount s)) (populationLayer s).

Section Loading.

Variable convertUTMToWGS84 : number -> number -> completion (number * number).

(** The callback of [coords.forEach] in [loadPopulationData], pushing onto
    [polygonCoords]. *)
Definition loadCoord (polygonCoords : list (number * number)) (coord : Coord)
  : completion (list (number * number)) :=
  try_catch
    (match coord with
     | None => Throw Error
     | Some elems =>
         if (length elems <? 2)%nat then Throw Error
         else
           c0 <- index coord 0 ;;
           c1 <- index coord 1 ;;
           if gt c0 180 || gt c1 90 then
             wgs84 <- convertUTMToWGS84 c0 c1 ;;
             Normal (polygonCoords ++ [(snd wgs84, fst wgs84)])
           else
             Normal (polygonCoords ++ [(c1, c0)])
     end)
    (fun err => Normal polygonCoords).

(** The callback of [populationData.forEach] in [loadPopulationData].
    Which rings Leaflet accepts is what [L.polygon] models: for a ring
    whose first vertex starts with [undefined], Leaflet's own
    constructor does not fail, and the source then counts a success
    where this callback counts an error. *)
Definition loadCallback (s : LoadState) (area : Area.t) : completion LoadState :=
  try_catch
    (match Area.geom area with
     | None => Normal s
     | Some geom =>
     match truthyNumber (Area.poptot area) with
     | None => Normal s
     | Some poptot =>
     match Area.coordinates geom with
     | Some (Rings rings) =>
         polygonCoords <- forEach loadCoord (firstRing rings) [] ;;
         if (length polygonCoords <? 3)%nat then Normal (inc_errorCount s)
         else
           polygon <- L.polygon polygonCoords ;;
           Normal (mkLoad (S (successCount s)) (errorCount s)
                          (populationLayer s
                           ++ [mkDrawn polygon (getColorByPopulation poptot) poptot]))
     | Some NotArray | None => Normal (inc_errorCount s)
     end end end)
    (fun error => Normal (inc_errorCount s)).

(** The logging of the first item: reads [sampleCoords[0][0]] outside any
    [try]. *)
Definition logFirstItem (populationData : list Area.t) : completion unit :=
  match populationData with
  | [] => Normal tt
  | first :: _ =>
      match Area.geom first with
      | None => Normal tt
      | Some geom =>
          match Area.coordinates geom with
          | Some (Rings rings) =>
              match firstRing rings with
              | [] => Normal tt
              | sample :: _ =>
                  c0 <- index sample 0 ;;
                  c1 <- index sample 1 ;;
                  Normal tt
              end
          | Some NotArray | None => Normal tt
          end
      end
  end.

(** [loadPopulationData(populationData, populationLayer)]: the counts it
    logs and the layer it leaves. *)
Definition loadPopulationData (populationData : list Area.t)
           (populationLayer : list DrawnPolygon) : completion LoadState :=
  if (length populationData =? 0)%nat then Normal (mkLoad 0 0 populationLayer)
  else
    _ <- logFirstItem populationData ;;
    forEach loadCallback populationData (mkLoad 0 0 populationLayer).

End Loading.

(** ** The results panel *)

(** The elements of the page that the module writes: the text of
    [#analysis-info], [#population-count], [#shelter-capacity] and
    [#coverage-percentage], the [style.color] of [#coverage-percentage]
    and the [style.display] of [#analysis-results].  The page is taken
    to have these elements. *)
Record Dom : Type := mkDom {
  analysis_info : string;
  population_count : string;
  shelter_capacity : string;
  coverage_percentage : string;
  coverage_percentage_color : string;
  analysis_results_display : string
}.

(** [clearAnalysisResults()] *)
Definition clearAnalysisResults (dom : Dom) : Dom :=
  mkDom "Tegn et område på kartet for å analysere befolkning og tilfluktsromkapasitet."
        (population_count dom) (shelter_capacity dom) (coverage_percentage dom)
        (coverage_percentage_color dom) "none".

Section Panel.

(** [n.toLocaleString()] and [n.toFixed(digits)], which depend on the
    locale and on the printing of doubles. *)
Variable toLocaleString : Q -> string.
Variable toFixed : Q -> nat -> string.

(** [updateAnalysisResults(population, capacity, coverage)] *)
Definition updateAnalysisResults (population capacity coverage : Q) (dom : Dom) : Dom :=
  let dom := mkDom "Analyseresultater for det valgte området:"
                   (population_count dom) (shelter_capacity dom)
                   (coverage_percentage dom) (coverage_percentage_color dom)
                   (analysis_results_display dom) in
  let dom := mkDom (analysis_info dom)
                   (toLocaleString population ++ " personer")
                   (shelter_capacity dom)
                   (coverage_percentage dom) (coverage_percentage_color dom)
                   (analysis_results_display dom) in
  let dom := mkDom (analysis_info dom) (population_count dom)
                   (toLocaleString capacity ++ " plasser")
                   (coverage_percentage dom) (coverage_percentage_color dom)
                   (analysis_results_display dom) in
  let dom := mkDom (analysis_info dom) (population_count dom) (shelter_capacity dom)
                   (toFixed coverage 2 ++ "%") (coverage_percentage_color dom)
                   (analysis_results_display dom) in
  let dom := mkDom (analysis_info dom) (population_count dom) (shelter_capacity dom)
                   (coverage_percentage dom)
                   (if negb (Qle_bool 33 coverage) then "#d32f2f"
                    else if negb (Qle_bool 66 coverage) then "#f57c00"
                    else "#388e3c")
                   (analysis_results_display dom) in
  mkDom (analysis_info dom) (population_count dom) (shelter_capacity dom)
        (coverage_percentage dom) (coverage_percentage_color dom) "block".

Variable convertUTMToWGS84 : number -> number -> completion (number * number).
Variable distanceTo : L.LatLng -> L.LatLng -> Q.

(** [performAnalysis] up to and including its last statement, the call of
    [updateAnalysisResults]: the page it leaves. *)
Definition performAnalysisOnPage (drawnShape : L.Layer)
           (populationData : list Area.t) (bunkerData : list Bunker.t) (dom : Dom)
  : completion Dom :=
  r <- performAnalysis convertUTMToWGS84 distanceTo drawnShape populationData bunkerData ;;
  Normal (updateAnalysisResults (totalPopulation r) (totalShelterCapacity r)
                                (coveragePercentage r) dom).

End Panel.

(** ** The drawing controls *)

(** [window.populationData] and [window.bunkerData]: an array, or
    [undefined] ([None]). *)
Module Window.
Record t : Type := mk {
  populationData : option (list Area.t);
  bunkerData : option (list Bunker.t)
}.
End Window.

(** What [initializeDrawing] sets up and its handlers work on: the layers
    of the feature group [drawnItems], the variable [currentDrawnShape],
    the polygons of [populationLayer], whether that layer is on the map,
    and the page. *)
Module App.
Record t : Type := mk {
  drawnItems : list L.Layer;
  currentDrawnShape : option L.Layer;
  populationLayer : list DrawnPolygon;
  populationLayerOnMap : bool;
  dom : Dom
}.
End App.

(** The events the handlers are registered for: [L.Draw.Event.CREATED]
    with [event.layer], [L.Draw.Event.EDITED] with the layers of
    [event.layers], [L.Draw.Event.DELETED], a click on [#clear-analysis],
    and a change of [#population-checkbox] with [e.target.checked]. *)
Inductive Event : Type :=
| CREATED (layer : L.Layer)
| EDITED (layers : list L.Layer)
| DELETED
| ClearClick
| CheckboxChange (checked : bool).

Section Drawing.

Variable toLocaleString : Q -> string.
Variable toFixed : Q -> nat -> string.
Variable convertUTMToWGS84 : number -> number -> completion (number * number).
Variable distanceTo : L.LatLng -> L.LatLng -> Q.
Variable window : Window.t.

(** [if (window.populationData && window.bunkerData) performAnalysis(...)] *)
Definition analyseIfData (layer : L.Layer) (dom : Dom) : completion Dom :=
  match Window.populationData window, Window.bunkerData window with
  | Some populationData, Some bunkerData =>
      performAnalysisOnPage toLocaleString toFixed convertUTMToWGS84 distanceTo
                            layer populationData bunkerData dom
  | _, _ => Normal dom
  end.

(** The callback of [layers.eachLayer] in the handler of
    [L.Draw.Event.EDITED]. *)
Definition editedLayer (app : App.t) (layer : L.Layer) : completion App.t :=
  dom <- analyseIfData layer (App.dom app) ;;
  Normal (App.mk (App.drawnItems app) (Some layer) (App.populationLayer app)
                 (App.populationLayerOnMap app) dom).

(** The handlers registered by [initializeDrawing]. *)
Definition handle (app : App.t) (event : Event) : completion App.t :=
  match event with
  | CREATED layer =>
      dom <- analyseIfData layer (App.dom app) ;;
      Normal (App.mk [layer] (Some layer) (App.populationLayer app)
                     (App.populationLayerOnMap app) dom)
  | EDITED layers => forEach editedLayer layers app
  | DELETED =>
      Normal (App.mk (App.drawnItems app) None (App.populationLayer app)
                     (App.populationLayerOnMap app)
                     (clearAnalysisResults (App.dom app)))
  | ClearClick =>
      Normal (App.mk [] None (App.populationLayer app)
                     (App.populationLayerOnMap app)
                     (clearAnalysisResults (App.dom app)))
  | CheckboxChange checked =>
      Normal (App.mk (App.drawnItems app) (App.currentDrawnShape app)
                     (App.populationLayer app) checked (App.dom app))
  end.

(** [initializeDrawing(map)], on a page [dom] whose population checkbox is
    [checked]: the state the handlers start from. *)
Definition initializeDrawing (checked : bool) (dom : Dom) : completion App.t :=
  populationLayer <-
    match Window.populationData window with
    | Some populationData =>
        if (length populationData =? 0)%nat then Normal []
        else
          loaded <- loadPopulationData convertUTMToWGS84 populationData [] ;;
          Normal (populationLayer loaded)
    | None => Normal []
    end ;;
  Normal (App.mk [] None populationLayer checked dom).

(** The page after [initializeDrawing] and a sequence of events. *)
Definition session (checked : bool) (dom : Dom) (events : list Event)
  : completion App.t :=
  app <- initializeDrawing checked dom ;;
  forEach handle events app.

End Drawing.

(** ** Datasets with [null] entries *)

(** The datasets arrive as JSON arrays, in which an entry may be [null]
    ([None]) where a record is expected.  The callbacks of the source
    on such an entry, and the functions of the source that are built on
    them; on a record they are the definitions above. *)
Module Entries.

Section Analysis.

Variable convertUTMToWGS84 : number -> number -> completion (number * number).
Variable distanceTo : L.LatLng -> L.LatLng -> Q.

(** The callback of [populationData.forEach] in [performAnalysis]: after
    [areasProcessed++] the presence check reads [area.geom], outside the
    [try]; on [null] this is a [TypeError] that the callback does not
    catch. *)
Definition areaCallback (drawnShape : L.Layer) (s : Locals) (area : option Area.t)
  : completion Locals :=
  match area with
  | None => Throw TypeError
  | Some area => areaCallback convertUTMToWGS84 distanceTo drawnShape s area
  end.

(** The callback of [bunkerData.forEach]: the presence check reads
    [bunker.geom], outside the [try]. *)
Definition bunkerCallback (drawnShape : L.Layer) (s : Locals) (bunker : option Bunker.t)
  : completion Locals :=
  match bunker with
  | None => Throw TypeError
  | Some bunker => bunkerCallback convertUTMToWGS84 distanceTo drawnShape s bunker
  end.

(** [performAnalysis(drawnShape, populationData, bunkerData, shelterData)] *)
Definition performAnalysis (drawnShape : L.Layer)
           (populationData : list (option Area.t)) (bunkerData : list (option Bunker.t))
  : completion AnalysisResult :=
  let s := initialLocals in
  s <- (if (length populationData =? 0)%nat then Normal s
        else forEach (areaCallback drawnShape) populationData s) ;;
  s <- (if (length bunkerData =? 0)%nat then Normal s
        else forEach (bunkerCallback drawnShape) bunkerData s) ;;
  Normal (mkResult s (coverage (totalShelterCapacity s) (totalPopulation s))).

(** The callback of [populationData.forEach] in [loadPopulationData]: the
    presence check reads [area.geom] inside the [try], whose [catch]
    counts the [TypeError] of a [null] entry in [errorCount]. *)
Definition loadCallback (s : LoadState) (area : option Area.t) : completion LoadState :=
  try_catch
    (match area with
     | None => Throw TypeError
     | Some area => loadCallback convertUTMToWGS84 s area
     end)
    (fun error => Normal (inc_errorCount s)).

End Analysis.

(** [window.populationData] and [window.bunkerData]: an array, or
    [undefined] ([None]). *)
Module Window.
Record t : Type := mk {
  populationData : option (list (option Area.t));
  bunkerData : option (list (option Bunker.t))
}.
End Window.

Section Drawing.

Variable toLocaleString : Q -> string.
Variable toFixed : Q -> nat -> string.
Variable convertUTMToWGS84 : number -> number -> completion (number * number).
Variable distanceTo : L.LatLng -> L.LatLng -> Q.
Variable window : Window.t.

(** [performAnalysis] up to and including its last statement, the call of
    [updateAnalysisResults]: the page it leaves. *)
Definition performAnalysisOnPage (drawnShape : L.Layer)
           (populationData : list (option Area.t)) (bunkerData : list (option Bunker.t))
           (dom : Dom) : completion Dom :=
  r <- performAnalysis convertUTMToWGS84 distanceTo drawnShape populationData bunkerData ;;
  Normal (updateAnalysisResults toLocaleString toFixed
            (totalPopulation r) (totalShelterCapacity r) (coveragePercentage r) dom).

(** [if (window.populationData && window.bunkerData) performAnalysis(...)] *)
Definition analyseIfData (layer : L.Layer) (dom : Dom) : completion Dom :=
  match Window.populationData window, Window.bunkerData window with
  | Some populationData, Some bunkerData =>
      performAnalysisOnPage layer populationData bunkerData dom
  | _, _ => Normal dom
  end.

(** The callback of [layers.eachLayer] in the handler of
    [L.Draw.Event.EDITED]. *)
Definition editedLayer (app : App.t) (layer : L.Layer) : completion App.t :=
  dom <- analyseIfData layer (App.dom app) ;;
  Normal (App.mk (App.drawnItems app) (Some layer) (App.populationLayer app)
                 (App.populationLayerOnMap app) dom).

(** The handlers registered by [initializeDrawing]. *)
Definition handle (app : App.t) (event : Event) : completion App.t :=
  match event with
  | CREATED layer =>
      dom <- analyseIfData layer (App.dom app) ;;
      Normal (App.mk [layer] (Some layer) (App.populationLayer app)
                     (App.populationLayerOnMap app) dom)
  | EDITED layers => forEach editedLayer layers app
  | DELETED =>
      Normal (App.mk (App.drawnItems app) None (App.populationLayer app)
                     (App.populationLayerOnMap app)
                     (clearAnalysisResults (App.dom app)))
  | ClearClick =>
      Normal (App.mk [] None (App.populationLayer app)
                     (App.populationLayerOnMap app)
                     (clearAnalysisResults (App.dom app)))
  | CheckboxChange checked =>
      Normal (App.mk (App.drawnItems app) (App.currentDrawnShape app)
                     (App.populationLayer app) checked (App.dom app))
  end.

End Drawing.

End Entries.

(** ** Auxiliary notions used by the statements *)

(** What a population record does to the locals. *)
Inductive AreaVerdict : Type :=
| AreaSkipped
| AreaFailed
| AreaHit (poptot : Q).

Definition applyAreaVerdict (v : AreaVerdict) (s : Locals) : Locals :=
  match v with
  | AreaSkipped => inc_areasProcessed s
  | AreaFailed => inc_areasWithErrors (inc_areasProcessed s)
  | AreaHit poptot => add_population poptot (inc_areasProcessed s)
  end.

(** What a bunker record does to the locals. *)
Inductive BunkerVerdict : Type :=
| BunkerSkipped
| BunkerHit (plasser : Q).

Definition applyBunkerVerdict (v : BunkerVerdict) (s : Locals) : Locals :=
  match v with
  | BunkerSkipped => s
  | BunkerHit plasser => add_capacity plasser s
  end.

(** The data model's invariant on populations: none is negative. *)
Definition nonNegativePopulations (populationData : list Area.t) : Prop :=
  Forall (fun area => match Area.poptot area with
                      | Num q => 0 <= q
                      | NaN => True
                      end) populationData.

(** The locals after a completion, the given ones if it threw. *)
Definition after {S} (s : S) (c : completion S) : S :=
  match c with
  | Normal s' => s'
  | Throw _ => s
  end.

(** What one record does to the locals, as a total function. *)
Definition areaEffect convertUTMToWGS84 distanceTo (drawnShape : L.Layer)
           (s : Locals) (area : Area.t) : Locals :=
  after s (areaCallback convertUTMToWGS84 distanceTo drawnShape s area).

Definition bunkerEffect convertUTMToWGS84 distanceTo (drawnShape : L.Layer)
           (s : Locals) (bunker : Bunker.t) : Locals :=
  after s (bunkerCallback convertUTMToWGS84 distanceTo drawnShape s bunker).

(** A vertex as the pair [[lat, lng]] of [convertedCoords]. *)
Definition pairOf (p : L.LatLng) : number * number :=
  (Num (L.lat p), Num (L.lng p)).

(** The point is between the corners of the box, edges included. *)
Definition withinBox (bounds : L.LatLngBounds) (p : L.LatLng) : Prop :=
  L.lat (L.southWest bounds) <= L.lat p <= L.lat (L.northEast bounds)
  /\ L.lng (L.southWest bounds) <= L.lng p <= L.lng (L.northEast bounds).

(** The box encloses every vertex and each of its four sides passes
    through one: it is the axis-aligned bounding box of the vertices. *)
Definition isBoundingBox (box : L.LatLngBounds) (vs : list L.LatLng) : Prop :=
  (forall v, In v vs -> withinBox box v)
  /\ (exists v, In v vs /\ L.lat v == L.lat (L.southWest box))
  /\ (exists v, In v vs /\ L.lng v == L.lng (L.southWest box))
  /\ (exists v, In v vs /\ L.lat v == L.lat (L.northEast box))
  /\ (exists v, In v vs /\ L.lng v == L.lng (L.northEast box)).

(** Two boxes overlap, in latitude and in longitude (shared edges count). *)
Definition boxesOverlap (a b : L.LatLngBounds) : Prop :=
  (L.lat (L.southWest a) <= L.lat (L.northEast b)
   /\ L.lat (L.southWest b) <= L.lat (L.northEast a))
  /\ (L.lng (L.southWest a) <= L.lng (L.northEast b)
      /\ L.lng (L.southWest b) <= L.lng (L.northEast a)).

(** The bounding box of the vertices overlaps the circle's, and some vertex
    is within the radius of its centre. *)
Definition circleHit (distanceTo : L.LatLng -> L.LatLng -> Q)
           (center : L.LatLng) (radius : Q) (bounds : L.LatLngBounds)
           (vs : list L.LatLng) : Prop :=
  (exists box, isBoundingBox box vs /\ L.getBounds vs = Some box
               /\ boxesOverlap box bounds)
  /\ exists v, In v vs /\ distanceTo v center <= radius.

(** The data model's invariant on capacities: none is negative. *)
Definition nonNegativeCapacities (bunkerData : list Bunker.t) : Prop :=
  Forall (fun bunker => match Bunker.plasser bunker with
                        | Num q => 0 <= q
                        | NaN => True
                        end) bunkerData.

(** A converted vertex one of whose components is not a number. *)
Definition hasNaN (c : number * number) : Prop :=
  fst c = NaN \/ snd c = NaN.

(** The first box lies within the second. *)
Definition boundsWithin (a b : L.LatLngBounds) : Prop :=
  (L.lat (L.southWest b) <= L.lat (L.southWest a)
   /\ L.lat (L.northEast a) <= L.lat (L.northEast b))
  /\ (L.lng (L.southWest b) <= L.lng (L.southWest a)
      /\ L.lng (L.northEast a) <= L.lng (L.northEast b)).

(** The first shape lies within the second: two circles about the same
    centre with growing radius and bounds, or two bounded regions
    (rectangle or polygon) with growing bounds. *)
Definition shapeWithin (a b : L.Layer) : Prop :=
  match a, b with
  | L.Circle c r bounds, L.Circle c' r' bounds' =>
      c = c' /\ r <= r' /\ boundsWithin bounds bounds'
  | (L.Rectangle bounds | L.Polygon bounds), (L.Rectangle bounds' | L.Polygon bounds') =>
      boundsWithin bounds bounds'
  | _, _ => False
  end.

(** Every sum and count of the first locals is at most that of the
    second, the processed and error counts being equal. *)
Definition LocalsLe (s t : Locals) : Prop :=
  totalPopulation s <= totalPopulation t
  /\ (areasIntersected s <= areasIntersected t)%nat
  /\ areasProcessed s = areasProcessed t
  /\ areasWithErrors s = areasWithErrors t
  /\ totalShelterCapacity s <= totalShelterCapacity t
  /\ (bunkersInside s <= bunkersInside t)%nat.

(** The second test fails as the first does, and succeeds if the first
    succeeds. *)
Definition outcomeLe (c c' : completion bool) : Prop :=
  match c, c' with
  | Throw _, Throw _ => True
  | Normal true, Normal true => True
  | Normal false, Normal _ => True
  | _, _ => False
  end.

(** The first area has a geometry whose first ring starts with a [null]
    position. *)
Definition firstPositionIsNull (populationData : list Area.t) : Prop :=
  exists first rest geom rings ring,
    populationData = first :: rest
    /\ Area.geom first = Some geom
    /\ Area.coordinates geom = Some (Rings rings)
    /\ firstRing rings = None :: ring.

(** A polygon as the loader styles it: the population of its popup is
    not [0], and its fill colour is the colour of that population. *)
Definition styledByPopulation (d : DrawnPolygon) : Prop :=
  ~ popup d == 0
  /\ fillColor d = getColorByPopulation (popup d).

(** A converted vertex both of whose components are numbers. *)
Definition isValidVertex (c : number * number) : bool :=
  match fst c, snd c with
  | Num _, Num _ => true
  | _, _ => false
  end.

(** The valid vertices among the positions left of a ring. *)
Definition validVertices (convertedCoords : list (number * number))
  : list (number * number) :=
  filter isValidVertex convertedCoords.

(** The point is inside the shape as the analysis takes it: within the
    radius of a circle's centre, or within the bounds of a rectangle or
    a drawn polygon. *)
Definition insideShape (distanceTo : L.LatLng -> L.LatLng -> Q)
           (drawnShape : L.Layer) (p : L.LatLng) : Prop :=
  match drawnShape with
  | L.Circle center radius _ => distanceTo p center <= radius
  | L.Rectangle bounds | L.Polygon bounds => withinBox bounds p
  end.

(** What a record does to the four counts of the locals. *)
Inductive CountEffect : Type :=
| CountNothing
| CountProcessed
| CountProcessedError
| CountProcessedIntersected
| CountInside.

Definition applyCountEffect (e : CountEffect) (c : nat * nat * nat * nat)
  : nat * nat * nat * nat :=
  match c with
  | (intersected, processed, errors, inside) =>
      match e with
      | CountNothing => c
      | CountProcessed => (intersected, S processed, errors, inside)
      | CountProcessedError => (intersected, S processed, S errors, inside)
      | CountProcessedIntersected => (S intersected, S processed, errors, inside)
      | CountInside => (intersected, processed, errors, S inside)
      end
  end.

(** The event makes a handler run the analysis when data is there: a
    creation, or an edit of at least one layer. *)
Definition drawsShape (event : Event) : Prop :=
  match event with
  | CREATED _ => True
  | EDITED layers => layers <> []
  | _ => False
  end.

(** Every position of the ring is [null] or has at least two components. *)
Definition positionsWellFormed (ring : list Coord) : Prop :=
  Forall (fun coord => match coord with
                       | None => True
                       | Some elems => (2 <= length elems)%nat
                       end) ring.

(** The results panel is shown exactly when a shape is current. *)
Definition panelMatchesShape (app : App.t) : Prop :=
  match App.currentDrawnShape app with
  | Some _ => analysis_results_display (App.dom app) = "block"%string
  | None => analysis_results_display (App.dom app) = "none"%string
  end.

(** Both datasets are defined. *)
Definition hasData (window : Window.t) (populationData : list Area.t)
           (bunkerData : list Bunker.t) : Prop :=
  Window.populationData window = Some populationData
  /\ Window.bunkerData window = Some bunkerData.

(** The event is the drawing or the editing of shapes. *)
Definition isDrawEvent (event : Event) : Prop :=
  match event with
  | CREATED _ | EDITED _ => True
  | _ => False
  end.

(** ** Sample collaborators and data, for concrete runs *)

(** A stand-in conversion: scales metres down to degrees, throws on [NaN]. *)
Definition sampleConvert (easting northing : number) : completion (number * number) :=
  match easting, northing with
  | Num e, Num n => Normal (Num (e / 100000), Num (n / 100000))
  | _, _ => Throw Error
  end.

(** A conversion that always throws. *)
Definition failingConvert (easting northing : number) : completion (number * number) :=
  Throw Error.

(** A stand-in distance: 100 km per degree along each axis, summed. *)
Definition sampleDistance (a b : L.LatLng) : Q :=
  (Qabs (L.lat a - L.lat b) + Qabs (L.lng a - L.lng b)) * 100000.

Definition sampleCircle : L.Layer :=
  L.Circle (L.mkLatLng 60 10) 1000
           (L.mkBounds (L.mkLatLng (5999 # 100) (999 # 100))
                       (L.mkLatLng (6001 # 100) (1001 # 100))).

Definition sampleRectangle : L.Layer :=
  L.Rectangle (L.mkBounds (L.mkLatLng 59 9) (L.mkLatLng 61 11)).

(** A geographic triangle around (60, 10), positions as [[lng, lat]]. *)
Definition sampleRing : list Coord :=
  [ Some [Num 10; Num 60];
    Some [Num (1001 # 100); Num 60];
    Some [Num 10; Num (6001 # 100)] ].

Definition sampleArea (poptot : number) : Area.t :=
  Area.mk (Some (Area.mkGeom (Some (Rings [sampleRing])))) poptot.

(** The same area with its third position [null]: two usable vertices. *)
Definition sampleShortArea : Area.t :=
  Area.mk (Some (Area.mkGeom (Some (Rings
    [[ Some [Num 10; Num 60]; Some [Num (1001 # 100); Num 60]; None ]]))))
    (Num 150).

(** An area whose second position lacks its latitude. *)
Definition sampleMalformedArea : Area.t :=
  Area.mk (Some (Area.mkGeom (Some (Rings
    [[ Some [Num 10; Num 60]; Some [Num 10]; Some [Num 10; Num (6001 # 100)] ]]))))
    (Num 150).

Definition sampleBunker (plasser : number) : Bunker.t :=
  Bunker.mk (Some (Bunker.mkGeom (Some [Num 1000000; Num 6000000]))) plasser.

(** Stand-ins for the number formatting. *)
Definition sampleToLocaleString (n : Q) : string := "n"%string.

Definition sampleToFixed (n : Q) (digits : nat) : string := "n.nn"%string.

Definition sampleLargeRectangle : L.Layer :=
  L.Rectangle (L.mkBounds (L.mkLatLng 58 8) (L.mkLatLng 62 12)).

(** A page whose results panel is hidden. *)
Definition samplePage : Dom := mkDom "" "" "" "" "" "none".

Definition sampleWindow : Window.t :=
  Window.mk (Some [sampleArea (Num 150)]) (Some [sampleBunker (Num 40)]).

(** A window whose bunker dataset is undefined. *)
Definition sampleWindowWithoutBunkers : Window.t :=
  Window.mk (Some [sampleArea (Num 150)]) None.

Definition sampleApp : App.t := App.mk [] None [] true samplePage.

Definition sampleEvents : list Event :=
  [ CREATED sampleCircle; DELETED; CheckboxChange false;
    EDITED [sampleRectangle]; ClearClick ].

(** ** Concrete runs *)

Example run_circle_area :
  performAnalysis sampleConvert sampleDistance sampleCircle [sampleArea (Num 150)] []
  = Normal (mkResult (mkLocals (0 + 150) 1 1 0 0 0) ((0 / (0 + 150)) * 100)).
Proof. vm_compute. reflexivity. Qed.

Example run_rectangle_bunker :
  performAnalysis sampleConvert sampleDistance sampleRectangle [] [sampleBunker (Num 40)]
  = Normal (mkResult (mkLocals 0 0 0 0 (0 + 40) 1) 0).
Proof. vm_compute. reflexivity. Qed.

Example run_malformed :
  performAnalysis sampleConvert sampleDistance sampleRectangle
                  [sampleMalformedArea; sampleShortArea; sampleArea (Num 7)] []
  = Normal (mkResult (mkLocals (0 + 7) 1 3 1 0 0) ((0 / (0 + 7)) * 100)).
Proof. vm_compute. reflexivity. Qed.

Example run_geographic_bounds :
  convertCoord failingConvert (Some [Num 180; Num 90]) = Normal (Some (Num 90, Num 180)).
Proof. reflexivity. Qed.

Example run_geographic_negative :
  convertCoord failingConvert (Some [Num (-200); Num (-100)])
  = Normal (Some (Num (-100), Num (-200))).
Proof. reflexivity. Qed.

Example run_geographic_zero :
  convertCoord failingConvert (Some [Num 0; Num 0]) = Normal (Some (Num 0, Num 0)).
Proof. reflexivity. Qed.

Example run_projected_above_bound :
  convertCoord sampleConvert (Some [Num (1801 # 10); Num 0])
  = Normal (Some (Num (0 / 100000), Num ((1801 # 10) / 100000))).
Proof. reflexivity. Qed.

Example run_projected_dropped :
  convertCoord failingConvert (Some [Num 0; Num 91]) = Normal None.
Proof. reflexivity. Qed.

Example run_failing_conversion :
  performAnalysis failingConvert sampleDistance sampleRectangle
                  [sampleArea (Num 150)] [sampleBunker (Num 40)]
  = Normal (mkResult (mkLocals (0 + 150) 1 1 0 0 0) ((0 / (0 + 150)) * 100)).
Proof. vm_compute. reflexivity. Qed.

(** ** Updates of the locals commute *)

(** Sums of rationals are rearranged without changing their
    representation: the equalities below are plain equalities. *)
Lemma Qplus_swap (t p q : Q) : t + p + q = t + q + p.
Proof.
  destruct t as [tn td], p as [pn pd], q as [qn qd].
  unfold Qplus; cbn [Qnum Qden].
  f_equal; [rewrite !Pos2Z.inj_mul; ring | lia].
Qed.

Lemma applyAreaVerdict_comm (v w : AreaVerdict) (s : Locals) :
  applyAreaVerdict v (applyAreaVerdict w s) = applyAreaVerdict w (applyAreaVerdict v s).
Proof.
  destruct v as [| |p], w as [| |q]; try reflexivity.
  unfold applyAreaVerdict, add_population, inc_areasProcessed;
    cbn [totalPopulation areasIntersected areasProcessed areasWithErrors
         totalShelterCapacity bunkersInside].
  rewrite (Qplus_swap (totalPopulation s) q p). reflexivity.
Qed.

Lemma applyBunkerVerdict_comm (v w : BunkerVerdict) (s : Locals) :
  applyBunkerVerdict v (applyBunkerVerdict w s)
  = applyBunkerVerdict w (applyBunkerVerdict v s).
Proof.
  destruct v as [|p], w as [|q]; try reflexivity.
  unfold applyBunkerVerdict, add_capacity;
    cbn [totalPopulation areasIntersected areasProcessed areasWithErrors
         totalShelterCapacity bunkersInside].
  rewrite (Qplus_swap (totalShelterCapacity s) q p). reflexivity.
Qed.

Section CommutingFolds.

Context {A S : Type} (f : S -> A -> S).
Hypothesis f_comm : forall s a b, f (f s a) b = f (f s b) a.

(** Folding commuting updates over a permuted list ends in the same state. *)
Lemma fold_left_perm_comm (l l' : list A) :
  Permutation l l' -> forall s, fold_left f l s = fold_left f l' s.
Proof.
  induction 1 as [|a l l' _ IH|a b l|l l' l'' _ IH1 _ IH2]; intros s; simpl.
  - reflexivity.
  - apply IH.
  - rewrite f_comm. reflexivity.
  - rewrite IH1. apply IH2.
Qed.

End CommutingFolds.

(** ** Every record is absorbed by its callback *)

Section CallbackFacts.

Variable convertUTMToWGS84 : number -> number -> completion (number * number).
Variable distanceTo : L.LatLng -> L.LatLng -> Q.

Lemma convertCoord_normal (coord : Coord) :
  exists r, convertCoord convertUTMToWGS84 coord = Normal r.
Proof.
  unfold convertCoord.
  destruct coord as [elems|]; simpl.
  - destruct (gt (nth 0 elems NaN) 180 || gt (nth 1 elems NaN) 90).
    + destruct (convertUTMToWGS84 _ _) as [wgs84|e]; simpl; eauto.
    + simpl; eauto.
  - eauto.
Qed.

Lemma map_convertCoord_normal (coords : list Coord) :
  exists mapped, Array_map (convertCoord convertUTMToWGS84) coords = Normal mapped.
Proof.
  induction coords as [|coord rest [mapped IH]]; simpl.
  - eauto.
  - destruct (convertCoord_normal coord) as [r ->]. simpl.
    rewrite IH. simpl. eauto.
Qed.

Lemma areaCallback_verdict (drawnShape : L.Layer) (area : Area.t) :
  exists v,
    (forall q, v = AreaHit q -> truthyNumber (Area.poptot area) = Some q)
    /\ forall s,
      areaCallback convertUTMToWGS84 distanceTo drawnShape s area
      = Normal (applyAreaVerdict v s).
Proof.
  assert (Hskip : forall (P : AreaVerdict -> Prop), P AreaSkipped ->
            exists v, (forall q, v = AreaHit q ->
                                 truthyNumber (Area.poptot area) = Some q) /\ P v).
  { intros P HP. exists AreaSkipped. split; [discriminate|exact HP]. }
  unfold areaCallback.
  destruct (Area.geom area) as [geom|]; [|apply Hskip; reflexivity].
  destruct (Area.coordinates geom) as [coordinates|]; [|apply Hskip; reflexivity].
  destruct (truthyNumber (Area.poptot area)) as [poptot|]; [|apply Hskip; reflexivity].
  destruct coordinates as [rings|]; [|apply Hskip; reflexivity].
  destruct (map_convertCoord_normal (firstRing rings)) as [mapped Hmap].
  rewrite Hmap. cbn [bind].
  destruct (length (filter_not_null mapped) <? 3)%nat; [apply Hskip; reflexivity|].
  destruct (isIntersecting distanceTo drawnShape (filter_not_null mapped))
    as [[|]|e]; cbn [bind try_catch].
  - exists (AreaHit poptot). split; [congruence|reflexivity].
  - apply Hskip; reflexivity.
  - exists AreaFailed. split; [discriminate|reflexivity].
Qed.

Lemma bunkerCallback_verdict (drawnShape : L.Layer) (bunker : Bunker.t) :
  exists v, forall s,
    bunkerCallback convertUTMToWGS84 distanceTo drawnShape s bunker
    = Normal (applyBunkerVerdict v s).
Proof.
  unfold bunkerCallback.
  destruct (Bunker.geom bunker) as [geom|]; [|exists BunkerSkipped; reflexivity].
  destruct (Bunker.coordinates geom) as [coordinates|]; [|exists BunkerSkipped; reflexivity].
  destruct (truthyNumber (Bunker.plasser bunker)) as [plasser|];
    [|exists BunkerSkipped; reflexivity].
  destruct (convertUTMToWGS84 _ _) as [[wlng wlat]|e]; cbn [bind try_catch fst snd];
    [|exists BunkerSkipped; reflexivity].
  destruct (L.latLng wlat wlng) as [p|e]; cbn [bind try_catch];
    [|exists BunkerSkipped; reflexivity].
  destruct (isInside distanceTo drawnShape p).
  - exists (BunkerHit plasser); reflexivity.
  - exists BunkerSkipped; reflexivity.
Qed.

(** A pass is the left fold of what each record does: no record is left
    out, whatever happened to the ones before it. *)
Lemma forEach_area (drawnShape : L.Layer) (populationData : list Area.t) (s : Locals) :
  forEach (areaCallback convertUTMToWGS84 distanceTo drawnShape) populationData s
  = Normal (fold_left (areaEffect convertUTMToWGS84 distanceTo drawnShape)
                      populationData s).
Proof.
  revert s; induction populationData as [|area rest IH]; intros s; simpl.
  - reflexivity.
  - unfold areaEffect at 2.
    destruct (areaCallback_verdict drawnShape area) as [v [_ Hv]].
    rewrite Hv. simpl. apply IH.
Qed.

Lemma forEach_bunker (drawnShape : L.Layer) (bunkerData : list Bunker.t) (s : Locals) :
  forEach (bunkerCallback convertUTMToWGS84 distanceTo drawnShape) bunkerData s
  = Normal (fold_left (bunkerEffect convertUTMToWGS84 distanceTo drawnShape)
                      bunkerData s).
Proof.
  revert s; induction bunkerData as [|bunker rest IH]; intros s; simpl.
  - reflexivity.
  - unfold bunkerEffect at 2.
    destruct (bunkerCallback_verdict drawnShape bunker) as [v Hv].
    rewrite Hv. simpl. apply IH.
Qed.

Lemma areaEffect_verdict (drawnShape : L.Layer) (area : Area.t) :
  exists v,
    (forall q, v = AreaHit q -> truthyNumber (Area.poptot area) = Some q)
    /\ forall s,
      areaEffect convertUTMToWGS84 distanceTo drawnShape s area = applyAreaVerdict v s.
Proof.
  destruct (areaCallback_verdict drawnShape area) as [v [Hq Hv]].
  exists v; split; [exact Hq|]. intros s. unfold areaEffect. now rewrite Hv.
Qed.

Lemma bunkerEffect_verdict (drawnShape : L.Layer) (bunker : Bunker.t) :
  exists v, forall s,
    bunkerEffect convertUTMToWGS84 distanceTo drawnShape s bunker = applyBunkerVerdict v s.
Proof.
  destruct (bunkerCallback_verdict drawnShape bunker) as [v Hv].
  exists v; intros s. unfold bunkerEffect. now rewrite Hv.
Qed.

Lemma areasProcessed_area_pass (drawnShape : L.Layer) (populationData : list Area.t)
      (s : Locals) :
  areasProcessed (fold_left (areaEffect convertUTMToWGS84 distanceTo drawnShape)
                            populationData s)
  = (areasProcessed s + length populationData)%nat.
Proof.
  revert s; induction populationData as [|area rest IH]; intros s; simpl.
  - lia.
  - rewrite IH.
    destruct (areaEffect_verdict drawnShape area) as [[| |poptot] [_ ->]]; simpl; lia.
Qed.

Lemma areasProcessed_bunker_pass (drawnShape : L.Layer) (bunkerData : list Bunker.t)
      (s : Locals) :
  areasProcessed (fold_left (bunkerEffect convertUTMToWGS84 distanceTo drawnShape)
                            bunkerData s)
  = areasProcessed s.
Proof.
  revert s; induction bunkerData as [|bunker rest IH]; intros s; simpl.
  - reflexivity.
  - rewrite IH.
    destruct (bunkerEffect_verdict drawnShape bunker) as [[|plasser] ->]; reflexivity.
Qed.

(** The analysis as two folds and the coverage formula. *)
Lemma performAnalysis_folds (drawnShape : L.Layer)
      (populationData : list Area.t) (bunkerData : list Bunker.t) :
  performAnalysis convertUTMToWGS84 distanceTo drawnShape populationData bunkerData
  = let s :=
      fold_left (bunkerEffect convertUTMToWGS84 distanceTo drawnShape) bunkerData
        (fold_left (areaEffect convertUTMToWGS84 distanceTo drawnShape) populationData
                   initialLocals) in
    Normal (mkResult s (coverage (totalShelterCapacity s) (totalPopulation s))).
Proof.
  unfold performAnalysis.
  destruct populationData as [|area rest]; destruct bunkerData as [|bunker more];
    cbn [length Nat.eqb bind]; rewrite ?forEach_area; cbn [bind];
    rewrite ?forEach_bunker; reflexivity.
Qed.

(** On datasets whose entries are all records, whatever the drawn shape,
    the analysis completes normally with a result: no callback lets an
    exception escape (a failed conversion, a [null] position or a vertex
    Leaflet rejects is caught inside the record's own callback), every
    population record is visited ([areasProcessed] is the length of the
    dataset), and the locals are those left by running every record's
    callback in turn. *)
Lemma performAnalysis_completes_on_records (drawnShape : L.Layer)
        (populationData : list Area.t) (bunkerData : list Bunker.t) :
  (forall s area, exists s',
      areaCallback convertUTMToWGS84 distanceTo drawnShape s area = Normal s')
  /\ (forall s bunker, exists s',
      bunkerCallback convertUTMToWGS84 distanceTo drawnShape s bunker = Normal s')
  /\ exists r,
      performAnalysis convertUTMToWGS84 distanceTo drawnShape populationData bunkerData
      = Normal r
      /\ areasProcessed r = length populationData
      /\ locals r
         = fold_left (bunkerEffect convertUTMToWGS84 distanceTo drawnShape) bunkerData
             (fold_left (areaEffect convertUTMToWGS84 distanceTo drawnShape)
                        populationData initialLocals).
Proof.
  split; [|split].
  - intros s area. destruct (areaCallback_verdict drawnShape area) as [v [_ Hv]].
    rewrite Hv. eauto.
  - intros s bunker. destruct (bunkerCallback_verdict drawnShape bunker) as [v Hv].
    rewrite Hv. eauto.
  - rewrite performAnalysis_folds. cbv zeta.
    eexists; split; [reflexivity|]. split; [|reflexivity].
    cbn [locals]. rewrite areasProcessed_bunker_pass, areasProcessed_area_pass.
    reflexivity.
Qed.

(** ** Order of the records *)

Lemma areaEffect_comm (drawnShape : L.Layer) (s : Locals) (a b : Area.t) :
  areaEffect convertUTMToWGS84 distanceTo drawnShape
             (areaEffect convertUTMToWGS84 distanceTo drawnShape s a) b
  = areaEffect convertUTMToWGS84 distanceTo drawnShape
               (areaEffect convertUTMToWGS84 distanceTo drawnShape s b) a.
Proof.
  destruct (areaEffect_verdict drawnShape a) as [va [_ Ha]].
  destruct (areaEffect_verdict drawnShape b) as [vb [_ Hb]].
  rewrite !Ha, !Hb. apply applyAreaVerdict_comm.
Qed.

Lemma bunkerEffect_comm (drawnShape : L.Layer) (s : Locals) (a b : Bunker.t) :
  bunkerEffect convertUTMToWGS84 distanceTo drawnShape
               (bunkerEffect convertUTMToWGS84 distanceTo drawnShape s a) b
  = bunkerEffect convertUTMToWGS84 distanceTo drawnShape
                 (bunkerEffect convertUTMToWGS84 distanceTo drawnShape s b) a.
Proof.
  destruct (bunkerEffect_verdict drawnShape a) as [va Ha].
  destruct (bunkerEffect_verdict drawnShape b) as [vb Hb].
  rewrite !Ha, !Hb. apply applyBunkerVerdict_comm.
Qed.

(** With the sums taken exactly, permuting the population dataset and
    the shelter dataset leaves the result of the analysis unchanged: the
    two runs return the very same result (sums, counts and coverage),
    and they do return one; with no record at all the analysis returns
    both sums at zero. *)
Lemma exact_sums_order_independent (drawnShape : L.Layer)
        (populationData populationData' : list Area.t)
        (bunkerData bunkerData' : list Bunker.t) :
  Permutation populationData populationData' ->
  Permutation bunkerData bunkerData' ->
  performAnalysis convertUTMToWGS84 distanceTo drawnShape populationData bunkerData
  = performAnalysis convertUTMToWGS84 distanceTo drawnShape populationData' bunkerData'
  /\ (exists r,
      performAnalysis convertUTMToWGS84 distanceTo drawnShape populationData bunkerData
      = Normal r)
  /\ (exists r0,
      performAnalysis convertUTMToWGS84 distanceTo drawnShape [] [] = Normal r0
      /\ totalPopulation r0 = 0
      /\ totalShelterCapacity r0 = 0).
Proof.
  intros Hpop Hbunk. rewrite !performAnalysis_folds. cbv zeta.
  split; [|split].
  - rewrite (fold_left_perm_comm _ (areaEffect_comm drawnShape) _ _ Hpop).
    rewrite (fold_left_perm_comm _ (bunkerEffect_comm drawnShape) _ _ Hbunk).
    reflexivity.
  - eexists. reflexivity.
  - eexists. split; [reflexivity|]. split; reflexivity.
Qed.

(** ** Coverage *)

Lemma coverage_zero_population (totalShelterCapacity totalPopulation : Q) :
  totalPopulation == 0 -> coverage totalShelterCapacity totalPopulation == 0.
Proof.
  intros H. unfold coverage.
  assert (Hle : Qle_bool totalPopulation 0 = true) by (apply Qle_bool_iff; lra).
  rewrite Hle. reflexivity.
Qed.

Lemma coverage_positive_population (totalShelterCapacity totalPopulation : Q) :
  0 < totalPopulation ->
  coverage totalShelterCapacity totalPopulation
  = (totalShelterCapacity / totalPopulation) * 100.
Proof.
  intros H. unfold coverage.
  destruct (Qle_bool totalPopulation 0) eqn:Hle; [|reflexivity].
  apply Qle_bool_iff in Hle. lra.
Qed.

(** The guard is [totalPopulation > 0]: a negative total gives [0] too. *)
Lemma coverage_nonpositive_population (totalShelterCapacity totalPopulation : Q) :
  totalPopulation <= 0 -> coverage totalShelterCapacity totalPopulation = 0.
Proof.
  intros H. unfold coverage.
  apply Qle_bool_iff in H. rewrite H. reflexivity.
Qed.

Lemma totalPopulation_bunker_pass (drawnShape : L.Layer) (bunkerData : list Bunker.t)
      (s : Locals) :
  totalPopulation (fold_left (bunkerEffect convertUTMToWGS84 distanceTo drawnShape)
                             bunkerData s)
  = totalPopulation s.
Proof.
  revert s; induction bunkerData as [|bunker rest IH]; intros s; simpl.
  - reflexivity.
  - rewrite IH.
    destruct (bunkerEffect_verdict drawnShape bunker) as [[|plasser] ->]; reflexivity.
Qed.

Lemma truthyNumber_nonneg (n : number) (q : Q) :
  match n with Num x => 0 <= x | NaN => True end ->
  truthyNumber n = Some q -> 0 < q.
Proof.
  destruct n as [x|]; simpl; [|discriminate].
  destruct (Qeq_bool x 0) eqn:Hx; [discriminate|].
  intros Hle [= <-].
  apply Qeq_bool_neq in Hx. lra.
Qed.

(** Populations that are not negative sum to a total that is not negative. *)
Lemma totalPopulation_area_pass_nonneg (drawnShape : L.Layer)
      (populationData : list Area.t) (s : Locals) :
  nonNegativePopulations populationData ->
  0 <= totalPopulation s ->
  0 <= totalPopulation (fold_left (areaEffect convertUTMToWGS84 distanceTo drawnShape)
                                  populationData s).
Proof.
  intros Hall; revert s; induction Hall as [|area rest Harea _ IH]; intros s Hs; simpl.
  - exact Hs.
  - apply IH.
    destruct (areaEffect_verdict drawnShape area) as [[| |poptot] [Hq ->]]; simpl; try exact Hs.
    pose proof (truthyNumber_nonneg _ _ Harea (Hq _ eq_refl)). lra.
Qed.

(** C2. On a dataset of the data model, whose populations are not
    negative, the analysis returns a result, without any error, whose
    coverage is [0] when the total population is [0], whatever the total
    shelter capacity, and is
    [(totalShelterCapacity / totalPopulation) * 100] otherwise, without
    clamping. *)
Theorem coverage_on_nonnegative_populations (drawnShape : L.Layer)
      (populationData : list Area.t) (bunkerData : list Bunker.t) :
  nonNegativePopulations populationData ->
  exists r,
    performAnalysis convertUTMToWGS84 distanceTo drawnShape populationData bunkerData
    = Normal r
    /\ (totalPopulation r == 0 -> coveragePercentage r == 0)
    /\ (~ totalPopulation r == 0 ->
        coveragePercentage r == (totalShelterCapacity r / totalPopulation r) * 100).
Proof.
  intros Hall. rewrite performAnalysis_folds. cbv zeta.
  eexists. split; [reflexivity|]. cbn [coveragePercentage locals].
  split.
  - apply coverage_zero_population.
  - intros Hnz. rewrite coverage_positive_population; [reflexivity|].
    rewrite totalPopulation_bunker_pass in *.
    pose proof (totalPopulation_area_pass_nonneg drawnShape populationData
                  initialLocals Hall) as Hge.
    cbn in Hge. specialize (Hge ltac:(lra)).
    destruct (Qlt_le_dec 0 (totalPopulation
      (fold_left (areaEffect convertUTMToWGS84 distanceTo drawnShape)
                 populationData initialLocals))) as [Hlt|Hle]; [exact Hlt|].
    exfalso. apply Hnz. lra.
Qed.

(** The guard of the source as it is written, on any dataset: the
    coverage is [0] when the total population is [0] or less, and is
    [(totalShelterCapacity / totalPopulation) * 100] when the total
    population is positive. *)
Lemma coverage_of_result (drawnShape : L.Layer)
        (populationData : list Area.t) (bunkerData : list Bunker.t) :
  exists r,
    performAnalysis convertUTMToWGS84 distanceTo drawnShape populationData bunkerData
    = Normal r
    /\ coveragePercentage r = coverage (totalShelterCapacity r) (totalPopulation r)
    /\ (totalPopulation r <= 0 -> coveragePercentage r == 0)
    /\ (0 < totalPopulation r ->
        coveragePercentage r == (totalShelterCapacity r / totalPopulation r) * 100).
Proof.
  rewrite performAnalysis_folds. cbv zeta.
  eexists. split; [reflexivity|]. cbn [coveragePercentage locals].
  split; [reflexivity|]. split.
  - intros H. rewrite coverage_nonpositive_population by exact H. reflexivity.
  - intros H. rewrite coverage_positive_population by exact H. reflexivity.
Qed.

(** ** Normalisation of a position *)

Lemma gt_Num (x b : Q) : gt (Num x) b = true <-> b < x.
Proof.
  simpl. rewrite negb_true_iff. split.
  - intros H. destruct (Qlt_le_dec b x) as [Hlt|Hle]; [exact Hlt|].
    apply Qle_bool_iff in Hle. congruence.
  - intros H. destruct (Qle_bool x b) eqn:Hle; [|reflexivity].
    apply Qle_bool_iff in Hle. lra.
Qed.

Lemma isProjected_iff (x y : Q) :
  gt (Num x) 180 || gt (Num y) 90 = true <-> (180 < x \/ 90 < y).
Proof. rewrite orb_true_iff, !gt_Num. reflexivity. Qed.

(** The loader converts a position of two or more components as the
    analysis does, and pushes the result unless it is dropped. *)
Lemma loadCoord_as_convertCoord (polygonCoords : list (number * number))
      (c0 c1 : number) (rest : list number) :
  loadCoord convertUTMToWGS84 polygonCoords (Some (c0 :: c1 :: rest))
  = (r <- convertCoord convertUTMToWGS84 (Some (c0 :: c1 :: rest)) ;;
     Normal (match r with
             | Some latlng => polygonCoords ++ [latlng]
             | None => polygonCoords
             end)).
Proof.
  unfold loadCoord, convertCoord. cbn [length Nat.ltb Nat.leb index nth bind].
  destruct (gt c0 180 || gt c1 90).
  - destruct (convertUTMToWGS84 c0 c1); reflexivity.
  - reflexivity.
Qed.

(** C3. A position [[x, y, ...]] with [x <= 180] and [y <= 90] (negative,
    zero and the bounds themselves included) comes out as [[y, x]],
    whatever the conversion function would do; the conversion is
    called exactly when [x > 180] or [y > 90], and its result
    [[lng, lat]] comes out swapped, as [[lat, lng]] (or the position is
    dropped when the conversion throws).  The loader of the population
    layer converts the position in the same way. *)
Theorem convertCoord_classification (x y : Q) (rest : list number) :
  (x <= 180 -> y <= 90 ->
   convertCoord convertUTMToWGS84 (Some (Num x :: Num y :: rest))
   = Normal (Some (Num y, Num x)))
  /\ ((180 < x \/ 90 < y) ->
      convertCoord convertUTMToWGS84 (Some (Num x :: Num y :: rest))
      = match convertUTMToWGS84 (Num x) (Num y) with
        | Normal wgs84 => Normal (Some (snd wgs84, fst wgs84))
        | Throw _ => Normal None
        end)
  /\ (gt (Num x) 180 || gt (Num y) 90 = true <-> (180 < x \/ 90 < y))
  /\ (forall polygonCoords,
      loadCoord convertUTMToWGS84 polygonCoords (Some (Num x :: Num y :: rest))
      = (r <- convertCoord convertUTMToWGS84 (Some (Num x :: Num y :: rest)) ;;
         Normal (match r with
                 | Some latlng => polygonCoords ++ [latlng]
                 | None => polygonCoords
                 end))).
Proof.
  split; [|split; [|split]]; [| | |intros; apply loadCoord_as_convertCoord].
  - intros Hx Hy. unfold convertCoord. cbn [index nth bind].
    destruct (gt (Num x) 180 || gt (Num y) 90) eqn:Hp; [|reflexivity].
    apply isProjected_iff in Hp. lra.
  - intros Hxy. unfold convertCoord. cbn [index nth bind].
    apply isProjected_iff in Hxy. rewrite Hxy.
    destruct (convertUTMToWGS84 (Num x) (Num y)); reflexivity.
  - apply isProjected_iff.
Qed.

(** ** Population areas against a circle *)

Lemma polygon_pairOf (vs : list L.LatLng) : L.polygon (map pairOf vs) = Normal vs.
Proof.
  unfold L.polygon. induction vs as [|[la ln] vs IH]; simpl.
  - reflexivity.
  - rewrite IH. reflexivity.
Qed.

Lemma anyVertexInCircle_pairOf (vs : list L.LatLng) (center : L.LatLng) (radius : Q) :
  anyVertexInCircle distanceTo (map pairOf vs) center radius
  = Normal (existsb (fun v => Qle_bool (distanceTo v center) radius) vs).
Proof.
  induction vs as [|[la ln] vs IH]; simpl.
  - reflexivity.
  - destruct (Qle_bool _ radius); [reflexivity|exact IH].
Qed.

Lemma extend_isBoundingBox (box : L.LatLngBounds) (seen : list L.LatLng)
      (v : L.LatLng) :
  isBoundingBox box seen -> isBoundingBox (L.extend box v) (seen ++ [v]).
Proof.
  intros (Hin & Hs & Hw & Hn & He).
  assert (Hleft : forall u, In u seen -> In u (seen ++ [v]))
    by (intros u Hu; apply in_or_app; left; exact Hu).
  assert (Hlast : In v (seen ++ [v]))
    by (apply in_or_app; right; left; reflexivity).
  unfold isBoundingBox, withinBox, L.extend; cbn [L.southWest L.northEast L.lat L.lng].
  split; [|split; [|split; [|split]]].
  - intros u Hu. apply in_app_or in Hu. destruct Hu as [Hu|[<-|[]]].
    + destruct (Hin u Hu) as [[H1 H2] [H3 H4]].
      pose proof (Q.le_min_r (L.lat v) (L.lat (L.southWest box))).
      pose proof (Q.le_min_r (L.lng v) (L.lng (L.southWest box))).
      pose proof (Q.le_max_r (L.lat v) (L.lat (L.northEast box))).
      pose proof (Q.le_max_r (L.lng v) (L.lng (L.northEast box))).
      repeat split; lra.
    + repeat split;
        auto using Q.le_min_l, Q.le_max_l.
  - destruct (Q.min_dec (L.lat v) (L.lat (L.southWest box))) as [E|E].
    + exists v. split; [exact Hlast|]. symmetry; exact E.
    + destruct Hs as [u [Hu Hq]]. exists u. split; [auto|]. rewrite E. exact Hq.
  - destruct (Q.min_dec (L.lng v) (L.lng (L.southWest box))) as [E|E].
    + exists v. split; [exact Hlast|]. symmetry; exact E.
    + destruct Hw as [u [Hu Hq]]. exists u. split; [auto|]. rewrite E. exact Hq.
  - destruct (Q.max_dec (L.lat v) (L.lat (L.northEast box))) as [E|E].
    + exists v. split; [exact Hlast|]. symmetry; exact E.
    + destruct Hn as [u [Hu Hq]]. exists u. split; [auto|]. rewrite E. exact Hq.
  - destruct (Q.max_dec (L.lng v) (L.lng (L.northEast box))) as [E|E].
    + exists v. split; [exact Hlast|]. symmetry; exact E.
    + destruct He as [u [Hu Hq]]. exists u. split; [auto|]. rewrite E. exact Hq.
Qed.

Lemma fold_extend_isBoundingBox (rest seen : list L.LatLng) (box : L.LatLngBounds) :
  isBoundingBox box seen ->
  isBoundingBox (fold_left L.extend rest box) (seen ++ rest).
Proof.
  revert seen box; induction rest as [|v rest IH]; intros seen box Hbox; simpl.
  - rewrite app_nil_r. exact Hbox.
  - replace (seen ++ v :: rest) with ((seen ++ [v]) ++ rest)
      by (rewrite <- app_assoc; reflexivity).
    apply IH. apply extend_isBoundingBox. exact Hbox.
Qed.

(** [getBounds] is the bounding box of the vertices. *)
Lemma getBounds_isBoundingBox (vs : list L.LatLng) :
  vs <> [] -> exists box, L.getBounds vs = Some box /\ isBoundingBox box vs.
Proof.
  destruct vs as [|v rest]; [congruence|]. intros _.
  eexists. split; [reflexivity|].
  apply (fold_extend_isBoundingBox rest [v] (L.mkBounds v v)).
  unfold isBoundingBox, withinBox; cbn [L.southWest L.northEast In].
  split; [|repeat split; exists v; split; auto; reflexivity].
  intros u [<-|[]]. repeat split; apply Qle_refl.
Qed.

Lemma intersects_iff (box bounds : L.LatLngBounds) :
  L.intersects (Some box) bounds = Normal true <-> boxesOverlap box bounds.
Proof.
  unfold L.intersects, boxesOverlap. split.
  - intros [= H]. rewrite !andb_true_iff, !Qle_bool_iff in H. exact H.
  - intros H. f_equal. rewrite !andb_true_iff, !Qle_bool_iff. exact H.
Qed.

Lemma intersects_getBounds (vs : list L.LatLng) (bounds : L.LatLngBounds) :
  vs <> [] -> exists boxes, L.intersects (L.getBounds vs) bounds = Normal boxes.
Proof.
  destruct vs as [|v vs]; [congruence|]. intros _. simpl. eauto.
Qed.

Lemma isIntersecting_circle (vs : list L.LatLng) (center : L.LatLng) (radius : Q)
      (bounds : L.LatLngBounds) (boxes : bool) :
  L.intersects (L.getBounds vs) bounds = Normal boxes ->
  isIntersecting distanceTo (L.Circle center radius bounds) (map pairOf vs)
  = Normal (boxes && existsb (fun v => Qle_bool (distanceTo v center) radius) vs).
Proof.
  intros Hb. unfold isIntersecting. rewrite polygon_pairOf. cbn [bind].
  rewrite Hb. cbn [bind]. destruct boxes; [|reflexivity].
  apply anyVertexInCircle_pairOf.
Qed.

Lemma existsb_within (vs : list L.LatLng) (center : L.LatLng) (radius : Q) :
  existsb (fun v => Qle_bool (distanceTo v center) radius) vs = true
  <-> exists v, In v vs /\ distanceTo v center <= radius.
Proof.
  rewrite existsb_exists. split; intros [v [Hin Hd]]; exists v; split; auto;
    now apply Qle_bool_iff.
Qed.

Lemma isIntersecting_circle_iff (vs : list L.LatLng) (center : L.LatLng) (radius : Q)
      (bounds : L.LatLngBounds) :
  vs <> [] ->
  exists hit,
    isIntersecting distanceTo (L.Circle center radius bounds) (map pairOf vs) = Normal hit
    /\ (hit = true <-> circleHit distanceTo center radius bounds vs).
Proof.
  intros Hne.
  destruct (getBounds_isBoundingBox vs Hne) as [box [Hbox Hbb]].
  destruct (intersects_getBounds vs bounds Hne) as [boxes Hb].
  eexists. split; [apply isIntersecting_circle; exact Hb|].
  unfold circleHit. rewrite andb_true_iff, existsb_within.
  rewrite Hbox in Hb.
  split.
  - intros [-> Hv]. split; [|exact Hv].
    exists box. split; [exact Hbb|]. split; [exact Hbox|].
    apply intersects_iff. exact Hb.
  - intros [[box' [_ [Hbox' Hov]]] Hv]. split; [|exact Hv].
    rewrite Hbox in Hbox'. injection Hbox' as <-.
    apply intersects_iff in Hov. congruence.
Qed.

(** What the callback does with a present population and a ring that
    leaves the valid vertices [vs]. *)
Lemma areaCallback_ring (drawnShape : L.Layer) (s : Locals)
      (rings : list (list Coord)) (poptot : number) (q : Q)
      (mapped : list (option (number * number))) (vs : list L.LatLng) :
  Array_map (convertCoord convertUTMToWGS84) (firstRing rings) = Normal mapped ->
  filter_not_null mapped = map pairOf vs ->
  truthyNumber poptot = Some q ->
  areaCallback convertUTMToWGS84 distanceTo drawnShape s
               (Area.mk (Some (Area.mkGeom (Some (Rings rings)))) poptot)
  = if (length vs <? 3)%nat then Normal (inc_areasProcessed s)
    else try_catch
           (hit <- isIntersecting distanceTo drawnShape (map pairOf vs) ;;
            if hit then Normal (add_population q (inc_areasProcessed s))
            else Normal (inc_areasProcessed s))
           (fun _ => Normal (inc_areasWithErrors (inc_areasProcessed s))).
Proof.
  intros Hmap Hvs Hq. unfold areaCallback.
  cbn [Area.geom Area.coordinates Area.poptot].
  rewrite Hq, Hmap. cbn [bind]. rewrite Hvs, length_map.
  destruct (length vs <? 3)%nat; reflexivity.
Qed.

(** C4 (as amended). For a circle and a population area whose ring, after
    conversion and dropping, consists of valid vertices only (every
    position left is a pair of numbers), at least three of them, the
    area is classified as intersecting, and counted with its
    population, exactly when the bounding box of the vertices meets the
    circle's bounding box and some vertex is within the radius of the
    centre; when no vertex is within the radius (as for a ring that
    surrounds the circle) the area is not counted. *)
Theorem circle_intersection_by_vertices
        (center : L.LatLng) (radius : Q) (bounds : L.LatLngBounds) (s : Locals)
        (rings : list (list Coord)) (poptot : number) (q : Q)
        (mapped : list (option (number * number))) (vs : list L.LatLng) :
  Array_map (convertCoord convertUTMToWGS84) (firstRing rings) = Normal mapped ->
  filter_not_null mapped = map pairOf vs ->
  (3 <= length vs)%nat ->
  truthyNumber poptot = Some q ->
  (isIntersecting distanceTo (L.Circle center radius bounds) (map pairOf vs) = Normal true
   <-> circleHit distanceTo center radius bounds vs)
  /\ (circleHit distanceTo center radius bounds vs ->
      areaCallback convertUTMToWGS84 distanceTo (L.Circle center radius bounds) s
                   (Area.mk (Some (Area.mkGeom (Some (Rings rings)))) poptot)
      = Normal (add_population q (inc_areasProcessed s)))
  /\ (~ circleHit distanceTo center radius bounds vs ->
      areaCallback convertUTMToWGS84 distanceTo (L.Circle center radius bounds) s
                   (Area.mk (Some (Area.mkGeom (Some (Rings rings)))) poptot)
      = Normal (inc_areasProcessed s))
  /\ ((forall v, In v vs -> radius < distanceTo v center) ->
      areaCallback convertUTMToWGS84 distanceTo (L.Circle center radius bounds) s
                   (Area.mk (Some (Area.mkGeom (Some (Rings rings)))) poptot)
      = Normal (inc_areasProcessed s)).
Proof.
  intros Hmap Hvs Hlen Hq.
  assert (Hne : vs <> []) by (destruct vs; [simpl in Hlen; lia|discriminate]).
  destruct (isIntersecting_circle_iff vs center radius bounds Hne) as [hit [Hhit Hiff]].
  assert (Hcb : areaCallback convertUTMToWGS84 distanceTo (L.Circle center radius bounds) s
                  (Area.mk (Some (Area.mkGeom (Some (Rings rings)))) poptot)
                = Normal (if hit then add_population q (inc_areasProcessed s)
                          else inc_areasProcessed s)).
  { rewrite (areaCallback_ring _ s rings poptot q mapped vs Hmap Hvs Hq).
    assert (Hlt : (length vs <? 3)%nat = false) by (apply Nat.ltb_ge; exact Hlen).
    rewrite Hlt, Hhit. destruct hit; reflexivity. }
  assert (Hmiss : ~ circleHit distanceTo center radius bounds vs -> hit = false).
  { intros Hn. destruct hit; [|reflexivity]. exfalso. apply Hn, Hiff. reflexivity. }
  split; [|split; [|split]].
  - rewrite Hhit. rewrite <- Hiff. split; congruence.
  - intros Hc. apply Hiff in Hc. rewrite Hcb, Hc. reflexivity.
  - intros Hn. rewrite Hcb, (Hmiss Hn). reflexivity.
  - intros Hfar. rewrite Hcb, Hmiss; [reflexivity|].
    intros [_ [v [Hin Hd]]]. specialize (Hfar v Hin). lra.
Qed.

(** ** Records that are skipped *)

(** C5 (as amended). A population record without [poptot] is skipped: it
    adds nothing to the population total, to the intersected count or
    to the error count; it is counted in [areasProcessed], which the
    callback increments before it looks at the record. *)
Theorem missing_poptot_is_skipped (drawnShape : L.Layer) (s : Locals)
        (geom : option Area.Geom) :
  exists s',
    areaCallback convertUTMToWGS84 distanceTo drawnShape s (Area.mk geom NaN) = Normal s'
    /\ s' = inc_areasProcessed s
    /\ totalPopulation s' = totalPopulation s
    /\ areasIntersected s' = areasIntersected s
    /\ areasWithErrors s' = areasWithErrors s
    /\ areasProcessed s' = S (areasProcessed s).
Proof.
  exists (inc_areasProcessed s). split; [|repeat split].
  unfold areaCallback. cbn [Area.geom Area.poptot truthyNumber].
  destruct geom as [[[coordinates|]]|]; reflexivity.
Qed.

(** A population record whose ring leaves fewer than three positions
    after conversion and dropping takes the plain [return] of the guard
    [convertedCoords.length < 3]. *)
Lemma fewer_than_three_positions (drawnShape : L.Layer) (s : Locals)
        (rings : list (list Coord)) (poptot : number)
        (mapped : list (option (number * number))) :
  Array_map (convertCoord convertUTMToWGS84) (firstRing rings) = Normal mapped ->
  (length (filter_not_null mapped) < 3)%nat ->
  exists s',
    areaCallback convertUTMToWGS84 distanceTo drawnShape s
                 (Area.mk (Some (Area.mkGeom (Some (Rings rings)))) poptot)
    = Normal s'
    /\ s' = inc_areasProcessed s
    /\ totalPopulation s' = totalPopulation s
    /\ areasIntersected s' = areasIntersected s
    /\ areasWithErrors s' = areasWithErrors s.
Proof.
  intros Hmap Hlen.
  exists (inc_areasProcessed s). split; [|repeat split].
  unfold areaCallback. cbn [Area.geom Area.coordinates Area.poptot].
  destruct (truthyNumber poptot) as [q|]; [|reflexivity].
  rewrite Hmap. cbn [bind].
  apply Nat.ltb_lt in Hlen. rewrite Hlen. reflexivity.
Qed.

(** [areasWithErrors] grows only when an exception reaches the callback's
    [catch], as when Leaflet rejects a vertex. *)
Lemma areasWithErrors_on_exception (drawnShape : L.Layer) (s : Locals)
      (rings : list (list Coord)) (poptot : number) (q : Q)
      (mapped : list (option (number * number))) (e : exn) :
  Array_map (convertCoord convertUTMToWGS84) (firstRing rings) = Normal mapped ->
  (3 <= length (filter_not_null mapped))%nat ->
  truthyNumber poptot = Some q ->
  isIntersecting distanceTo drawnShape (filter_not_null mapped) = Throw e ->
  areaCallback convertUTMToWGS84 distanceTo drawnShape s
               (Area.mk (Some (Area.mkGeom (Some (Rings rings)))) poptot)
  = Normal (inc_areasWithErrors (inc_areasProcessed s)).
Proof.
  intros Hmap Hlen Hq He. unfold areaCallback.
  cbn [Area.geom Area.coordinates Area.poptot].
  rewrite Hq, Hmap. cbn [bind].
  apply Nat.ltb_ge in Hlen. rewrite Hlen, He. reflexivity.
Qed.

(** C10. A population record whose [poptot] is [0] and a shelter record
    whose [plasser] is [0] are treated exactly as records that lack the
    field, whatever their geometry: the population record only advances
    [areasProcessed], the shelter record changes nothing (in particular
    not [bunkersInside]). *)
Theorem zero_is_treated_as_missing (drawnShape : L.Layer) (s : Locals)
        (areaGeom : option Area.Geom) (bunkerGeom : option Bunker.Geom) (zero : Q) :
  zero == 0 ->
  (areaCallback convertUTMToWGS84 distanceTo drawnShape s (Area.mk areaGeom (Num zero))
   = areaCallback convertUTMToWGS84 distanceTo drawnShape s (Area.mk areaGeom NaN)
   /\ areaCallback convertUTMToWGS84 distanceTo drawnShape s (Area.mk areaGeom (Num zero))
      = Normal (inc_areasProcessed s))
  /\ (bunkerCallback convertUTMToWGS84 distanceTo drawnShape s
                     (Bunker.mk bunkerGeom (Num zero))
      = bunkerCallback convertUTMToWGS84 distanceTo drawnShape s
                       (Bunker.mk bunkerGeom NaN)
      /\ bunkerCallback convertUTMToWGS84 distanceTo drawnShape s
                        (Bunker.mk bunkerGeom (Num zero))
         = Normal s).
Proof.
  intros Hz. apply Qeq_bool_iff in Hz.
  unfold areaCallback, bunkerCallback.
  cbn [Area.geom Area.poptot Bunker.geom Bunker.plasser truthyNumber].
  rewrite Hz. repeat split.
  - destruct areaGeom as [[[coordinates|]]|]; reflexivity.
  - destruct bunkerGeom as [[[coordinates|]]|]; reflexivity.
Qed.

(** ** Shelters *)

Lemma contains_iff (bounds : L.LatLngBounds) (p : L.LatLng) :
  L.contains bounds p = true <-> withinBox bounds p.
Proof.
  unfold L.contains, withinBox. rewrite !andb_true_iff, !Qle_bool_iff. tauto.
Qed.

(** What the callback does with a bunker whose location and capacity are
    present: the raw pair goes to the conversion, whatever its size. *)
Lemma bunkerCallback_present (drawnShape : L.Layer) (s : Locals)
      (coordinates : list number) (plasser : number) (q : Q) :
  truthyNumber plasser = Some q ->
  bunkerCallback convertUTMToWGS84 distanceTo drawnShape s
                 (Bunker.mk (Some (Bunker.mkGeom (Some coordinates))) plasser)
  = match convertUTMToWGS84 (nth 0 coordinates NaN) (nth 1 coordinates NaN) with
    | Normal (Num wlng, Num wlat) =>
        Normal (if isInside distanceTo drawnShape (L.mkLatLng wlat wlng)
                then add_capacity q s else s)
    | _ => Normal s
    end.
Proof.
  intros Hq. unfold bunkerCallback.
  cbn [Bunker.geom Bunker.coordinates Bunker.plasser]. rewrite Hq.
  destruct (convertUTMToWGS84 _ _) as [[[wlng|] [wlat|]]|e];
    cbn [bind try_catch fst snd L.latLng]; try reflexivity.
  destruct (isInside distanceTo drawnShape (L.mkLatLng wlat wlng)); reflexivity.
Qed.

Lemma isInside_iff (drawnShape : L.Layer) (p : L.LatLng) :
  isInside distanceTo drawnShape p = true <-> insideShape distanceTo drawnShape p.
Proof.
  destruct drawnShape as [center radius bounds|bounds|bounds];
    cbn [isInside insideShape].
  - apply Qle_bool_iff.
  - apply contains_iff.
  - apply contains_iff.
Qed.

(** C7 (as amended). A bunker whose location converts to the point
    [(wlat, wlng)] and whose capacity passes the presence check (it is
    present and not [0]) is counted, [bunkersInside] growing by one and
    [totalShelterCapacity] by the capacity, exactly when the point is
    inside the shape: for a circle, when its distance to the centre is at
    most the radius; for a rectangle or a drawn polygon, when it lies
    within the shape's bounding box.  Otherwise the locals stay as they
    were, as they do, wherever the point lies, for a bunker whose
    capacity is [0] or missing. *)
Theorem bunker_counted_iff_inside (drawnShape : L.Layer) (s : Locals)
        (coordinates : list number) (plasser : number) (wlng wlat : Q) :
  convertUTMToWGS84 (nth 0 coordinates NaN) (nth 1 coordinates NaN)
  = Normal (Num wlng, Num wlat) ->
  exists s',
    bunkerCallback convertUTMToWGS84 distanceTo drawnShape s
                   (Bunker.mk (Some (Bunker.mkGeom (Some coordinates))) plasser)
    = Normal s'
    /\ (forall q, truthyNumber plasser = Some q ->
          (bunkersInside s' = S (bunkersInside s)
           <-> insideShape distanceTo drawnShape (L.mkLatLng wlat wlng))
          /\ (insideShape distanceTo drawnShape (L.mkLatLng wlat wlng) ->
              bunkersInside s' = S (bunkersInside s)
              /\ totalShelterCapacity s' = totalShelterCapacity s + q
              /\ totalPopulation s' = totalPopulation s
              /\ areasIntersected s' = areasIntersected s
              /\ areasProcessed s' = areasProcessed s
              /\ areasWithErrors s' = areasWithErrors s)
          /\ (~ insideShape distanceTo drawnShape (L.mkLatLng wlat wlng) -> s' = s))
    /\ (truthyNumber plasser = None -> s' = s)
    /\ (insideShape distanceTo drawnShape (L.mkLatLng wlat wlng)
        <-> match drawnShape with
            | L.Circle center radius _ =>
                distanceTo (L.mkLatLng wlat wlng) center <= radius
            | L.Rectangle bounds | L.Polygon bounds =>
                withinBox bounds (L.mkLatLng wlat wlng)
            end).
Proof.
  intros Hconv.
  destruct (truthyNumber plasser) as [q|] eqn:Hq.
  - rewrite (bunkerCallback_present drawnShape s coordinates plasser q Hq), Hconv.
    pose proof (isInside_iff drawnShape (L.mkLatLng wlat wlng)) as Hin.
    destruct (isInside distanceTo drawnShape (L.mkLatLng wlat wlng)) eqn:Hb.
    + assert (Hyes : insideShape distanceTo drawnShape (L.mkLatLng wlat wlng))
        by (apply Hin; reflexivity).
      eexists. split; [reflexivity|]. split; [|split; [discriminate|]].
      * intros q' [= <-]. split; [|split].
        -- split; [intros _; exact Hyes|intros _; reflexivity].
        -- intros _. repeat split.
        -- intros Hno. contradiction.
      * destruct drawnShape; reflexivity.
    + assert (Hno : ~ insideShape distanceTo drawnShape (L.mkLatLng wlat wlng)).
      { intros H. apply Hin in H. discriminate. }
      exists s. split; [reflexivity|]. split; [|split; [discriminate|]].
      * intros q' _. split; [|split].
        -- split; [intros H; exfalso; revert H; apply Nat.neq_succ_diag_r
                  |intros H; contradiction].
        -- intros H. contradiction.
        -- intros _. reflexivity.
      * destruct drawnShape; reflexivity.
  - exists s. split; [|split; [discriminate|split; [reflexivity|]]].
    + unfold bunkerCallback. cbn [Bunker.geom Bunker.coordinates Bunker.plasser].
      rewrite Hq. reflexivity.
    + destruct drawnShape; reflexivity.
Qed.

(** C8. For a bunker whose location and capacity are present, the raw
    pair is handed to the conversion whatever its size, also within the
    geographic range: the outcome is decided by the converted point
    alone (the bunker is left out when the conversion throws or yields
    no number), and two bunkers of the same capacity whose raw pairs
    convert alike are treated alike. *)
Theorem bunker_always_converted (drawnShape : L.Layer) (s : Locals)
        (easting northing : number) (more : list number)
        (plasser : number) (q : Q) :
  truthyNumber plasser = Some q ->
  bunkerCallback convertUTMToWGS84 distanceTo drawnShape s
    (Bunker.mk (Some (Bunker.mkGeom (Some (easting :: northing :: more)))) plasser)
  = match convertUTMToWGS84 easting northing with
    | Normal (Num wlng, Num wlat) =>
        Normal (if isInside distanceTo drawnShape (L.mkLatLng wlat wlng)
                then add_capacity q s else s)
    | _ => Normal s
    end
  /\ forall coordinates',
      convertUTMToWGS84 (nth 0 coordinates' NaN) (nth 1 coordinates' NaN)
      = convertUTMToWGS84 easting northing ->
      bunkerCallback convertUTMToWGS84 distanceTo drawnShape s
        (Bunker.mk (Some (Bunker.mkGeom (Some coordinates'))) plasser)
      = bunkerCallback convertUTMToWGS84 distanceTo drawnShape s
          (Bunker.mk (Some (Bunker.mkGeom (Some (easting :: northing :: more)))) plasser).
Proof.
  intros Hq. split.
  - rewrite (bunkerCallback_present drawnShape s _ plasser q Hq). reflexivity.
  - intros coordinates' Heq.
    rewrite !(bunkerCallback_present drawnShape s _ plasser q Hq).
    cbn [nth]. rewrite Heq. reflexivity.
Qed.

End CallbackFacts.

(** ** The statements at the sample data *)

Example run_coverage_above_100 :
  exists r,
    performAnalysis sampleConvert sampleDistance sampleRectangle
                    [sampleArea (Num 10)] [sampleBunker (Num 50)] = Normal r
    /\ coveragePercentage r == 500.
Proof. eexists. split; [vm_compute; reflexivity|]. vm_compute. reflexivity. Qed.

Example run_load_short_ring :
  loadPopulationData sampleConvert [sampleShortArea; sampleArea (Num 150)] []
  = Normal (mkLoad 1 1
      [mkDrawn [L.mkLatLng 60 10; L.mkLatLng 60 (1001 # 100);
                L.mkLatLng (6001 # 100) 10]
               "#FEB24C" 150]).
Proof. vm_compute. reflexivity. Qed.

(** Outside the data model: with one intersecting area of population
    [-10] and one bunker of capacity [50] inside the shape, the guard
    [totalPopulation > 0] gives the coverage [0]. *)
Example run_negative_total :
  exists r,
    performAnalysis sampleConvert sampleDistance sampleRectangle
                    [sampleArea (Num (-10))] [sampleBunker (Num 50)] = Normal r
    /\ Qeq_bool (totalPopulation r) 0 = false
    /\ coveragePercentage r == 0.
Proof.
  eexists. split; [vm_compute; reflexivity|].
  split; [reflexivity|vm_compute; reflexivity].
Qed.

(** One area of population [10] and one bunker of capacity [50], both
    inside the rectangle: the coverage is the ratio, [500], above 100. *)
Lemma coverage_on_nonnegative_populations_witness :
  exists r,
    performAnalysis sampleConvert sampleDistance sampleRectangle
                    [sampleArea (Num 10)] [sampleBunker (Num 50)] = Normal r
    /\ (totalPopulation r == 0 -> coveragePercentage r == 0)
    /\ (~ totalPopulation r == 0 ->
        coveragePercentage r == (totalShelterCapacity r / totalPopulation r) * 100).
Proof.
  apply (coverage_on_nonnegative_populations sampleConvert sampleDistance
           sampleRectangle [sampleArea (Num 10)] [sampleBunker (Num 50)]).
  repeat constructor. apply Qle_bool_iff. reflexivity.
Defined.

(** C5, the claim as stated fails: the analysis of a single population
    record without [poptot] ends with [areasProcessed] at [1]. *)
Lemma missing_poptot_counterexample :
  exists r,
    performAnalysis sampleConvert sampleDistance sampleRectangle [sampleArea NaN] []
    = Normal r
    /\ areasProcessed initialLocals = 0%nat
    /\ areasProcessed r = 1%nat
    /\ areasWithErrors r = 0%nat.
Proof. eexists. split; [vm_compute; reflexivity|]. repeat split. Qed.


Lemma circle_intersection_witness :
  areaCallback sampleConvert sampleDistance sampleCircle initialLocals
               (sampleArea (Num 150))
  = Normal (add_population 150 (inc_areasProcessed initialLocals)).
Proof.
  apply (circle_intersection_by_vertices sampleConvert sampleDistance
           (L.mkLatLng 60 10) 1000
           (L.mkBounds (L.mkLatLng (5999 # 100) (999 # 100))
                       (L.mkLatLng (6001 # 100) (1001 # 100)))
           initialLocals [sampleRing] (Num 150) 150
           [ Some (Num 60, Num 10); Some (Num 60, Num (1001 # 100));
             Some (Num (6001 # 100), Num 10) ]
           [ L.mkLatLng 60 10; L.mkLatLng 60 (1001 # 100); L.mkLatLng (6001 # 100) 10 ]
           eq_refl eq_refl ltac:(simpl; lia) eq_refl).
  split.
  - destruct (getBounds_isBoundingBox
                [ L.mkLatLng 60 10; L.mkLatLng 60 (1001 # 100);
                  L.mkLatLng (6001 # 100) 10 ] ltac:(discriminate))
      as [box [Hbox Hbb]].
    exists box. split; [exact Hbb|]. split; [exact Hbox|].
    injection Hbox as <-. apply intersects_iff. reflexivity.
  - exists (L.mkLatLng 60 10). split; [left; reflexivity|].
    apply Qle_bool_iff. reflexivity.
Defined.

(** C4, the claim as stated fails: a ring with three valid vertices, the
    first of them the centre of the circle, and a fourth position that
    lacks its latitude.  The bounding box of the valid vertices meets
    the circle's and a vertex is within the radius, yet the area is not
    counted as intersecting: Leaflet rejects the polygon and the record
    is counted in [areasWithErrors]. *)
Lemma circle_invalid_position_counterexample :
  exists mapped r,
    Array_map (convertCoord sampleConvert) (sampleRing ++ [Some [Num 10]])
    = Normal mapped
    /\ filter_not_null mapped
       = map pairOf [ L.mkLatLng 60 10; L.mkLatLng 60 (1001 # 100);
                      L.mkLatLng (6001 # 100) 10 ]
         ++ [(NaN, Num 10)]
    /\ circleHit sampleDistance (L.mkLatLng 60 10) 1000
                 (L.mkBounds (L.mkLatLng (5999 # 100) (999 # 100))
                             (L.mkLatLng (6001 # 100) (1001 # 100)))
                 [ L.mkLatLng 60 10; L.mkLatLng 60 (1001 # 100);
                   L.mkLatLng (6001 # 100) 10 ]
    /\ performAnalysis sampleConvert sampleDistance sampleCircle
         [Area.mk (Some (Area.mkGeom (Some (Rings [sampleRing ++ [Some [Num 10]]]))))
                  (Num 150)] []
       = Normal r
    /\ areasIntersected r = 0%nat
    /\ totalPopulation r = 0
    /\ areasProcessed r = 1%nat
    /\ areasWithErrors r = 1%nat.
Proof.
  do 2 eexists. split; [vm_compute; reflexivity|]. split; [reflexivity|]. split.
  - split.
    + destruct (getBounds_isBoundingBox
                  [ L.mkLatLng 60 10; L.mkLatLng 60 (1001 # 100);
                    L.mkLatLng (6001 # 100) 10 ] ltac:(discriminate))
        as [box [Hbox Hbb]].
      exists box. split; [exact Hbb|]. split; [exact Hbox|].
      injection Hbox as <-. apply intersects_iff. reflexivity.
    + exists (L.mkLatLng 60 10). split; [left; reflexivity|].
      apply Qle_bool_iff. reflexivity.
  - split; [vm_compute; reflexivity|]. repeat split.
Qed.

(** C7, the claim as stated fails: a bunker of capacity [0] whose location
    converts to the point (60, 10), inside the rectangle, is not counted. *)
Lemma zero_capacity_inside_counterexample :
  exists r,
    sampleConvert (Num 1000000) (Num 6000000)
    = Normal (Num (1000000 / 100000), Num (6000000 / 100000))
    /\ insideShape sampleDistance sampleRectangle
                   (L.mkLatLng (6000000 / 100000) (1000000 / 100000))
    /\ performAnalysis sampleConvert sampleDistance sampleRectangle
                       [] [sampleBunker (Num 0)]
       = Normal r
    /\ bunkersInside r = 0%nat
    /\ totalShelterCapacity r = 0.
Proof.
  eexists. split; [reflexivity|]. split.
  - cbn. repeat split; apply Qle_bool_iff; reflexivity.
  - split; [vm_compute; reflexivity|]. split; reflexivity.
Qed.

(** A bunker of capacity [40] at the same place is counted. *)
Lemma bunker_counted_iff_inside_witness :
  exists s',
    bunkerCallback sampleConvert sampleDistance sampleRectangle initialLocals
                   (sampleBunker (Num 40))
    = Normal s'
    /\ bunkersInside s' = 1%nat
    /\ totalShelterCapacity s' = 0 + 40.
Proof.
  destruct (bunker_counted_iff_inside sampleConvert sampleDistance sampleRectangle
              initialLocals [Num 1000000; Num 6000000] (Num 40)
              (1000000 / 100000) (6000000 / 100000) eq_refl)
    as [s' [Hcb [Hq _]]].
  exists s'. split; [exact Hcb|].
  destruct (Hq 40 eq_refl) as [_ [Hin _]].
  assert (Hinside : insideShape sampleDistance sampleRectangle
                      (L.mkLatLng (6000000 / 100000) (1000000 / 100000))).
  { cbn. repeat split; apply Qle_bool_iff; reflexivity. }
  destruct (Hin Hinside) as [Hb [Hc _]]. split; [exact Hb|exact Hc].
Defined.

(** A bunker whose raw pair [(10, 60)] is within the geographic range, and
    would lie inside the rectangle if read as longitude and latitude, is
    converted all the same and falls outside. *)
Lemma bunker_always_converted_witness :
  bunkerCallback sampleConvert sampleDistance sampleRectangle initialLocals
                 (Bunker.mk (Some (Bunker.mkGeom (Some [Num 10; Num 60]))) (Num 40))
  = Normal initialLocals.
Proof.
  exact (proj1 (bunker_always_converted sampleConvert sampleDistance sampleRectangle
                  initialLocals (Num 10) (Num 60) [] (Num 40) 40 eq_refl)).
Defined.

(** An area and a bunker that lie inside the rectangle, with [0] for
    population and capacity: neither is counted. *)
Lemma zero_is_treated_as_missing_witness :
  areaCallback sampleConvert sampleDistance sampleRectangle initialLocals
               (sampleArea (Num 0))
  = Normal (inc_areasProcessed initialLocals)
  /\ bunkerCallback sampleConvert sampleDistance sampleRectangle initialLocals
                    (sampleBunker (Num 0))
     = Normal initialLocals.
Proof.
  pose proof (zero_is_treated_as_missing sampleConvert sampleDistance sampleRectangle
                initialLocals
                (Some (Area.mkGeom (Some (Rings [sampleRing]))))
                (Some (Bunker.mkGeom (Some [Num 1000000; Num 6000000])))
                0 (Qeq_refl 0)) as [[_ Harea] [_ Hbunker]].
  split; [exact Harea|exact Hbunker].
Defined.

(** ** Further facts about the analysis *)

Section AnalysisInvariants.

Variable convertUTMToWGS84 : number -> number -> completion (number * number).
Variable distanceTo : L.LatLng -> L.LatLng -> Q.

(** The verdict on a bunker, with the capacity it adds. *)
Lemma bunkerEffect_verdict_plasser (drawnShape : L.Layer) (bunker : Bunker.t) :
  exists v,
    (forall q, v = BunkerHit q -> truthyNumber (Bunker.plasser bunker) = Some q)
    /\ forall s,
      bunkerEffect convertUTMToWGS84 distanceTo drawnShape s bunker
      = applyBunkerVerdict v s.
Proof.
  assert (Hskip : forall (P : BunkerVerdict -> Prop), P BunkerSkipped ->
            exists v, (forall q, v = BunkerHit q ->
                                 truthyNumber (Bunker.plasser bunker) = Some q) /\ P v).
  { intros P HP. exists BunkerSkipped. split; [discriminate|exact HP]. }
  unfold bunkerEffect, bunkerCallback.
  destruct (Bunker.geom bunker) as [geom|]; [|apply Hskip; reflexivity].
  destruct (Bunker.coordinates geom) as [coordinates|]; [|apply Hskip; reflexivity].
  destruct (truthyNumber (Bunker.plasser bunker)) as [plasser|];
    [|apply Hskip; reflexivity].
  destruct (convertUTMToWGS84 _ _) as [[wlng wlat]|e]; cbn [bind try_catch fst snd];
    [|apply Hskip; reflexivity].
  destruct (L.latLng wlat wlng) as [p|e]; cbn [bind try_catch];
    [|apply Hskip; reflexivity].
  destruct (isInside distanceTo drawnShape p); [|apply Hskip; reflexivity].
  exists (BunkerHit plasser). split; [congruence|reflexivity].
Qed.

(** *** Counters *)

Lemma area_pass_counters (drawnShape : L.Layer) (populationData : list Area.t)
      (s : Locals) :
  let s' := fold_left (areaEffect convertUTMToWGS84 distanceTo drawnShape)
                      populationData s in
  (areasIntersected s <= areasIntersected s')%nat
  /\ (areasWithErrors s <= areasWithErrors s')%nat
  /\ (areasIntersected s' + areasWithErrors s'
      <= areasIntersected s + areasWithErrors s + length populationData)%nat
  /\ totalShelterCapacity s' = totalShelterCapacity s
  /\ bunkersInside s' = bunkersInside s.
Proof.
  revert s; induction populationData as [|area rest IH]; intros s; cbn zeta; simpl.
  - repeat split; lia.
  - specialize (IH (areaEffect convertUTMToWGS84 distanceTo drawnShape s area)).
    cbn zeta in IH. destruct IH as (H1 & H2 & H3 & H4 & H5).
    rewrite H4, H5.
    destruct (areaEffect_verdict convertUTMToWGS84 distanceTo drawnShape area)
      as [[| |poptot] [_ Hv]]; rewrite Hv in *; cbn in *; repeat split; lia.
Qed.

Lemma bunker_pass_counters (drawnShape : L.Layer) (bunkerData : list Bunker.t)
      (s : Locals) :
  let s' := fold_left (bunkerEffect convertUTMToWGS84 distanceTo drawnShape)
                      bunkerData s in
  totalPopulation s' = totalPopulation s
  /\ areasIntersected s' = areasIntersected s
  /\ areasProcessed s' = areasProcessed s
  /\ areasWithErrors s' = areasWithErrors s
  /\ (bunkersInside s <= bunkersInside s')%nat
  /\ (bunkersInside s' <= bunkersInside s + length bunkerData)%nat.
Proof.
  revert s; induction bunkerData as [|bunker rest IH]; intros s; cbn zeta; simpl.
  - repeat split; lia.
  - specialize (IH (bunkerEffect convertUTMToWGS84 distanceTo drawnShape s bunker)).
    cbn zeta in IH. destruct IH as (H1 & H2 & H3 & H4 & H5 & H6).
    rewrite H1, H2, H3, H4.
    destruct (bunkerEffect_verdict convertUTMToWGS84 distanceTo drawnShape bunker)
      as [[|plasser] Hv]; rewrite Hv in *; cbn in *; repeat split; lia.
Qed.

(** X1. The counts of a result are consistent with each other and with the
    datasets: the intersected areas and the areas with errors are
    distinct processed areas, every population record is processed, and
    the bunkers inside are at most the bunker records. *)
Theorem result_counts_are_consistent (drawnShape : L.Layer)
        (populationData : list Area.t) (bunkerData : list Bunker.t) :
  exists r,
    performAnalysis convertUTMToWGS84 distanceTo drawnShape populationData bunkerData
    = Normal r
    /\ (areasIntersected r + areasWithErrors r <= areasProcessed r)%nat
    /\ areasProcessed r = length populationData
    /\ (bunkersInside r <= length bunkerData)%nat.
Proof.
  rewrite performAnalysis_folds. cbv zeta.
  eexists. split; [reflexivity|]. cbn [locals].
  pose proof (bunker_pass_counters drawnShape bunkerData
    (fold_left (areaEffect convertUTMToWGS84 distanceTo drawnShape) populationData
               initialLocals)) as Hb.
  pose proof (area_pass_counters drawnShape populationData initialLocals) as Ha.
  pose proof (areasProcessed_area_pass convertUTMToWGS84 distanceTo drawnShape
                populationData initialLocals) as Hp.
  cbn zeta in Ha, Hb. cbn in Ha, Hp.
  destruct Ha as (_ & _ & Ha3 & _ & Ha5). destruct Hb as (_ & Hb2 & Hb3 & Hb4 & _ & Hb6).
  rewrite Hb2, Hb3, Hb4, Hp. rewrite Ha5 in Hb6. cbn in Hb6.
  repeat split; lia.
Qed.

(** *** Sums and counts *)

Lemma area_pass_nothing_counted (drawnShape : L.Layer) (populationData : list Area.t)
      (s : Locals) :
  areasIntersected (fold_left (areaEffect convertUTMToWGS84 distanceTo drawnShape)
                              populationData s)
  = areasIntersected s ->
  totalPopulation (fold_left (areaEffect convertUTMToWGS84 distanceTo drawnShape)
                             populationData s)
  = totalPopulation s.
Proof.
  revert s; induction populationData as [|area rest IH]; intros s; simpl.
  - reflexivity.
  - intros Heq.
    pose proof (area_pass_counters drawnShape rest
      (areaEffect convertUTMToWGS84 distanceTo drawnShape s area)) as Hc.
    cbn zeta in Hc. destruct Hc as (Hmono & _).
    destruct (areaEffect_verdict convertUTMToWGS84 distanceTo drawnShape area)
      as [[| |poptot] [_ Hv]]; rewrite Hv in *.
    + exact (IH (applyAreaVerdict AreaSkipped s) Heq).
    + exact (IH (applyAreaVerdict AreaFailed s) Heq).
    + cbn in Hmono, Heq. lia.
Qed.

Lemma bunker_pass_nothing_counted (drawnShape : L.Layer) (bunkerData : list Bunker.t)
      (s : Locals) :
  bunkersInside (fold_left (bunkerEffect convertUTMToWGS84 distanceTo drawnShape)
                           bunkerData s)
  = bunkersInside s ->
  totalShelterCapacity (fold_left (bunkerEffect convertUTMToWGS84 distanceTo drawnShape)
                                  bunkerData s)
  = totalShelterCapacity s.
Proof.
  revert s; induction bunkerData as [|bunker rest IH]; intros s; simpl.
  - reflexivity.
  - intros Heq.
    pose proof (bunker_pass_counters drawnShape rest
      (bunkerEffect convertUTMToWGS84 distanceTo drawnShape s bunker)) as Hc.
    cbn zeta in Hc. destruct Hc as (_ & _ & _ & _ & Hmono & _).
    destruct (bunkerEffect_verdict convertUTMToWGS84 distanceTo drawnShape bunker)
      as [[|plasser] Hv]; rewrite Hv in *.
    + exact (IH (applyBunkerVerdict BunkerSkipped s) Heq).
    + cbn in Hmono, Heq. lia.
Qed.

(** X2. A result that counts no intersected area has total population [0]
    and coverage [0], whatever the shelters; a result that counts no
    bunker inside has total shelter capacity [0]. *)
Theorem nothing_counted_nothing_summed (drawnShape : L.Layer)
        (populationData : list Area.t) (bunkerData : list Bunker.t) :
  exists r,
    performAnalysis convertUTMToWGS84 distanceTo drawnShape populationData bunkerData
    = Normal r
    /\ (areasIntersected r = 0%nat ->
        totalPopulation r = 0 /\ coveragePercentage r = 0)
    /\ (bunkersInside r = 0%nat -> totalShelterCapacity r = 0).
Proof.
  rewrite performAnalysis_folds. cbv zeta.
  eexists. split; [reflexivity|]. cbn [locals coveragePercentage].
  pose proof (bunker_pass_counters drawnShape bunkerData
    (fold_left (areaEffect convertUTMToWGS84 distanceTo drawnShape) populationData
               initialLocals)) as Hb.
  pose proof (area_pass_counters drawnShape populationData initialLocals) as Ha.
  cbn zeta in Ha, Hb.
  destruct Ha as (_ & _ & _ & Ha4 & Ha5). destruct Hb as (Hb1 & Hb2 & _ & _ & _ & _).
  split.
  - intros Hzero. rewrite Hb2 in Hzero.
    assert (Hpop : totalPopulation
              (fold_left (bunkerEffect convertUTMToWGS84 distanceTo drawnShape) bunkerData
                 (fold_left (areaEffect convertUTMToWGS84 distanceTo drawnShape)
                            populationData initialLocals)) = 0).
    { rewrite Hb1. rewrite area_pass_nothing_counted; [reflexivity|exact Hzero]. }
    split; [exact Hpop|]. rewrite Hpop. reflexivity.
  - intros Hzero.
    rewrite bunker_pass_nothing_counted; [exact Ha4|].
    rewrite Hzero. rewrite Ha5. reflexivity.
Qed.

Lemma totalShelterCapacity_bunker_pass_nonneg (drawnShape : L.Layer)
      (bunkerData : list Bunker.t) (s : Locals) :
  nonNegativeCapacities bunkerData ->
  0 <= totalShelterCapacity s ->
  0 <= totalShelterCapacity
         (fold_left (bunkerEffect convertUTMToWGS84 distanceTo drawnShape) bunkerData s).
Proof.
  intros Hall; revert s; induction Hall as [|bunker rest Hb _ IH]; intros s Hs; simpl.
  - exact Hs.
  - apply IH.
    destruct (bunkerEffect_verdict_plasser drawnShape bunker) as [[|plasser] [Hq ->]];
      simpl; try exact Hs.
    pose proof (truthyNumber_nonneg _ _ Hb (Hq _ eq_refl)). lra.
Qed.

Lemma coverage_nonneg (totalShelterCapacity totalPopulation : Q) :
  0 <= totalShelterCapacity -> 0 <= coverage totalShelterCapacity totalPopulation.
Proof.
  intros Hc. unfold coverage.
  destruct (Qle_bool totalPopulation 0) eqn:Hle; cbn [negb]; [apply Qle_refl|].
  assert (Hp : 0 < totalPopulation).
  { destruct (Qlt_le_dec 0 totalPopulation) as [H|H]; [exact H|].
    apply Qle_bool_iff in H. congruence. }
  apply Qmult_le_0_compat; [|discriminate].
  unfold Qdiv. apply Qmult_le_0_compat; [exact Hc|].
  apply Qinv_le_0_compat. apply Qlt_le_weak. exact Hp.
Qed.

(** X3. On datasets without negative populations and capacities, the
    total population, the total shelter capacity and the coverage of
    the result are not negative. *)
Theorem result_sums_not_negative (drawnShape : L.Layer)
        (populationData : list Area.t) (bunkerData : list Bunker.t) :
  nonNegativePopulations populationData ->
  nonNegativeCapacities bunkerData ->
  exists r,
    performAnalysis convertUTMToWGS84 distanceTo drawnShape populationData bunkerData
    = Normal r
    /\ 0 <= totalPopulation r
    /\ 0 <= totalShelterCapacity r
    /\ 0 <= coveragePercentage r.
Proof.
  intros Hpop Hcap. rewrite performAnalysis_folds. cbv zeta.
  eexists. split; [reflexivity|]. cbn [locals coveragePercentage].
  assert (Hc : 0 <= totalShelterCapacity
     (fold_left (bunkerEffect convertUTMToWGS84 distanceTo drawnShape) bunkerData
        (fold_left (areaEffect convertUTMToWGS84 distanceTo drawnShape) populationData
                   initialLocals))).
  { apply totalShelterCapacity_bunker_pass_nonneg; [exact Hcap|].
    pose proof (area_pass_counters drawnShape populationData initialLocals) as Ha.
    cbn zeta in Ha. destruct Ha as (_ & _ & _ & Ha4 & _). rewrite Ha4.
    cbn. apply Qle_refl. }
  split; [|split].
  - rewrite totalPopulation_bunker_pass.
    apply totalPopulation_area_pass_nonneg; [exact Hpop|]. cbn. apply Qle_refl.
  - exact Hc.
  - apply coverage_nonneg. exact Hc.
Qed.

(** *** Rings that Leaflet accepts or rejects *)

Lemma polygon_cases (cs : list (number * number)) :
  (exists vs, cs = map pairOf vs /\ L.polygon cs = Normal vs)
  \/ (Exists hasNaN cs /\ exists e, L.polygon cs = Throw e).
Proof.
  unfold L.polygon. induction cs as [|[a b] cs IH]; simpl.
  - left. exists []. split; reflexivity.
  - destruct a as [la|]; [destruct b as [ln|]|].
    + destruct IH as [[vs [-> Hvs]]|[Hex [e He]]].
      * left. exists (L.mkLatLng la ln :: vs). split; [reflexivity|].
        cbn [L.latLng bind]. rewrite Hvs. reflexivity.
      * right. split; [apply Exists_cons_tl; exact Hex|].
        exists e. cbn [L.latLng bind]. rewrite He. reflexivity.
    + right. split; [apply Exists_cons_hd; right; reflexivity|]. eexists; reflexivity.
    + right. split; [apply Exists_cons_hd; left; reflexivity|].
      destruct b; eexists; reflexivity.
Qed.

Lemma pairOf_no_NaN (vs : list L.LatLng) : ~ Exists hasNaN (map pairOf vs).
Proof.
  induction vs as [|v vs IH]; simpl; intros H; inversion H; subst.
  - match goal with Hn : hasNaN _ |- _ => destruct Hn as [Hn|Hn]; discriminate Hn end.
  - auto.
Qed.

Lemma isIntersecting_bounded (drawnShape : L.Layer) (bounds : L.LatLngBounds)
      (vs : list L.LatLng) :
  drawnShape = L.Rectangle bounds \/ drawnShape = L.Polygon bounds ->
  isIntersecting distanceTo drawnShape (map pairOf vs)
  = L.intersects (L.getBounds vs) bounds.
Proof.
  intros [-> | ->]; unfold isIntersecting; rewrite polygon_pairOf; reflexivity.
Qed.

Lemma isIntersecting_valid (drawnShape : L.Layer) (vs : list L.LatLng) :
  vs <> [] ->
  exists hit, isIntersecting distanceTo drawnShape (map pairOf vs) = Normal hit.
Proof.
  intros Hne.
  destruct drawnShape as [center radius bounds|bounds|bounds].
  - destruct (intersects_getBounds vs bounds Hne) as [boxes Hb].
    eexists. apply isIntersecting_circle. exact Hb.
  - rewrite (isIntersecting_bounded _ bounds) by (left; reflexivity).
    apply intersects_getBounds; exact Hne.
  - rewrite (isIntersecting_bounded _ bounds) by (right; reflexivity).
    apply intersects_getBounds; exact Hne.
Qed.


Lemma validVertices_pairOf (vs : list L.LatLng) :
  validVertices (map pairOf vs) = map pairOf vs.
Proof.
  unfold validVertices. induction vs as [|v vs IH]; cbn [map filter]; [reflexivity|].
  cbn [isValidVertex pairOf fst snd]. rewrite IH. reflexivity.
Qed.


(** X5. For any shape and a population area whose fields are present and
    whose ring leaves at least three positions, [areasWithErrors] is
    incremented exactly when some remaining position has a component
    that is not a number (as for a position of fewer than two
    components); otherwise the area is tested and no error is counted. *)
Theorem error_counted_iff_vertex_not_a_number
        (drawnShape : L.Layer) (s : Locals)
        (rings : list (list Coord)) (poptot : number) (q : Q)
        (mapped : list (option (number * number))) :
  Array_map (convertCoord convertUTMToWGS84) (firstRing rings) = Normal mapped ->
  (3 <= length (filter_not_null mapped))%nat ->
  truthyNumber poptot = Some q ->
  (areaCallback convertUTMToWGS84 distanceTo drawnShape s
                (Area.mk (Some (Area.mkGeom (Some (Rings rings)))) poptot)
   = Normal (inc_areasWithErrors (inc_areasProcessed s))
   <-> Exists hasNaN (filter_not_null mapped))
  /\ (~ Exists hasNaN (filter_not_null mapped) ->
      exists hit,
        isIntersecting distanceTo drawnShape (filter_not_null mapped) = Normal hit
        /\ areaCallback convertUTMToWGS84 distanceTo drawnShape s
                        (Area.mk (Some (Area.mkGeom (Some (Rings rings)))) poptot)
           = Normal (if hit then add_population q (inc_areasProcessed s)
                     else inc_areasProcessed s)).
Proof.
  intros Hmap Hlen Hq.
  assert (Hcb : areaCallback convertUTMToWGS84 distanceTo drawnShape s
                  (Area.mk (Some (Area.mkGeom (Some (Rings rings)))) poptot)
                = try_catch
                    (hit <- isIntersecting distanceTo drawnShape (filter_not_null mapped) ;;
                     if hit then Normal (add_population q (inc_areasProcessed s))
                     else Normal (inc_areasProcessed s))
                    (fun _ => Normal (inc_areasWithErrors (inc_areasProcessed s)))).
  { unfold areaCallback. cbn [Area.geom Area.coordinates Area.poptot].
    rewrite Hq, Hmap. cbn [bind].
    apply Nat.ltb_ge in Hlen. rewrite Hlen. reflexivity. }
  rewrite Hcb.
  destruct (polygon_cases (filter_not_null mapped)) as [[vs [Hvs Hpoly]]|[Hex [e He]]].
  - assert (Hne : vs <> []).
    { intros ->. rewrite Hvs in Hlen. simpl in Hlen. lia. }
    assert (Hno : ~ Exists hasNaN (filter_not_null mapped))
      by (rewrite Hvs; apply pairOf_no_NaN).
    rewrite Hvs in *.
    destruct (isIntersecting_valid drawnShape vs Hne) as [hit Hhit].
    rewrite Hhit. cbn [bind try_catch]. split.
    + split; [|intros H; contradiction].
      intros H. exfalso.
      destruct hit; cbn [try_catch] in H;
        apply (f_equal (fun c => areasWithErrors (after s c))) in H; cbn in H; lia.
    + intros _. exists hit. split; [reflexivity|]. destruct hit; reflexivity.
  - assert (Hthrow : isIntersecting distanceTo drawnShape (filter_not_null mapped)
                     = Throw e).
    { unfold isIntersecting. rewrite He. reflexivity. }
    rewrite Hthrow. cbn [bind try_catch]. split.
    + split; [intros _; exact Hex|reflexivity].
    + intros Hn. contradiction.
Qed.

(** *** Growing the shape *)

Lemma boxesOverlap_mono (box b b' : L.LatLngBounds) :
  boundsWithin b b' -> boxesOverlap box b -> boxesOverlap box b'.
Proof.
  unfold boundsWithin, boxesOverlap.
  intros [[H1 H2] [H3 H4]] [[H5 H6] [H7 H8]]. repeat split; lra.
Qed.

Lemma intersects_mono (vs : list L.LatLng) (b b' : L.LatLngBounds) :
  boundsWithin b b' ->
  outcomeLe (L.intersects (L.getBounds vs) b) (L.intersects (L.getBounds vs) b').
Proof.
  intros Hw. destruct vs as [|v rest]; [exact I|].
  destruct (getBounds_isBoundingBox (v :: rest) ltac:(discriminate)) as [box [Hbox _]].
  rewrite Hbox.
  destruct (L.intersects (Some box) b) as [[|]|e] eqn:H1;
    destruct (L.intersects (Some box) b') as [[|]|e'] eqn:H2;
    try exact I; try discriminate.
  apply intersects_iff in H1. apply (boxesOverlap_mono box b b' Hw) in H1.
  apply intersects_iff in H1. congruence.
Qed.

Lemma isIntersecting_mono (a b : L.Layer) (cs : list (number * number)) :
  shapeWithin a b ->
  outcomeLe (isIntersecting distanceTo a cs) (isIntersecting distanceTo b cs).
Proof.
  intros Hw.
  destruct (polygon_cases cs) as [[vs [-> Hpoly]]|[_ [e He]]].
  - destruct a as [c r bd|bd|bd], b as [c' r' bd'|bd'|bd'];
      cbn [shapeWithin] in Hw; try contradiction.
    + destruct Hw as [<- [Hr Hbd]].
      pose proof (intersects_mono vs bd bd' Hbd) as Hle.
      destruct (L.intersects (L.getBounds vs) bd) as [boxes|e] eqn:H1;
        destruct (L.intersects (L.getBounds vs) bd') as [boxes'|e'] eqn:H2;
        cbn [outcomeLe] in Hle; try contradiction;
        try (destruct boxes; contradiction).
      * rewrite (isIntersecting_circle distanceTo vs c r bd boxes H1).
        rewrite (isIntersecting_circle distanceTo vs c r' bd' boxes' H2).
        destruct boxes; cbn [andb]; [|exact I].
        destruct boxes'; [|contradiction]. cbn [andb].
        destruct (existsb (fun v => Qle_bool (distanceTo v c) r) vs) eqn:Hex; [|exact I].
        apply existsb_within in Hex. destruct Hex as [v [Hin Hd]].
        assert (Hex' : existsb (fun v => Qle_bool (distanceTo v c) r') vs = true).
        { apply existsb_within. exists v. split; [exact Hin|lra]. }
        rewrite Hex'. exact I.
      * unfold isIntersecting. rewrite polygon_pairOf. cbn [bind].
        rewrite H1, H2. exact I.
    + rewrite (isIntersecting_bounded (L.Rectangle bd) bd vs) by (left; reflexivity).
      rewrite (isIntersecting_bounded (L.Rectangle bd') bd' vs) by (left; reflexivity).
      apply intersects_mono; exact Hw.
    + rewrite (isIntersecting_bounded (L.Rectangle bd) bd vs) by (left; reflexivity).
      rewrite (isIntersecting_bounded (L.Polygon bd') bd' vs) by (right; reflexivity).
      apply intersects_mono; exact Hw.
    + rewrite (isIntersecting_bounded (L.Polygon bd) bd vs) by (right; reflexivity).
      rewrite (isIntersecting_bounded (L.Rectangle bd') bd' vs) by (left; reflexivity).
      apply intersects_mono; exact Hw.
    + rewrite (isIntersecting_bounded (L.Polygon bd) bd vs) by (right; reflexivity).
      rewrite (isIntersecting_bounded (L.Polygon bd') bd' vs) by (right; reflexivity).
      apply intersects_mono; exact Hw.
  - unfold isIntersecting. rewrite He. exact I.
Qed.

Lemma isInside_mono (a b : L.Layer) (p : L.LatLng) :
  shapeWithin a b ->
  isInside distanceTo a p = true -> isInside distanceTo b p = true.
Proof.
  intros Hw.
  destruct a as [c r bd|bd|bd], b as [c' r' bd'|bd'|bd'];
    cbn [shapeWithin] in Hw; try contradiction; cbn [isInside].
  - destruct Hw as [<- [Hr _]]. rewrite !Qle_bool_iff. lra.
  - rewrite !(contains_iff distanceTo). unfold boundsWithin, withinBox in *.
    intuition lra.
  - rewrite !(contains_iff distanceTo). unfold boundsWithin, withinBox in *.
    intuition lra.
  - rewrite !(contains_iff distanceTo). unfold boundsWithin, withinBox in *.
    intuition lra.
  - rewrite !(contains_iff distanceTo). unfold boundsWithin, withinBox in *.
    intuition lra.
Qed.

Ltac locals_le :=
  unfold LocalsLe in *; cbn in *;
  repeat match goal with H : _ /\ _ |- _ => destruct H end;
  repeat split; try lia; try lra.

Lemma areaEffect_mono (a b : L.Layer) (area : Area.t) (s t : Locals) :
  shapeWithin a b ->
  match Area.poptot area with Num q => 0 <= q | NaN => True end ->
  LocalsLe s t ->
  LocalsLe (areaEffect convertUTMToWGS84 distanceTo a s area)
           (areaEffect convertUTMToWGS84 distanceTo b t area).
Proof.
  intros Hw Hpos Hst. unfold areaEffect, areaCallback.
  destruct (Area.geom area) as [geom|]; [|locals_le].
  destruct (Area.coordinates geom) as [coordinates|]; [|locals_le].
  destruct (truthyNumber (Area.poptot area)) as [poptot|] eqn:Hq; [|locals_le].
  pose proof (truthyNumber_nonneg _ _ Hpos Hq) as Hpoptot.
  destruct coordinates as [rings|]; [|locals_le].
  destruct (map_convertCoord_normal convertUTMToWGS84 (firstRing rings))
    as [mapped Hmap].
  rewrite Hmap. cbn [bind].
  destruct (length (filter_not_null mapped) <? 3)%nat; [locals_le|].
  pose proof (isIntersecting_mono a b (filter_not_null mapped) Hw) as Hle.
  destruct (isIntersecting distanceTo a (filter_not_null mapped)) as [[|]|e];
    destruct (isIntersecting distanceTo b (filter_not_null mapped)) as [[|]|e'];
    cbn [outcomeLe] in Hle; try contradiction; locals_le.
Qed.

Lemma bunkerEffect_mono (a b : L.Layer) (bunker : Bunker.t) (s t : Locals) :
  shapeWithin a b ->
  match Bunker.plasser bunker with Num q => 0 <= q | NaN => True end ->
  LocalsLe s t ->
  LocalsLe (bunkerEffect convertUTMToWGS84 distanceTo a s bunker)
           (bunkerEffect convertUTMToWGS84 distanceTo b t bunker).
Proof.
  intros Hw Hpos Hst. unfold bunkerEffect, bunkerCallback.
  destruct (Bunker.geom bunker) as [geom|]; [|locals_le].
  destruct (Bunker.coordinates geom) as [coordinates|]; [|locals_le].
  destruct (truthyNumber (Bunker.plasser bunker)) as [plasser|] eqn:Hq; [|locals_le].
  pose proof (truthyNumber_nonneg _ _ Hpos Hq) as Hplasser.
  destruct (convertUTMToWGS84 _ _) as [[wlng wlat]|e]; cbn [bind try_catch fst snd];
    [|locals_le].
  destruct (L.latLng wlat wlng) as [p|e]; cbn [bind try_catch]; [|locals_le].
  pose proof (isInside_mono a b p Hw) as Hin.
  destruct (isInside distanceTo a p); destruct (isInside distanceTo b p);
    try (specialize (Hin eq_refl); discriminate Hin); locals_le.
Qed.

Lemma area_pass_mono (a b : L.Layer) (populationData : list Area.t) (s t : Locals) :
  shapeWithin a b ->
  nonNegativePopulations populationData ->
  LocalsLe s t ->
  LocalsLe (fold_left (areaEffect convertUTMToWGS84 distanceTo a) populationData s)
           (fold_left (areaEffect convertUTMToWGS84 distanceTo b) populationData t).
Proof.
  intros Hw Hall; revert s t; induction Hall as [|area rest Harea _ IH];
    intros s t Hst; simpl.
  - exact Hst.
  - apply IH. apply areaEffect_mono; assumption.
Qed.

Lemma bunker_pass_mono (a b : L.Layer) (bunkerData : list Bunker.t) (s t : Locals) :
  shapeWithin a b ->
  nonNegativeCapacities bunkerData ->
  LocalsLe s t ->
  LocalsLe (fold_left (bunkerEffect convertUTMToWGS84 distanceTo a) bunkerData s)
           (fold_left (bunkerEffect convertUTMToWGS84 distanceTo b) bunkerData t).
Proof.
  intros Hw Hall; revert s t; induction Hall as [|bunker rest Hb _ IH];
    intros s t Hst; simpl.
  - exact Hst.
  - apply IH. apply bunkerEffect_mono; assumption.
Qed.

(** X6. On datasets without negative populations and capacities, a shape
    that lies within another (a rectangle or polygon with smaller
    bounds, a circle about the same centre with smaller radius and
    bounds) never counts more: its total population, intersected areas,
    total shelter capacity and bunkers inside are at most those of the
    larger shape, and the processed and error counts are the same. *)
Theorem larger_shape_counts_no_less (a b : L.Layer)
        (populationData : list Area.t) (bunkerData : list Bunker.t) :
  shapeWithin a b ->
  nonNegativePopulations populationData ->
  nonNegativeCapacities bunkerData ->
  exists r r',
    performAnalysis convertUTMToWGS84 distanceTo a populationData bunkerData = Normal r
    /\ performAnalysis convertUTMToWGS84 distanceTo b populationData bunkerData
       = Normal r'
    /\ LocalsLe r r'.
Proof.
  intros Hw Hpop Hcap. rewrite !performAnalysis_folds. cbv zeta.
  do 2 eexists. split; [reflexivity|]. split; [reflexivity|]. cbn [locals].
  apply bunker_pass_mono; [exact Hw|exact Hcap|].
  apply area_pass_mono; [exact Hw|exact Hpop|].
  unfold LocalsLe; cbn; repeat split; try lia; apply Qle_refl.
Qed.

End AnalysisInvariants.

(** ** Facts about the loading of the population layer *)

(** X7. The colour of a population is decided by the brackets
    above 2000, (1000, 2000], (500, 1000], (100, 500] and up to 100:
    a population on a threshold falls in the lower bracket. *)
Theorem getColorByPopulation_brackets (population : Q) :
  (getColorByPopulation population = "#BD0026"%string <-> 2000 < population)
  /\ (getColorByPopulation population = "#FC4E2A"%string
      <-> 1000 < population <= 2000)
  /\ (getColorByPopulation population = "#FD8D3C"%string
      <-> 500 < population <= 1000)
  /\ (getColorByPopulation population = "#FEB24C"%string
      <-> 100 < population <= 500)
  /\ (getColorByPopulation population = "#FFEDA0"%string <-> population <= 100).
Proof.
  unfold getColorByPopulation.
  destruct (Qle_bool population 2000) eqn:H1;
  destruct (Qle_bool population 1000) eqn:H2;
  destruct (Qle_bool population 500) eqn:H3;
  destruct (Qle_bool population 100) eqn:H4; cbn [negb];
  repeat match goal with
         | H : Qle_bool _ _ = true |- _ => apply Qle_bool_iff in H
         | H : Qle_bool ?x ?y = false |- _ =>
             assert (y < x)
               by (destruct (Qlt_le_dec y x) as [Hl|Hl]; [exact Hl|];
                   apply Qle_bool_iff in Hl; congruence);
             clear H
         end;
  repeat split; intros; try discriminate; try reflexivity; try lra.
Qed.

Section LoaderFacts.

Variable convertUTMToWGS84 : number -> number -> completion (number * number).

Lemma loadCoord_normal (polygonCoords : list (number * number)) (coord : Coord) :
  exists pushed, loadCoord convertUTMToWGS84 polygonCoords coord = Normal pushed.
Proof.
  unfold loadCoord. destruct coord as [elems|]; [|eexists; reflexivity].
  destruct (length elems <? 2)%nat; [eexists; reflexivity|].
  cbn [index bind].
  destruct (gt (nth 0 elems NaN) 180 || gt (nth 1 elems NaN) 90).
  - destruct (convertUTMToWGS84 _ _); eexists; reflexivity.
  - eexists; reflexivity.
Qed.

Lemma forEach_loadCoord_normal (ring : list Coord)
      (polygonCoords : list (number * number)) :
  exists pushed,
    forEach (loadCoord convertUTMToWGS84) ring polygonCoords = Normal pushed.
Proof.
  revert polygonCoords; induction ring as [|coord rest IH]; intros polygonCoords; simpl.
  - eexists; reflexivity.
  - destruct (loadCoord_normal polygonCoords coord) as [pushed ->]. cbn [bind].
    apply IH.
Qed.

Lemma polygon_length (cs : list (number * number)) (vs : list L.LatLng) :
  L.polygon cs = Normal vs -> length vs = length cs.
Proof.
  destruct (polygon_cases cs) as [[vs' [-> Hp]]|[_ [e He]]]; intros H.
  - rewrite Hp in H. injection H as <-. rewrite length_map. reflexivity.
  - congruence.
Qed.

(** What the loader's callback does with one area: nothing, an error
    counted, or a polygon drawn. *)
Lemma loadCallback_cases (s : LoadState) (area : Area.t) :
  loadCallback convertUTMToWGS84 s area = Normal s
  \/ loadCallback convertUTMToWGS84 s area = Normal (inc_errorCount s)
  \/ exists d,
      styledByPopulation d
      /\ truthyNumber (Area.poptot area) = Some (popup d)
      /\ loadCallback convertUTMToWGS84 s area
         = Normal (mkLoad (S (successCount s)) (errorCount s)
                          (populationLayer s ++ [d])).
Proof.
  unfold loadCallback.
  destruct (Area.geom area) as [geom|]; [|left; reflexivity].
  destruct (truthyNumber (Area.poptot area)) as [poptot|] eqn:Hq; [|left; reflexivity].
  destruct (Area.coordinates geom) as [[rings|]|];
    [|right; left; reflexivity|right; left; reflexivity].
  destruct (forEach_loadCoord_normal (firstRing rings) []) as [pushed ->].
  cbn [bind].
  destruct (length pushed <? 3)%nat eqn:Hlen; [right; left; reflexivity|].
  destruct (L.polygon pushed) as [polygon|e] eqn:Hp; cbn [bind try_catch];
    [|right; left; reflexivity].
  right; right. eexists. split; [|split; [|reflexivity]].
  - unfold styledByPopulation; cbn [popup fillColor].
    split; [|reflexivity].
    destruct (Area.poptot area) as [x|]; simpl in Hq; [|discriminate].
    destruct (Qeq_bool x 0) eqn:Hx; [discriminate|].
    injection Hq as <-. apply Qeq_bool_neq. exact Hx.
  - reflexivity.
Qed.

Lemma forEach_loadCallback (populationData : list Area.t) (s : LoadState) :
  exists s' added,
    forEach (loadCallback convertUTMToWGS84) populationData s = Normal s'
    /\ populationLayer s' = populationLayer s ++ added
    /\ successCount s' = (successCount s + length added)%nat
    /\ (errorCount s <= errorCount s')%nat
    /\ (length added + (errorCount s' - errorCount s) <= length populationData)%nat
    /\ Forall styledByPopulation added.
Proof.
  revert s; induction populationData as [|area rest IH]; intros s; simpl.
  - exists s, []. cbn. rewrite app_nil_r. repeat split; try lia. constructor.
  - destruct (loadCallback_cases s area) as [H|[H|[d [Hd [_ H]]]]]; rewrite H; cbn [bind].
    + destruct (IH s) as (s' & added & H1 & H2 & H3 & H4 & H5 & H6).
      exists s', added. repeat split; auto; lia.
    + destruct (IH (inc_errorCount s)) as (s' & added & H1 & H2 & H3 & H4 & H5 & H6).
      cbn in *. exists s', added. repeat split; auto; lia.
    + destruct (IH (mkLoad (S (successCount s)) (errorCount s)
                           (populationLayer s ++ [d])))
        as (s' & added & H1 & H2 & H3 & H4 & H5 & H6).
      cbn in *. exists s', (d :: added).
      rewrite <- app_assoc in H2. cbn in *.
      repeat split; auto; try lia.
Qed.

Lemma logFirstItem_throws_iff (populationData : list Area.t) :
  (logFirstItem populationData = Throw TypeError <-> firstPositionIsNull populationData)
  /\ (~ firstPositionIsNull populationData -> logFirstItem populationData = Normal tt).
Proof.
  assert (Hyes : forall first rest geom rings ring,
             populationData = first :: rest -> Area.geom first = Some geom ->
             Area.coordinates geom = Some (Rings rings) ->
             firstRing rings = None :: ring ->
             logFirstItem populationData = Throw TypeError).
  { intros first rest geom rings ring -> Hg Hc Hr. unfold logFirstItem.
    rewrite Hg, Hc, Hr. reflexivity. }
  assert (Hno : logFirstItem populationData = Normal tt
                \/ firstPositionIsNull populationData).
  { unfold logFirstItem.
    destruct populationData as [|first rest]; [left; reflexivity|].
    destruct (Area.geom first) as [geom|] eqn:Hg; [|left; reflexivity].
    destruct (Area.coordinates geom) as [[rings|]|] eqn:Hc;
      [|left; reflexivity|left; reflexivity].
    destruct (firstRing rings) as [|[elems|] ring] eqn:Hr;
      [left; reflexivity|left; reflexivity|].
    right. exists first, rest, geom, rings, ring. auto. }
  split; [split|].
  - intros Hthrow. destruct Hno as [Hn|Hn]; [congruence|exact Hn].
  - intros (first & rest & geom & rings & ring & H1 & H2 & H3 & H4). eauto.
  - intros Hn. destruct Hno as [H|H]; [exact H|contradiction].
Qed.

(** X8. Loading a non-empty dataset throws (a [TypeError] that no handler
    catches) exactly when the first area has a geometry whose first ring
    starts with a [null] position, which the logging of the first item
    reads outside any [try]; in every other case the loader returns,
    whatever the records are. *)
Theorem loadPopulationData_throws_iff (populationData : list Area.t)
        (layer : list DrawnPolygon) :
  ((exists e, loadPopulationData convertUTMToWGS84 populationData layer = Throw e)
   <-> firstPositionIsNull populationData)
  /\ (firstPositionIsNull populationData ->
      loadPopulationData convertUTMToWGS84 populationData layer = Throw TypeError)
  /\ (~ firstPositionIsNull populationData ->
      exists s, loadPopulationData convertUTMToWGS84 populationData layer = Normal s).
Proof.
  destruct (logFirstItem_throws_iff populationData) as [Hiff Hnormal].
  assert (Hthrow : firstPositionIsNull populationData ->
            loadPopulationData convertUTMToWGS84 populationData layer = Throw TypeError).
  { intros Hn. pose proof Hn as (first & rest & _ & _ & _ & -> & _).
    unfold loadPopulationData. cbn [length Nat.eqb].
    apply Hiff in Hn. rewrite Hn. reflexivity. }
  assert (Hret : ~ firstPositionIsNull populationData ->
            exists s, loadPopulationData convertUTMToWGS84 populationData layer
                      = Normal s).
  { intros Hn. unfold loadPopulationData.
    destruct (length populationData =? 0)%nat; [eexists; reflexivity|].
    rewrite (Hnormal Hn). cbn [bind].
    destruct (forEach_loadCallback populationData (mkLoad 0 0 layer))
      as (s' & added & H1 & _). eauto. }
  split; [split|split]; auto.
  - intros [e He].
    destruct (logFirstItem_throws_iff populationData) as [_ Hn'].
    unfold loadPopulationData in He.
    destruct (length populationData =? 0)%nat; [discriminate|].
    destruct (logFirstItem populationData) as [[]|e'] eqn:Hlog.
    + cbn [bind] in He.
      destruct (forEach_loadCallback populationData (mkLoad 0 0 layer))
        as (s' & added & H1 & _). congruence.
    + unfold logFirstItem in Hlog.
      destruct populationData as [|first rest]; [discriminate|].
      destruct (Area.geom first) as [geom|] eqn:Hg; [|discriminate].
      destruct (Area.coordinates geom) as [[rings|]|] eqn:Hc; try discriminate.
      destruct (firstRing rings) as [|[elems|] ring] eqn:Hr; try discriminate.
      exists first, rest, geom, rings, ring. auto.
  - intros Hn. eexists. apply Hthrow. exact Hn.
Qed.

(** X9. When the loader returns, the layer holds what it held before,
    followed by the polygons drawn; their number is [successCount];
    drawn and erroneous areas together are at most the records; and
    every polygon drawn shows a population that is not [0] and is
    filled with the colour of that population. *)
Theorem loadPopulationData_accounting (populationData : list Area.t)
        (layer : list DrawnPolygon) (s : LoadState) :
  loadPopulationData convertUTMToWGS84 populationData layer = Normal s ->
  exists added,
    populationLayer s = layer ++ added
    /\ successCount s = length added
    /\ (successCount s + errorCount s <= length populationData)%nat
    /\ Forall styledByPopulation added.
Proof.
  unfold loadPopulationData.
  destruct (length populationData =? 0)%nat eqn:Hlen.
  - intros [= <-]. exists []. cbn. rewrite app_nil_r.
    repeat split; try lia. constructor.
  - destruct (logFirstItem populationData) as [[]|e]; cbn [bind]; [|discriminate].
    destruct (forEach_loadCallback populationData (mkLoad 0 0 layer))
      as (s' & added & H1 & H2 & H3 & H4 & H5 & H6).
    rewrite H1. intros [= <-]. cbn in *.
    exists added. repeat split; auto; lia.
Qed.

End LoaderFacts.

(** ** The loader and the analysis on the same area *)

Section LoaderAndAnalysis.

Variable convertUTMToWGS84 : number -> number -> completion (number * number).
Variable distanceTo : L.LatLng -> L.LatLng -> Q.

Lemma loadCoord_wellFormed (polygonCoords : list (number * number)) (coord : Coord) :
  match coord with None => True | Some elems => (2 <= length elems)%nat end ->
  loadCoord convertUTMToWGS84 polygonCoords coord
  = (r <- convertCoord convertUTMToWGS84 coord ;;
     Normal (polygonCoords ++ filter_not_null [r])).
Proof.
  destruct coord as [[|c0 [|c1 rest]]|]; cbn [length]; intros Hlen; try lia.
  - rewrite loadCoord_as_convertCoord.
    destruct (convertCoord convertUTMToWGS84 (Some (c0 :: c1 :: rest))) as [[latlng|]|e];
      cbn [bind filter_not_null]; [reflexivity| |reflexivity].
    rewrite app_nil_r. reflexivity.
  - cbn. rewrite app_nil_r. reflexivity.
Qed.

Lemma filter_not_null_cons {A} (r : option A) (rest : list (option A)) :
  filter_not_null (r :: rest) = filter_not_null [r] ++ filter_not_null rest.
Proof. destruct r; reflexivity. Qed.

Lemma loader_and_analysis_convert_alike_aux (ring : list Coord) :
  positionsWellFormed ring ->
  exists mapped,
    Array_map (convertCoord convertUTMToWGS84) ring = Normal mapped
    /\ forall polygonCoords,
      forEach (loadCoord convertUTMToWGS84) ring polygonCoords
      = Normal (polygonCoords ++ filter_not_null mapped).
Proof.
  intros Hwf; induction Hwf as [|coord rest Hcoord _ [mapped [Hmap Hload]]]; simpl.
  - exists []. split; [reflexivity|]. intros; rewrite app_nil_r; reflexivity.
  - destruct (convertCoord_normal convertUTMToWGS84 coord) as [r Hr].
    exists (r :: mapped). rewrite Hr, Hmap. cbn [bind]. split; [reflexivity|].
    intros polygonCoords.
    rewrite (loadCoord_wellFormed polygonCoords coord Hcoord), Hr. cbn [bind].
    rewrite Hload, <- app_assoc, <- filter_not_null_cons. reflexivity.
Qed.

(** X10. On a ring whose positions are [null] or have at least two
    components, the loader and the analysis compute the same converted
    vertices, in the same order: the loader pushes exactly the
    positions that the analysis keeps after dropping the [null]s. *)
Theorem loader_and_analysis_convert_alike (ring : list Coord)
        (polygonCoords : list (number * number)) :
  positionsWellFormed ring ->
  exists mapped,
    Array_map (convertCoord convertUTMToWGS84) ring = Normal mapped
    /\ forEach (loadCoord convertUTMToWGS84) ring polygonCoords
       = Normal (polygonCoords ++ filter_not_null mapped).
Proof.
  intros Hwf.
  destruct (loader_and_analysis_convert_alike_aux ring Hwf) as [mapped [Hmap Hload]].
  exists mapped. split; [exact Hmap|apply Hload].
Qed.

Lemma areaCallback_mapped (drawnShape : L.Layer) (t : Locals)
      (rings : list (list Coord)) (poptot : number) (q : Q)
      (mapped : list (option (number * number))) :
  Array_map (convertCoord convertUTMToWGS84) (firstRing rings) = Normal mapped ->
  truthyNumber poptot = Some q ->
  areaCallback convertUTMToWGS84 distanceTo drawnShape t
               (Area.mk (Some (Area.mkGeom (Some (Rings rings)))) poptot)
  = if (length (filter_not_null mapped) <? 3)%nat then Normal (inc_areasProcessed t)
    else try_catch
           (hit <- isIntersecting distanceTo drawnShape (filter_not_null mapped) ;;
            if hit then Normal (add_population q (inc_areasProcessed t))
            else Normal (inc_areasProcessed t))
           (fun _ => Normal (inc_areasWithErrors (inc_areasProcessed t))).
Proof.
  intros Hmap Hq. unfold areaCallback.
  cbn [Area.geom Area.coordinates Area.poptot].
  rewrite Hq, Hmap. cbn [bind].
  destruct (length (filter_not_null mapped) <? 3)%nat; reflexivity.
Qed.

(** X11. For an area whose population is present and whose first ring has
    positions that are [null] or of at least two components, all of
    which convert to valid vertices or are dropped: with at least three
    vertices the loader draws the area and the analysis, for every
    shape, tests it without counting an error; with fewer the loader
    counts an error, whereas the analysis, for every shape, skips the
    area without counting one. *)
Theorem loader_draws_what_analysis_tests (rings : list (list Coord))
        (poptot : number) (q : Q) (s : LoadState)
        (mapped : list (option (number * number))) (vs : list L.LatLng) :
  positionsWellFormed (firstRing rings) ->
  Array_map (convertCoord convertUTMToWGS84) (firstRing rings) = Normal mapped ->
  filter_not_null mapped = map pairOf vs ->
  truthyNumber poptot = Some q ->
  ((3 <= length vs)%nat
   /\ (exists polygon,
         loadCallback convertUTMToWGS84 s
                      (Area.mk (Some (Area.mkGeom (Some (Rings rings)))) poptot)
         = Normal (mkLoad (S (successCount s)) (errorCount s)
                          (populationLayer s
                           ++ [mkDrawn polygon (getColorByPopulation q) q])))
   /\ forall drawnShape t, exists (hit : bool) t',
       isIntersecting distanceTo drawnShape (map pairOf vs) = Normal hit
       /\ areaCallback convertUTMToWGS84 distanceTo drawnShape t
                       (Area.mk (Some (Area.mkGeom (Some (Rings rings)))) poptot)
          = Normal t'
       /\ areasProcessed t' = S (areasProcessed t)
       /\ areasWithErrors t' = areasWithErrors t)
  \/ ((length vs < 3)%nat
      /\ loadCallback convertUTMToWGS84 s
                      (Area.mk (Some (Area.mkGeom (Some (Rings rings)))) poptot)
         = Normal (mkLoad (successCount s) (S (errorCount s)) (populationLayer s))
      /\ forall drawnShape t, exists t',
          areaCallback convertUTMToWGS84 distanceTo drawnShape t
                       (Area.mk (Some (Area.mkGeom (Some (Rings rings)))) poptot)
          = Normal t'
          /\ areasProcessed t' = S (areasProcessed t)
          /\ areasWithErrors t' = areasWithErrors t
          /\ areasIntersected t' = areasIntersected t
          /\ totalPopulation t' = totalPopulation t).
Proof.
  intros Hwf Hmap Hvs Hq.
  destruct (loader_and_analysis_convert_alike_aux (firstRing rings) Hwf)
    as [mapped' [Hmap' Hload]].
  assert (mapped' = mapped) as -> by congruence.
  pose proof (fun (drawnShape : L.Layer) (t : Locals) =>
                areaCallback_mapped drawnShape t rings poptot q mapped Hmap Hq) as Hcb.
  unfold loadCallback. cbn [Area.geom Area.coordinates Area.poptot].
  rewrite Hq, Hload. cbn [bind app]. rewrite Hvs in *. rewrite length_map in *.
  destruct (length vs <? 3)%nat eqn:Hlen.
  - right. apply Nat.ltb_lt in Hlen. split; [exact Hlen|].
    split; [reflexivity|]. intros drawnShape t.
    eexists. rewrite Hcb. split; [reflexivity|]. repeat split.
  - left. apply Nat.ltb_ge in Hlen. split; [exact Hlen|].
    rewrite polygon_pairOf. cbn [bind try_catch].
    split; [exists vs; reflexivity|].
    intros drawnShape t. rewrite Hcb.
    assert (Hne : vs <> []).
    { intros ->. simpl in Hlen. lia. }
    destruct (isIntersecting_valid distanceTo drawnShape vs Hne) as [hit Hhit].
    exists hit. rewrite Hhit. cbn [bind try_catch].
    destruct hit; eexists; (split; [reflexivity|]); repeat split.
Qed.

End LoaderAndAnalysis.

(** ** Facts about the results panel and the drawing controls *)

Lemma forEach_app {A S} (f : S -> A -> completion S) (l l' : list A) (s : S) :
  forEach f (l ++ l') s = (s' <- forEach f l s ;; forEach f l' s').
Proof.
  revert s; induction l as [|x l IH]; intros s; simpl.
  - reflexivity.
  - destruct (f s x); cbn [bind]; [apply IH|reflexivity].
Qed.

Section PanelFacts.

Variable toLocaleString : Q -> string.
Variable toFixed : Q -> nat -> string.
Variable convertUTMToWGS84 : number -> number -> completion (number * number).
Variable distanceTo : L.LatLng -> L.LatLng -> Q.

Lemma coverage_times_population (c p : Q) :
  0 < p -> coverage c p * p == 100 * c.
Proof.
  intros Hp. rewrite coverage_positive_population by exact Hp.
  field. lra.
Qed.

Lemma performAnalysisOnPage_normal (drawnShape : L.Layer)
      (populationData : list Area.t) (bunkerData : list Bunker.t) (dom : Dom) :
  exists r,
    performAnalysis convertUTMToWGS84 distanceTo drawnShape populationData bunkerData
    = Normal r
    /\ coveragePercentage r = coverage (totalShelterCapacity r) (totalPopulation r)
    /\ performAnalysisOnPage toLocaleString toFixed convertUTMToWGS84 distanceTo
                             drawnShape populationData bunkerData dom
       = Normal (updateAnalysisResults toLocaleString toFixed
                   (totalPopulation r) (totalShelterCapacity r)
                   (coveragePercentage r) dom).
Proof.
  unfold performAnalysisOnPage.
  rewrite performAnalysis_folds. cbv zeta.
  eexists. split; [reflexivity|]. split; reflexivity.
Qed.


End PanelFacts.

Section DrawingFacts.

Variable toLocaleString : Q -> string.
Variable toFixed : Q -> nat -> string.
Variable convertUTMToWGS84 : number -> number -> completion (number * number).
Variable distanceTo : L.LatLng -> L.LatLng -> Q.
Variable window : Window.t.

Lemma analyseIfData_normal (layer : L.Layer) (dom : Dom) :
  exists dom',
    analyseIfData toLocaleString toFixed convertUTMToWGS84 distanceTo window layer dom
    = Normal dom'
    /\ (forall populationData bunkerData,
          hasData window populationData bunkerData ->
          performAnalysisOnPage toLocaleString toFixed convertUTMToWGS84 distanceTo
                                layer populationData bunkerData dom = Normal dom'
          /\ analysis_results_display dom' = "block"%string)
    /\ (Window.populationData window = None \/ Window.bunkerData window = None ->
        dom' = dom).
Proof.
  unfold analyseIfData, hasData.
  destruct (Window.populationData window) as [populationData|];
    destruct (Window.bunkerData window) as [bunkerData|].
  - destruct (performAnalysisOnPage_normal toLocaleString toFixed convertUTMToWGS84
                distanceTo layer populationData bunkerData dom) as [r [_ [_ Hpage]]].
    eexists. split; [exact Hpage|]. split.
    + intros p b [[= <-] [= <-]]. split; [exact Hpage|reflexivity].
    + intros [H|H]; discriminate.
  - exists dom. split; [reflexivity|]. split; [intros p b [_ H]; discriminate|auto].
  - exists dom. split; [reflexivity|]. split; [intros p b [H _]; discriminate|auto].
  - exists dom. split; [reflexivity|]. split; [intros p b [H _]; discriminate|auto].
Qed.

Lemma forEach_editedLayer (layers : list L.Layer) (app : App.t) :
  exists dom',
    forEach (editedLayer toLocaleString toFixed convertUTMToWGS84 distanceTo window)
            layers app
    = Normal (App.mk (App.drawnItems app) (last (map Some layers)
                                                (App.currentDrawnShape app))
                     (App.populationLayer app) (App.populationLayerOnMap app) dom')
    /\ (layers = [] -> dom' = App.dom app)
    /\ (forall populationData bunkerData rest layer,
          hasData window populationData bunkerData ->
          layers = rest ++ [layer] ->
          forall dom0,
            performAnalysisOnPage toLocaleString toFixed convertUTMToWGS84 distanceTo
                                  layer populationData bunkerData dom0 = Normal dom')
    /\ (Window.populationData window = None \/ Window.bunkerData window = None ->
        dom' = App.dom app).
Proof.
  revert app; induction layers as [|layer rest IH]; intros app.
  - exists (App.dom app). destruct app. cbn. repeat split; auto.
    intros p b rest layer _ H. destruct rest; discriminate.
  - cbn [forEach]. unfold editedLayer at 1.
    destruct (analyseIfData_normal layer (App.dom app)) as [dom1 [H1 [Hdata Hnone]]].
    rewrite H1. cbn [bind].
    destruct (IH (App.mk (App.drawnItems app) (Some layer) (App.populationLayer app)
                         (App.populationLayerOnMap app) dom1))
      as [dom' [H2 [Hnil [Hlast Hnone']]]].
    cbn [App.drawnItems App.currentDrawnShape App.populationLayer
         App.populationLayerOnMap App.dom] in *.
    exists dom'. split; [|split; [|split]].
    + rewrite H2. f_equal. f_equal.
      destruct rest as [|l rest']; [reflexivity|]. cbn [map].
      change (last (Some layer :: Some l :: map Some rest') (App.currentDrawnShape app))
        with (last (Some l :: map Some rest') (App.currentDrawnShape app)).
      clear. revert l. induction rest' as [|x xs IHx]; intros l; [reflexivity|].
      cbn [map]. change (last (Some l :: Some x :: map Some xs) (Some layer))
        with (last (Some x :: map Some xs) (Some layer)).
      change (last (Some l :: Some x :: map Some xs) (App.currentDrawnShape app))
        with (last (Some x :: map Some xs) (App.currentDrawnShape app)).
      apply IHx.
    + discriminate.
    + intros p b rest0 layer0 Hd Heq dom0.
      destruct rest as [|l rest'].
      * destruct rest0 as [|x [|y zs]]; try discriminate.
        injection Heq as <-. rewrite (Hnil eq_refl).
        destruct (Hdata p b Hd) as [Hp _].
        unfold performAnalysisOnPage in *.
        destruct (performAnalysis convertUTMToWGS84 distanceTo layer p b); cbn [bind] in *;
          [exact Hp|discriminate].
      * destruct rest0 as [|x zs]; [discriminate|].
        injection Heq as _ Heq. apply (Hlast p b zs layer0 Hd Heq).
    + intros Hn. rewrite (Hnone' Hn). apply Hnone. exact Hn.
Qed.

Lemma handle_normal (app : App.t) (event : Event) :
  exists app',
    handle toLocaleString toFixed convertUTMToWGS84 distanceTo window app event
    = Normal app'.
Proof.
  destruct event as [layer|layers| | |checked]; cbn [handle]; try (eexists; reflexivity).
  - destruct (analyseIfData_normal layer (App.dom app)) as [dom' [-> _]].
    eexists; reflexivity.
  - destruct (forEach_editedLayer layers app) as [dom' [-> _]]. eexists; reflexivity.
Qed.

Lemma handle_keeps_invariant (populationData : list Area.t) (bunkerData : list Bunker.t)
      (app : App.t) (event : Event) :
  hasData window populationData bunkerData ->
  panelMatchesShape app ->
  (length (App.drawnItems app) <= 1)%nat ->
  exists app',
    handle toLocaleString toFixed convertUTMToWGS84 distanceTo window app event
    = Normal app'
    /\ panelMatchesShape app'
    /\ (length (App.drawnItems app') <= 1)%nat.
Proof.
  intros Hd Hinv Hlen.
  destruct event as [layer|layers| | |checked]; cbn [handle].
  - destruct (analyseIfData_normal layer (App.dom app)) as [dom' [-> [Hdata _]]].
    eexists. split; [reflexivity|]. split; [|cbn; lia].
    unfold panelMatchesShape; cbn. apply (Hdata _ _ Hd).
  - destruct (forEach_editedLayer layers app) as [dom' [-> [Hnil [Hlast _]]]].
    eexists. split; [reflexivity|]. split; [|exact Hlen].
    unfold panelMatchesShape in *; cbn.
    destruct (rev layers) as [|layer rest] eqn:Hrev.
    + assert (layers = []) as -> by (apply (f_equal (@rev _)) in Hrev;
                                     rewrite rev_involutive in Hrev; exact Hrev).
      cbn. rewrite (Hnil eq_refl). exact Hinv.
    + assert (Heq : layers = rev rest ++ [layer]).
      { apply (f_equal (@rev _)) in Hrev. rewrite rev_involutive in Hrev. exact Hrev. }
      pose proof (Hlast _ _ (rev rest) layer Hd Heq (App.dom app)) as Hp.
      clear Hrev Hnil Hlast. subst layers.
      rewrite map_app. cbn [map]. rewrite last_last.
      destruct (analyseIfData_normal layer (App.dom app)) as [dom1 [_ [Hdata _]]].
      destruct (Hdata _ _ Hd) as [Hp1 Hblock]. congruence.
  - eexists. split; [reflexivity|]. split; [reflexivity|exact Hlen].
  - eexists. split; [reflexivity|]. split; [reflexivity|cbn; lia].
  - eexists. split; [reflexivity|]. split; [exact Hinv|exact Hlen].
Qed.

Lemma forEach_handle_normal (events : list Event) (app : App.t) :
  exists app',
    forEach (handle toLocaleString toFixed convertUTMToWGS84 distanceTo window)
            events app
    = Normal app'.
Proof.
  revert app; induction events as [|event rest IH]; intros app; cbn [forEach].
  - eexists; reflexivity.
  - destruct (handle_normal app event) as [app1 ->]. cbn [bind]. apply IH.
Qed.

Lemma performAnalysisOnPage_ignores_page (layer : L.Layer)
      (populationData : list Area.t) (bunkerData : list Bunker.t) (dom dom0 : Dom) :
  performAnalysisOnPage toLocaleString toFixed convertUTMToWGS84 distanceTo
                        layer populationData bunkerData dom
  = performAnalysisOnPage toLocaleString toFixed convertUTMToWGS84 distanceTo
                          layer populationData bunkerData dom0.
Proof.
  unfold performAnalysisOnPage.
  destruct (performAnalysis convertUTMToWGS84 distanceTo layer populationData bunkerData);
    reflexivity.
Qed.


(** X15. When either dataset is undefined, creating or editing shapes
    never runs the analysis: through any sequence of such events the
    handlers return and the page stays exactly as it was. *)
Theorem no_data_no_analysis (events : list Event) (app : App.t) :
  Window.populationData window = None \/ Window.bunkerData window = None ->
  Forall isDrawEvent events ->
  exists app',
    forEach (handle toLocaleString toFixed convertUTMToWGS84 distanceTo window)
            events app
    = Normal app'
    /\ App.dom app' = App.dom app.
Proof.
  intros Hnone Hall; revert app;
    induction Hall as [|event rest Hev _ IH]; intros app; cbn [forEach].
  - exists app. split; reflexivity.
  - destruct event as [layer|layers| | |checked]; cbn [isDrawEvent] in Hev;
      try contradiction; cbn [handle].
    + destruct (analyseIfData_normal layer (App.dom app)) as [dom' [-> [_ Hsame]]].
      cbn [bind]. rewrite (Hsame Hnone).
      destruct (IH (App.mk [layer] (Some layer) (App.populationLayer app)
                           (App.populationLayerOnMap app) (App.dom app)))
        as [app' [-> Hdom]].
      exists app'. split; [reflexivity|exact Hdom].
    + destruct (forEach_editedLayer layers app) as [dom' [-> [_ [_ Hsame]]]].
      cbn [bind]. rewrite (Hsame Hnone).
      destruct (IH (App.mk (App.drawnItems app)
                           (last (map Some layers) (App.currentDrawnShape app))
                           (App.populationLayer app)
                           (App.populationLayerOnMap app) (App.dom app)))
        as [app' [-> Hdom]].
      exists app'. split; [reflexivity|exact Hdom].
Qed.

Lemma loadPopulationData_returns (populationData : list Area.t) :
  ~ firstPositionIsNull populationData ->
  exists s,
    loadPopulationData convertUTMToWGS84 populationData [] = Normal s
    /\ Forall styledByPopulation (populationLayer s)
    /\ (length (populationLayer s) <= length populationData)%nat.
Proof.
  intros Hn. unfold loadPopulationData.
  destruct (length populationData =? 0)%nat.
  - eexists. split; [reflexivity|]. cbn. split; [constructor|lia].
  - destruct (logFirstItem_throws_iff populationData) as [_ Hnormal].
    rewrite (Hnormal Hn). cbn [bind].
    destruct (forEach_loadCallback convertUTMToWGS84 populationData (mkLoad 0 0 []))
      as (s' & added & H1 & H2 & H3 & H4 & H5 & H6).
    exists s'. split; [exact H1|]. cbn in H2. rewrite H2.
    split; [exact H6|lia].
Qed.

(** X16. [initializeDrawing] fails, and with it the whole session, no
    handler ever running, when the population dataset makes the loader
    throw (its first area has a first ring that starts with a [null]
    position).  Otherwise it returns a state with no drawn item, no
    current shape, the population layer on the map exactly when the
    checkbox is checked, the page untouched, and a population layer of
    at most one polygon per population record, each showing a
    population that is not [0] in the colour of that population. *)
Theorem initializeDrawing_outcome (checked : bool) (dom : Dom) :
  (forall populationData,
      Window.populationData window = Some populationData ->
      firstPositionIsNull populationData ->
      initializeDrawing convertUTMToWGS84 window checked dom = Throw TypeError
      /\ forall events,
          session toLocaleString toFixed convertUTMToWGS84 distanceTo window
                  checked dom events = Throw TypeError)
  /\ ((forall populationData,
         Window.populationData window = Some populationData ->
         ~ firstPositionIsNull populationData) ->
      exists layer,
        initializeDrawing convertUTMToWGS84 window checked dom
        = Normal (App.mk [] None layer checked dom)
        /\ Forall styledByPopulation layer
        /\ (length layer
            <= match Window.populationData window with
               | Some populationData => length populationData
               | None => 0
               end)%nat).
Proof.
  split.
  - intros populationData Hw Hnull.
    assert (Hinit : initializeDrawing convertUTMToWGS84 window checked dom
                    = Throw TypeError).
    { unfold initializeDrawing. rewrite Hw.
      pose proof Hnull as (first & rest & _ & _ & _ & -> & _).
      cbn [length Nat.eqb]. unfold loadPopulationData. cbn [length Nat.eqb].
      destruct (logFirstItem_throws_iff (first :: rest)) as [[_ Hthrow] _].
      rewrite (Hthrow Hnull). reflexivity. }
    split; [exact Hinit|]. intros events. unfold session. rewrite Hinit. reflexivity.
  - intros Hok. unfold initializeDrawing.
    destruct (Window.populationData window) as [populationData|].
    + destruct (loadPopulationData_returns populationData (Hok _ eq_refl))
        as [s [Hload [Hwell Hlen]]].
      destruct (length populationData =? 0)%nat eqn:Hzero.
      * exists []. cbn [bind]. split; [reflexivity|]. split; [constructor|cbn; lia].
      * rewrite Hload. cbn [bind]. exists (populationLayer s).
        split; [reflexivity|]. split; assumption.
    + exists []. cbn [bind]. split; [reflexivity|]. split; [constructor|cbn; lia].
Qed.

End DrawingFacts.

Section ClearingFacts.

Variable toLocaleString : Q -> string.
Variable toFixed : Q -> nat -> string.
Variable convertUTMToWGS84 : number -> number -> completion (number * number).
Variable distanceTo : L.LatLng -> L.LatLng -> Q.
Variable window : Window.t.

(** X17. A deletion or a click on the clear button, after any sequence of
    events, hides the results panel, restores the prompt and resets the
    current shape, but does not reset the figures: the population,
    capacity and coverage texts and the coverage colour stay as the
    events before left them.  The clear button also empties the drawn
    items; the deletion handler leaves them as they are. *)
Theorem clearing_hides_but_keeps_figures (events : list Event) (app : App.t)
        (event : Event) :
  event = DELETED \/ event = ClearClick ->
  exists before after',
    forEach (handle toLocaleString toFixed convertUTMToWGS84 distanceTo window)
            events app = Normal before
    /\ forEach (handle toLocaleString toFixed convertUTMToWGS84 distanceTo window)
               (events ++ [event]) app = Normal after'
    /\ App.currentDrawnShape after' = None
    /\ App.dom after' = clearAnalysisResults (App.dom before)
    /\ analysis_results_display (App.dom after') = "none"%string
    /\ population_count (App.dom after') = population_count (App.dom before)
    /\ shelter_capacity (App.dom after') = shelter_capacity (App.dom before)
    /\ coverage_percentage (App.dom after') = coverage_percentage (App.dom before)
    /\ coverage_percentage_color (App.dom after')
       = coverage_percentage_color (App.dom before)
    /\ (event = ClearClick -> App.drawnItems after' = [])
    /\ (event = DELETED -> App.drawnItems after' = App.drawnItems before).
Proof.
  intros Hev.
  destruct (forEach_handle_normal toLocaleString toFixed convertUTMToWGS84 distanceTo
              window events app) as [before Hbefore].
  exists before.
  destruct Hev as [-> | ->]; eexists; (split; [exact Hbefore|]);
    rewrite forEach_app, Hbefore; cbn [bind forEach handle];
    (split; [reflexivity|]); repeat split; try reflexivity; discriminate.
Qed.

End ClearingFacts.

(** ** Datasets with [null] entries *)

Lemma entries_cases {A} (entries : list (option A)) :
  In None entries \/ exists records, entries = map Some records.
Proof.
  induction entries as [|[x|] rest IH].
  - right. exists []. reflexivity.
  - destruct IH as [H|[records ->]].
    + left. right. exact H.
    + right. exists (x :: records). reflexivity.
  - left. left. reflexivity.
Qed.

Lemma In_None_map_Some {A} (records : list A) : ~ In None (map Some records).
Proof.
  induction records as [|x rest IH]; cbn [map In]; [tauto|].
  intros [H|H]; [discriminate|auto].
Qed.

Section EntriesFacts.

Variable toLocaleString : Q -> string.
Variable toFixed : Q -> nat -> string.
Variable convertUTMToWGS84 : number -> number -> completion (number * number).
Variable distanceTo : L.LatLng -> L.LatLng -> Q.

(** On records the callbacks are those of the datasets of records. *)
Lemma forEach_area_entries (drawnShape : L.Layer) (populationData : list Area.t)
      (s : Locals) :
  forEach (Entries.areaCallback convertUTMToWGS84 distanceTo drawnShape)
          (map Some populationData) s
  = forEach (areaCallback convertUTMToWGS84 distanceTo drawnShape) populationData s.
Proof.
  revert s; induction populationData as [|area rest IH]; intros s;
    cbn [map forEach Entries.areaCallback]; [reflexivity|].
  destruct (areaCallback convertUTMToWGS84 distanceTo drawnShape s area);
    cbn [bind]; [apply IH|reflexivity].
Qed.

Lemma forEach_bunker_entries (drawnShape : L.Layer) (bunkerData : list Bunker.t)
      (s : Locals) :
  forEach (Entries.bunkerCallback convertUTMToWGS84 distanceTo drawnShape)
          (map Some bunkerData) s
  = forEach (bunkerCallback convertUTMToWGS84 distanceTo drawnShape) bunkerData s.
Proof.
  revert s; induction bunkerData as [|bunker rest IH]; intros s;
    cbn [map forEach Entries.bunkerCallback]; [reflexivity|].
  destruct (bunkerCallback convertUTMToWGS84 distanceTo drawnShape s bunker);
    cbn [bind]; [apply IH|reflexivity].
Qed.

(** A [null] entry ends the pass by a [TypeError], the records before it
    having been absorbed. *)
Lemma forEach_area_null_entry (drawnShape : L.Layer)
      (populationData : list (option Area.t)) (s : Locals) :
  In None populationData ->
  forEach (Entries.areaCallback convertUTMToWGS84 distanceTo drawnShape)
          populationData s
  = Throw TypeError.
Proof.
  revert s; induction populationData as [|[area|] rest IH]; intros s Hin;
    cbn [forEach Entries.areaCallback].
  - destruct Hin.
  - destruct Hin as [H|H]; [discriminate|].
    destruct (areaCallback_verdict convertUTMToWGS84 distanceTo drawnShape area)
      as [v [_ Hv]].
    rewrite Hv. cbn [bind]. apply IH. exact H.
  - reflexivity.
Qed.

Lemma forEach_bunker_null_entry (drawnShape : L.Layer)
      (bunkerData : list (option Bunker.t)) (s : Locals) :
  In None bunkerData ->
  forEach (Entries.bunkerCallback convertUTMToWGS84 distanceTo drawnShape)
          bunkerData s
  = Throw TypeError.
Proof.
  revert s; induction bunkerData as [|[bunker|] rest IH]; intros s Hin;
    cbn [forEach Entries.bunkerCallback].
  - destruct Hin.
  - destruct Hin as [H|H]; [discriminate|].
    destruct (bunkerCallback_verdict convertUTMToWGS84 distanceTo drawnShape bunker)
      as [v Hv].
    rewrite Hv. cbn [bind]. apply IH. exact H.
  - reflexivity.
Qed.

Lemma performAnalysis_on_records (drawnShape : L.Layer)
      (populationData : list Area.t) (bunkerData : list Bunker.t) :
  Entries.performAnalysis convertUTMToWGS84 distanceTo drawnShape
                          (map Some populationData) (map Some bunkerData)
  = performAnalysis convertUTMToWGS84 distanceTo drawnShape populationData bunkerData.
Proof.
  unfold Entries.performAnalysis, performAnalysis. cbv zeta.
  rewrite !length_map, forEach_area_entries.
  destruct (if (length populationData =? 0)%nat then Normal initialLocals
            else forEach (areaCallback convertUTMToWGS84 distanceTo drawnShape)
                         populationData initialLocals) as [s|e];
    cbn [bind]; [|reflexivity].
  rewrite forEach_bunker_entries. reflexivity.
Qed.

Lemma performAnalysis_null_entry (drawnShape : L.Layer)
      (populationData : list (option Area.t)) (bunkerData : list (option Bunker.t)) :
  In None populationData \/ In None bunkerData ->
  Entries.performAnalysis convertUTMToWGS84 distanceTo drawnShape
                          populationData bunkerData
  = Throw TypeError.
Proof.
  intros Hin. unfold Entries.performAnalysis. cbv zeta.
  destruct (entries_cases populationData) as [Hp|[records ->]].
  - destruct populationData as [|entry rest]; [destruct Hp|].
    cbn [length Nat.eqb].
    rewrite (forEach_area_null_entry drawnShape (entry :: rest) initialLocals Hp).
    reflexivity.
  - destruct Hin as [Hp|Hb]; [exfalso; exact (In_None_map_Some records Hp)|].
    rewrite length_map, forEach_area_entries.
    assert (Hfirst : exists s,
               (if (length records =? 0)%nat then Normal initialLocals
                else forEach (areaCallback convertUTMToWGS84 distanceTo drawnShape)
                             records initialLocals) = Normal s).
    { destruct (length records =? 0)%nat; [eauto|]. rewrite forEach_area. eauto. }
    destruct Hfirst as [s ->]. cbn [bind].
    destruct bunkerData as [|entry rest]; [destruct Hb|].
    cbn [length Nat.eqb].
    rewrite (forEach_bunker_null_entry drawnShape (entry :: rest) s Hb).
    reflexivity.
Qed.

(** C1. Not every per-record failure is caught inside the pass: a [null]
    entry in either dataset makes [performAnalysis] throw a [TypeError]
    to its caller, whatever the records before and after it.  The
    analysis throws exactly when a dataset holds such an entry; on
    datasets of records it returns a result that has visited every
    population record.  The callback of the loader reads the same entry
    inside its [try] and counts it in [errorCount]. *)
Theorem null_entry_escapes_performAnalysis (drawnShape : L.Layer)
        (populationData : list (option Area.t)) (bunkerData : list (option Bunker.t)) :
  ((In None populationData \/ In None bunkerData)
   <-> Entries.performAnalysis convertUTMToWGS84 distanceTo drawnShape
                               populationData bunkerData
       = Throw TypeError)
  /\ ((In None populationData \/ In None bunkerData)
      \/ exists r,
          Entries.performAnalysis convertUTMToWGS84 distanceTo drawnShape
                                  populationData bunkerData
          = Normal r
          /\ areasProcessed r = length populationData)
  /\ (forall before after',
        Entries.performAnalysis convertUTMToWGS84 distanceTo drawnShape
                                (map Some before ++ None :: after') bunkerData
        = Throw TypeError)
  /\ (forall s,
        Entries.loadCallback convertUTMToWGS84 s None = Normal (inc_errorCount s)).
Proof.
  assert (Hcases : (In None populationData \/ In None bunkerData)
                   \/ exists r,
                       Entries.performAnalysis convertUTMToWGS84 distanceTo drawnShape
                                               populationData bunkerData
                       = Normal r
                       /\ areasProcessed r = length populationData).
  { destruct (entries_cases populationData) as [Hp|[pop ->]]; [left; left; exact Hp|].
    destruct (entries_cases bunkerData) as [Hb|[bunk ->]]; [left; right; exact Hb|].
    right. rewrite performAnalysis_on_records, performAnalysis_folds. cbv zeta.
    eexists. split; [reflexivity|]. cbn [locals].
    rewrite areasProcessed_bunker_pass, areasProcessed_area_pass, length_map.
    reflexivity. }
  split; [split|split; [exact Hcases|split]].
  - apply performAnalysis_null_entry.
  - intros Hthrow. destruct Hcases as [H|[r [Hr _]]]; [exact H|congruence].
  - intros before after'. apply performAnalysis_null_entry. left.
    apply in_or_app. right. left. reflexivity.
  - intros s. reflexivity.
Qed.

(** *** The handlers *)

Lemma analyseIfData_on_records (populationData : list Area.t)
      (bunkerData : list Bunker.t) (layer : L.Layer) (dom : Dom) :
  Entries.analyseIfData toLocaleString toFixed convertUTMToWGS84 distanceTo
    (Entries.Window.mk (Some (map Some populationData)) (Some (map Some bunkerData)))
    layer dom
  = analyseIfData toLocaleString toFixed convertUTMToWGS84 distanceTo
      (Window.mk (Some populationData) (Some bunkerData)) layer dom.
Proof.
  unfold Entries.analyseIfData, analyseIfData,
    Entries.performAnalysisOnPage, performAnalysisOnPage.
  cbn [Entries.Window.populationData Entries.Window.bunkerData
       Window.populationData Window.bunkerData].
  rewrite performAnalysis_on_records. reflexivity.
Qed.

Lemma handle_on_records (populationData : list Area.t) (bunkerData : list Bunker.t)
      (app : App.t) (event : Event) :
  Entries.handle toLocaleString toFixed convertUTMToWGS84 distanceTo
    (Entries.Window.mk (Some (map Some populationData)) (Some (map Some bunkerData)))
    app event
  = handle toLocaleString toFixed convertUTMToWGS84 distanceTo
      (Window.mk (Some populationData) (Some bunkerData)) app event.
Proof.
  destruct event as [layer|layers| | |checked]; cbn [Entries.handle handle];
    try reflexivity.
  - rewrite analyseIfData_on_records. reflexivity.
  - revert app; induction layers as [|layer rest IH]; intros app; cbn [forEach];
      [reflexivity|].
    unfold Entries.editedLayer at 1, editedLayer at 1.
    rewrite analyseIfData_on_records.
    destruct (analyseIfData toLocaleString toFixed convertUTMToWGS84 distanceTo
                (Window.mk (Some populationData) (Some bunkerData)) layer (App.dom app));
      cbn [bind]; [apply IH|reflexivity].
Qed.

Lemma analyseIfData_null_entry (populationData : list (option Area.t))
      (bunkerData : list (option Bunker.t)) (layer : L.Layer) (dom : Dom) :
  In None populationData \/ In None bunkerData ->
  Entries.analyseIfData toLocaleString toFixed convertUTMToWGS84 distanceTo
    (Entries.Window.mk (Some populationData) (Some bunkerData)) layer dom
  = Throw TypeError.
Proof.
  intros Hin. unfold Entries.analyseIfData, Entries.performAnalysisOnPage.
  cbn [Entries.Window.populationData Entries.Window.bunkerData].
  rewrite (performAnalysis_null_entry layer populationData bunkerData Hin).
  reflexivity.
Qed.

(** What a handler does when a dataset holds a [null] entry. *)
Lemma handle_null_entry (populationData : list (option Area.t))
      (bunkerData : list (option Bunker.t)) (app : App.t) (event : Event) :
  In None populationData \/ In None bunkerData ->
  (drawsShape event
   /\ Entries.handle toLocaleString toFixed convertUTMToWGS84 distanceTo
        (Entries.Window.mk (Some populationData) (Some bunkerData)) app event
      = Throw TypeError)
  \/ (~ drawsShape event
      /\ exists app',
          Entries.handle toLocaleString toFixed convertUTMToWGS84 distanceTo
            (Entries.Window.mk (Some populationData) (Some bunkerData)) app event
          = Normal app'
          /\ (panelMatchesShape app -> panelMatchesShape app')
          /\ (length (App.drawnItems app') <= length (App.drawnItems app))%nat).
Proof.
  intros Hin.
  destruct event as [layer|[|layer rest]| | |checked];
    cbn [Entries.handle drawsShape forEach].
  - left. split; [exact I|]. rewrite (analyseIfData_null_entry _ _ layer _ Hin).
    reflexivity.
  - right. split; [intros H; apply H; reflexivity|].
    exists app. split; [reflexivity|]. split; [auto|lia].
  - left. split; [discriminate|]. unfold Entries.editedLayer at 1.
    rewrite (analyseIfData_null_entry _ _ layer _ Hin). reflexivity.
  - right. split; [auto|]. eexists. split; [reflexivity|].
    split; [intros _; reflexivity|cbn; lia].
  - right. split; [auto|]. eexists. split; [reflexivity|].
    split; [intros _; reflexivity|cbn; lia].
  - right. split; [auto|]. eexists. split; [reflexivity|].
    split; [intros H; exact H|cbn; lia].
Qed.

(** One handler: when it throws, and what it keeps when it returns. *)
Lemma handle_entries (window : Entries.Window.t)
      (populationData : list (option Area.t)) (bunkerData : list (option Bunker.t))
      (app : App.t) (event : Event) :
  Entries.Window.populationData window = Some populationData ->
  Entries.Window.bunkerData window = Some bunkerData ->
  panelMatchesShape app ->
  (length (App.drawnItems app) <= 1)%nat ->
  ((drawsShape event /\ (In None populationData \/ In None bunkerData))
   /\ Entries.handle toLocaleString toFixed convertUTMToWGS84 distanceTo
        window app event
      = Throw TypeError)
  \/ (~ (drawsShape event /\ (In None populationData \/ In None bunkerData))
      /\ exists app',
          Entries.handle toLocaleString toFixed convertUTMToWGS84 distanceTo
            window app event
          = Normal app'
          /\ panelMatchesShape app'
          /\ (length (App.drawnItems app') <= 1)%nat).
Proof.
  intros Hpop Hbunk Hinv Hlen.
  destruct window as [wp wb]. cbn in Hpop, Hbunk. subst wp wb.
  destruct (entries_cases populationData) as [Hp|[pop ->]].
  - destruct (handle_null_entry populationData bunkerData app event (or_introl Hp))
      as [[Hd Hthrow]|[Hd [app' [Hret [Hkeep Hle]]]]].
    + left. split; [split; [exact Hd|left; exact Hp]|exact Hthrow].
    + right. split; [intros [H _]; contradiction|].
      exists app'. split; [exact Hret|]. split; [auto|lia].
  - destruct (entries_cases bunkerData) as [Hb|[bunk ->]].
    + destruct (handle_null_entry (map Some pop) bunkerData app event (or_intror Hb))
        as [[Hd Hthrow]|[Hd [app' [Hret [Hkeep Hle]]]]].
      * left. split; [split; [exact Hd|right; exact Hb]|exact Hthrow].
      * right. split; [intros [H _]; contradiction|].
        exists app'. split; [exact Hret|]. split; [auto|lia].
    + right. split.
      * intros [_ [H|H]]; [exact (In_None_map_Some pop H)|exact (In_None_map_Some bunk H)].
      * rewrite handle_on_records.
        apply (handle_keeps_invariant toLocaleString toFixed convertUTMToWGS84
                 distanceTo (Window.mk (Some pop) (Some bunk)) pop bunk app event);
          [split; reflexivity|exact Hinv|exact Hlen].
Qed.

(** X13. With both datasets defined, a handler throws exactly when its
    event draws or edits a shape and a dataset holds a [null] entry (the
    [TypeError] of the analysis escapes the handler).  Through any
    sequence of events whose handlers all return, two invariants are
    kept: the results panel is shown exactly when a shape is current
    (set by a creation or an edit, reset by a deletion or the clear
    button), and at most one shape is among the drawn items.  On
    datasets without [null] entries every handler returns. *)
Theorem panel_follows_current_shape (window : Entries.Window.t)
        (populationData : list (option Area.t)) (bunkerData : list (option Bunker.t))
        (events : list Event) (app : App.t) :
  Entries.Window.populationData window = Some populationData ->
  Entries.Window.bunkerData window = Some bunkerData ->
  panelMatchesShape app ->
  (length (App.drawnItems app) <= 1)%nat ->
  (forall event,
      (exists e,
          Entries.handle toLocaleString toFixed convertUTMToWGS84 distanceTo
                         window app event
          = Throw e)
      <-> drawsShape event /\ (In None populationData \/ In None bunkerData))
  /\ (forall app',
        forEach (Entries.handle toLocaleString toFixed convertUTMToWGS84 distanceTo
                                window)
                events app
        = Normal app' ->
        panelMatchesShape app' /\ (length (App.drawnItems app') <= 1)%nat)
  /\ (~ In None populationData -> ~ In None bunkerData ->
      exists app',
        forEach (Entries.handle toLocaleString toFixed convertUTMToWGS84 distanceTo
                                window)
                events app
        = Normal app').
Proof.
  intros Hpop Hbunk Hinv Hlen. split; [|split].
  - intros event.
    destruct (handle_entries window populationData bunkerData app event
                Hpop Hbunk Hinv Hlen) as [[Hd Hthrow]|[Hd [app' [Hret _]]]].
    + split; [intros _; exact Hd|intros _; eexists; exact Hthrow].
    + split; [intros [e He]; congruence|intros H; contradiction].
  - revert app Hinv Hlen; induction events as [|event rest IH];
      intros app Hinv Hlen app'; cbn [forEach].
    + intros [= <-]. split; assumption.
    + destruct (handle_entries window populationData bunkerData app event
                  Hpop Hbunk Hinv Hlen) as [[_ Hthrow]|[_ [app1 [Hret [Hinv1 Hlen1]]]]].
      * rewrite Hthrow. discriminate.
      * rewrite Hret. cbn [bind]. apply IH; assumption.
  - intros Hp Hb. revert app Hinv Hlen; induction events as [|event rest IH];
      intros app Hinv Hlen; cbn [forEach].
    + eexists; reflexivity.
    + destruct (handle_entries window populationData bunkerData app event
                  Hpop Hbunk Hinv Hlen) as [[[_ [H|H]] _]|[_ [app1 [Hret [Hinv1 Hlen1]]]]];
        [contradiction|contradiction|].
      rewrite Hret. cbn [bind]. apply IH; assumption.
Qed.

End EntriesFacts.

(** ** The further facts at the sample data *)

Example run_session :
  session sampleToLocaleString sampleToFixed sampleConvert sampleDistance sampleWindow
          true samplePage [CREATED sampleCircle; DELETED]
  = Normal (App.mk [sampleCircle] None
              [mkDrawn [L.mkLatLng 60 10; L.mkLatLng 60 (1001 # 100);
                        L.mkLatLng (6001 # 100) 10]
                       "#FEB24C" 150]
              true
              (mkDom "Tegn et område på kartet for å analysere befolkning og tilfluktsromkapasitet."
                     "n personer" "n plasser" "n.nn%" "#d32f2f" "none")).
Proof. vm_compute. reflexivity. Qed.

Lemma result_sums_not_negative_witness :
  exists r,
    performAnalysis sampleConvert sampleDistance sampleRectangle
                    [sampleArea (Num 150)] [sampleBunker (Num 40)] = Normal r
    /\ 0 <= totalPopulation r
    /\ 0 <= totalShelterCapacity r
    /\ 0 <= coveragePercentage r.
Proof.
  apply (result_sums_not_negative sampleConvert sampleDistance sampleRectangle).
  - repeat constructor. apply Qle_bool_iff. reflexivity.
  - repeat constructor. apply Qle_bool_iff. reflexivity.
Defined.



Lemma error_counted_iff_vertex_not_a_number_witness :
  areaCallback sampleConvert sampleDistance sampleRectangle initialLocals
               sampleMalformedArea
  = Normal (inc_areasWithErrors (inc_areasProcessed initialLocals)).
Proof.
  apply (proj1 (error_counted_iff_vertex_not_a_number sampleConvert sampleDistance
                  sampleRectangle initialLocals
                  [[ Some [Num 10; Num 60]; Some [Num 10];
                     Some [Num 10; Num (6001 # 100)] ]]
                  (Num 150) 150
                  [ Some (Num 60, Num 10); Some (NaN, Num 10);
                    Some (Num (6001 # 100), Num 10) ]
                  eq_refl ltac:(simpl; lia) eq_refl)).
  apply Exists_cons_tl, Exists_cons_hd. left. reflexivity.
Defined.

Lemma larger_shape_counts_no_less_witness :
  exists r r',
    performAnalysis sampleConvert sampleDistance sampleRectangle
                    [sampleArea (Num 150)] [sampleBunker (Num 40)] = Normal r
    /\ performAnalysis sampleConvert sampleDistance sampleLargeRectangle
                       [sampleArea (Num 150)] [sampleBunker (Num 40)] = Normal r'
    /\ LocalsLe r r'.
Proof.
  apply (larger_shape_counts_no_less sampleConvert sampleDistance
           sampleRectangle sampleLargeRectangle).
  - cbn. repeat split; apply Qle_bool_iff; reflexivity.
  - repeat constructor. apply Qle_bool_iff. reflexivity.
  - repeat constructor. apply Qle_bool_iff. reflexivity.
Defined.

Lemma loadPopulationData_accounting_witness :
  exists added,
    [mkDrawn [L.mkLatLng 60 10; L.mkLatLng 60 (1001 # 100); L.mkLatLng (6001 # 100) 10]
             "#FEB24C" 150]
    = [] ++ added
    /\ 1%nat = length added
    /\ (1 + 1 <= 2)%nat
    /\ Forall styledByPopulation added.
Proof.
  exact (loadPopulationData_accounting sampleConvert
           [sampleShortArea; sampleArea (Num 150)] []
           (mkLoad 1 1
              [mkDrawn [L.mkLatLng 60 10; L.mkLatLng 60 (1001 # 100);
                        L.mkLatLng (6001 # 100) 10]
                       "#FEB24C" 150])
           eq_refl).
Defined.

Lemma loader_and_analysis_convert_alike_witness :
  exists mapped,
    Array_map (convertCoord sampleConvert) sampleRing = Normal mapped
    /\ forEach (loadCoord sampleConvert) sampleRing [] = Normal ([] ++ filter_not_null mapped).
Proof.
  apply (loader_and_analysis_convert_alike sampleConvert sampleRing []).
  repeat constructor.
Defined.

(** The loader draws [sampleArea]; it counts an error for
    [sampleShortArea], which the analysis skips without counting one. *)
Lemma loader_draws_what_analysis_tests_witness :
  (exists polygon,
      loadCallback sampleConvert (mkLoad 0 0 []) (sampleArea (Num 150))
      = Normal (mkLoad 1 0 [mkDrawn polygon (getColorByPopulation 150) 150]))
  /\ loadCallback sampleConvert (mkLoad 0 0 []) sampleShortArea
     = Normal (mkLoad 0 1 [])
  /\ exists t',
      areaCallback sampleConvert sampleDistance sampleCircle initialLocals
                   sampleShortArea
      = Normal t'
      /\ areasWithErrors t' = 0%nat.
Proof.
  destruct (loader_draws_what_analysis_tests sampleConvert sampleDistance
              [sampleRing] (Num 150) 150 (mkLoad 0 0 [])
              [ Some (Num 60, Num 10); Some (Num 60, Num (1001 # 100));
                Some (Num (6001 # 100), Num 10) ]
              [ L.mkLatLng 60 10; L.mkLatLng 60 (1001 # 100);
                L.mkLatLng (6001 # 100) 10 ]
              ltac:(repeat constructor) eq_refl eq_refl eq_refl)
    as [[_ [Hdrawn _]]|[Hshort _]]; [|simpl in Hshort; lia].
  destruct (loader_draws_what_analysis_tests sampleConvert sampleDistance
              [[ Some [Num 10; Num 60]; Some [Num (1001 # 100); Num 60]; None ]]
              (Num 150) 150 (mkLoad 0 0 [])
              [ Some (Num 60, Num 10); Some (Num 60, Num (1001 # 100)); None ]
              [ L.mkLatLng 60 10; L.mkLatLng 60 (1001 # 100) ]
              ltac:(repeat constructor) eq_refl eq_refl eq_refl)
    as [[Hlong _]|[_ [Herror Hskip]]]; [simpl in Hlong; lia|].
  split; [exact Hdrawn|]. split; [exact Herror|].
  destruct (Hskip sampleCircle initialLocals) as [t' [Hcb [_ [Herr _]]]].
  exists t'. split; [exact Hcb|exact Herr].
Defined.

(** The sample datasets as arrays of entries, and with a [null] entry
    between two areas. *)
Definition sampleEntriesWindow : Entries.Window.t :=
  Entries.Window.mk (Some [Some (sampleArea (Num 150))])
                    (Some [Some (sampleBunker (Num 40))]).

Definition sampleEntriesWithNull : list (option Area.t) :=
  [Some (sampleArea (Num 150)); None; Some (sampleArea (Num 7))].

(** The analysis throws on the dataset with a [null] entry, which the
    callback of the loader absorbs: the areas around it are drawn. *)
Example run_null_entry :
  Entries.performAnalysis sampleConvert sampleDistance sampleRectangle
                          sampleEntriesWithNull [Some (sampleBunker (Num 40))]
  = Throw TypeError
  /\ forEach (Entries.loadCallback sampleConvert) sampleEntriesWithNull (mkLoad 0 0 [])
     = Normal (mkLoad 2 1
         [mkDrawn [L.mkLatLng 60 10; L.mkLatLng 60 (1001 # 100);
                   L.mkLatLng (6001 # 100) 10]
                  "#FEB24C" 150;
          mkDrawn [L.mkLatLng 60 10; L.mkLatLng 60 (1001 # 100);
                   L.mkLatLng (6001 # 100) 10]
                  "#FFEDA0" 7]).
Proof. split; vm_compute; reflexivity. Qed.

(** Drawing a shape over the dataset with a [null] entry: the handler
    throws. *)
Example run_created_null_entry :
  Entries.handle sampleToLocaleString sampleToFixed sampleConvert sampleDistance
                 (Entries.Window.mk (Some sampleEntriesWithNull)
                                    (Some [Some (sampleBunker (Num 40))]))
                 sampleApp (CREATED sampleCircle)
  = Throw TypeError.
Proof. vm_compute. reflexivity. Qed.

Lemma panel_follows_current_shape_witness :
  exists app',
    forEach (Entries.handle sampleToLocaleString sampleToFixed sampleConvert
                            sampleDistance sampleEntriesWindow)
            sampleEvents sampleApp
    = Normal app'
    /\ panelMatchesShape app'
    /\ (length (App.drawnItems app') <= 1)%nat.
Proof.
  destruct (panel_follows_current_shape sampleToLocaleString sampleToFixed
              sampleConvert sampleDistance sampleEntriesWindow
              [Some (sampleArea (Num 150))] [Some (sampleBunker (Num 40))]
              sampleEvents sampleApp eq_refl eq_refl eq_refl ltac:(simpl; lia))
    as [_ [Hkeep Hret]].
  destruct Hret as [app' Happ'].
  - intros [H|[]]; discriminate H.
  - intros [H|[]]; discriminate H.
  - exists app'. split; [exact Happ'|]. apply Hkeep. exact Happ'.
Defined.


Lemma no_data_no_analysis_witness :
  exists app',
    forEach (handle sampleToLocaleString sampleToFixed sampleConvert sampleDistance
                    sampleWindowWithoutBunkers)
            [CREATED sampleCircle; EDITED [sampleRectangle]] sampleApp
    = Normal app'
    /\ App.dom app' = App.dom sampleApp.
Proof.
  apply (no_data_no_analysis sampleToLocaleString sampleToFixed sampleConvert
           sampleDistance sampleWindowWithoutBunkers).
  - right. reflexivity.
  - repeat constructor.
Defined.

Lemma clearing_hides_but_keeps_figures_witness :
  exists before after',
    forEach (handle sampleToLocaleString sampleToFixed sampleConvert sampleDistance
                    sampleWindow)
            [CREATED sampleCircle] sampleApp = Normal before
    /\ forEach (handle sampleToLocaleString sampleToFixed sampleConvert sampleDistance
                       sampleWindow)
               ([CREATED sampleCircle] ++ [ClearClick]) sampleApp = Normal after'
    /\ App.currentDrawnShape after' = None
    /\ App.dom after' = clearAnalysisResults (App.dom before)
    /\ analysis_results_display (App.dom after') = "none"%string
    /\ population_count (App.dom after') = population_count (App.dom before)
    /\ shelter_capacity (App.dom after') = shelter_capacity (App.dom before)
    /\ coverage_percentage (App.dom after') = coverage_percentage (App.dom before)
    /\ coverage_percentage_color (App.dom after')
       = coverage_percentage_color (App.dom before)
    /\ (ClearClick = ClearClick -> App.drawnItems after' = [])
    /\ (ClearClick = DELETED -> App.drawnItems after' = App.drawnItems before).
Proof.
  apply (clearing_hides_but_keeps_figures sampleToLocaleString sampleToFixed
           sampleConvert sampleDistance sampleWindow
           [CREATED sampleCircle] sampleApp ClearClick).
  right. reflexivity.
Defined.

(** ** Order of the records, with the sums on doubles *)

Lemma applyCountEffect_comm (e e' : CountEffect) (c : nat * nat * nat * nat) :
  applyCountEffect e (applyCountEffect e' c) = applyCountEffect e' (applyCountEffect e c).
Proof. destruct c as [[[i p] w] b]; destruct e, e'; reflexivity. Qed.

Section CountingFolds.

Context {A S : Type} (f : S -> A -> S) (counts : S -> nat * nat * nat * nat).
Hypothesis f_counts :
  forall a, exists e, forall s, counts (f s a) = applyCountEffect e (counts s).

Lemma fold_left_counts (l : list A) (s s' : S) :
  counts s = counts s' -> counts (fold_left f l s) = counts (fold_left f l s').
Proof.
  revert s s'; induction l as [|a l IH]; intros s s' Hc; simpl; [exact Hc|].
  apply IH. destruct (f_counts a) as [e He]. rewrite !He, Hc. reflexivity.
Qed.

(** Folding updates whose effects on the counts commute over a permuted
    list ends with the same counts. *)
Lemma fold_left_perm_counts (l l' : list A) :
  Permutation l l' ->
  forall s s', counts s = counts s' ->
               counts (fold_left f l s) = counts (fold_left f l' s').
Proof.
  induction 1 as [|a l l' _ IH|a b l|l l' l'' _ IH1 _ IH2]; intros s s' Hc; simpl.
  - exact Hc.
  - apply IH. destruct (f_counts a) as [e He]. rewrite !He, Hc. reflexivity.
  - apply fold_left_counts.
    destruct (f_counts a) as [ea Ha]. destruct (f_counts b) as [eb Hb].
    repeat first [rewrite Ha | rewrite Hb]. rewrite Hc. apply applyCountEffect_comm.
  - rewrite (IH1 s s' Hc). apply IH2. reflexivity.
Qed.

End CountingFolds.

Section DoubleSums.

Variable convertUTMToWGS84 : number -> number -> completion (number * number).
Variable distanceTo : L.LatLng -> L.LatLng -> Q.

Lemma double_areaCallback_counts (drawnShape : L.Layer) (area : Doubles.Area.t) :
  exists e, forall s, exists s',
    Doubles.areaCallback convertUTMToWGS84 distanceTo drawnShape s area = Normal s'
    /\ Doubles.counts s' = applyCountEffect e (Doubles.counts s).
Proof.
  unfold Doubles.areaCallback.
  destruct (Doubles.Area.geom area) as [geom|];
    [|exists CountProcessed; intros s; eexists; split; reflexivity].
  destruct (Area.coordinates geom) as [coordinates|];
    [|exists CountProcessed; intros s; eexists; split; reflexivity].
  destruct (Doubles.falsy (Doubles.Area.poptot area));
    [exists CountProcessed; intros s; eexists; split; reflexivity|].
  destruct coordinates as [rings|];
    [|exists CountProcessed; intros s; eexists; split; reflexivity].
  destruct (map_convertCoord_normal convertUTMToWGS84 (firstRing rings))
    as [mapped Hmap].
  rewrite Hmap. cbn [bind].
  destruct (length (filter_not_null mapped) <? 3)%nat;
    [exists CountProcessed; intros s; eexists; split; reflexivity|].
  destruct (isIntersecting distanceTo drawnShape (filter_not_null mapped))
    as [[|]|e]; cbn [bind try_catch].
  - exists CountProcessedIntersected; intros s; eexists; split; reflexivity.
  - exists CountProcessed; intros s; eexists; split; reflexivity.
  - exists CountProcessedError; intros s; eexists; split; reflexivity.
Qed.

Lemma double_bunkerCallback_counts (drawnShape : L.Layer) (bunker : Doubles.Bunker.t) :
  exists e, forall s, exists s',
    Doubles.bunkerCallback convertUTMToWGS84 distanceTo drawnShape s bunker = Normal s'
    /\ Doubles.counts s' = applyCountEffect e (Doubles.counts s).
Proof.
  unfold Doubles.bunkerCallback.
  destruct (Doubles.Bunker.geom bunker) as [geom|];
    [|exists CountNothing; intros s; eexists; split; [reflexivity|];
      destruct s; reflexivity].
  destruct (Bunker.coordinates geom) as [coordinates|];
    [|exists CountNothing; intros s; eexists; split; [reflexivity|];
      destruct s; reflexivity].
  destruct (Doubles.falsy (Doubles.Bunker.plasser bunker));
    [exists CountNothing; intros s; eexists; split; [reflexivity|];
     destruct s; reflexivity|].
  destruct (convertUTMToWGS84 _ _) as [[wlng wlat]|e]; cbn [bind try_catch fst snd];
    [|exists CountNothing; intros s; eexists; split; [reflexivity|];
      destruct s; reflexivity].
  destruct (L.latLng wlat wlng) as [p|e]; cbn [bind try_catch];
    [|exists CountNothing; intros s; eexists; split; [reflexivity|];
      destruct s; reflexivity].
  destruct (isInside distanceTo drawnShape p).
  - exists CountInside; intros s; eexists; split; reflexivity.
  - exists CountNothing; intros s; eexists; split; [reflexivity|];
      destruct s; reflexivity.
Qed.

Lemma double_areaEffect_counts (drawnShape : L.Layer) (area : Doubles.Area.t) :
  exists e, forall s,
    Doubles.counts
      (after s (Doubles.areaCallback convertUTMToWGS84 distanceTo drawnShape s area))
    = applyCountEffect e (Doubles.counts s).
Proof.
  destruct (double_areaCallback_counts drawnShape area) as [e He].
  exists e. intros s. destruct (He s) as [s' [-> Hc]]. exact Hc.
Qed.

Lemma double_bunkerEffect_counts (drawnShape : L.Layer) (bunker : Doubles.Bunker.t) :
  exists e, forall s,
    Doubles.counts
      (after s (Doubles.bunkerCallback convertUTMToWGS84 distanceTo drawnShape s bunker))
    = applyCountEffect e (Doubles.counts s).
Proof.
  destruct (double_bunkerCallback_counts drawnShape bunker) as [e He].
  exists e. intros s. destruct (He s) as [s' [-> Hc]]. exact Hc.
Qed.

Lemma double_forEach_area (drawnShape : L.Layer) (populationData : list Doubles.Area.t)
      (s : Doubles.Locals) :
  forEach (Doubles.areaCallback convertUTMToWGS84 distanceTo drawnShape) populationData s
  = Normal (fold_left
              (fun s area =>
                 after s (Doubles.areaCallback convertUTMToWGS84 distanceTo
                                               drawnShape s area))
              populationData s).
Proof.
  revert s; induction populationData as [|area rest IH]; intros s; cbn [forEach fold_left].
  - reflexivity.
  - destruct (double_areaCallback_counts drawnShape area) as [e He].
    destruct (He s) as [s' [-> _]]. cbn [bind after]. apply IH.
Qed.

Lemma double_forEach_bunker (drawnShape : L.Layer) (bunkerData : list Doubles.Bunker.t)
      (s : Doubles.Locals) :
  forEach (Doubles.bunkerCallback convertUTMToWGS84 distanceTo drawnShape) bunkerData s
  = Normal (fold_left
              (fun s bunker =>
                 after s (Doubles.bunkerCallback convertUTMToWGS84 distanceTo
                                                 drawnShape s bunker))
              bunkerData s).
Proof.
  revert s; induction bunkerData as [|bunker rest IH]; intros s; cbn [forEach fold_left].
  - reflexivity.
  - destruct (double_bunkerCallback_counts drawnShape bunker) as [e He].
    destruct (He s) as [s' [-> _]]. cbn [bind after]. apply IH.
Qed.

(** The analysis on doubles as two folds and the coverage formula. *)
Lemma double_performAnalysis_folds (drawnShape : L.Layer)
      (populationData : list Doubles.Area.t) (bunkerData : list Doubles.Bunker.t) :
  Doubles.performAnalysis convertUTMToWGS84 distanceTo drawnShape populationData bunkerData
  = let s :=
      fold_left
        (fun s bunker =>
           after s (Doubles.bunkerCallback convertUTMToWGS84 distanceTo
                                           drawnShape s bunker))
        bunkerData
        (fold_left
           (fun s area =>
              after s (Doubles.areaCallback convertUTMToWGS84 distanceTo
                                            drawnShape s area))
           populationData Doubles.initialLocals) in
    Normal (Doubles.mkResult s (Doubles.coverage (Doubles.totalShelterCapacity s)
                                                 (Doubles.totalPopulation s))).
Proof.
  unfold Doubles.performAnalysis.
  destruct populationData as [|area rest]; destruct bunkerData as [|bunker more];
    cbn [length Nat.eqb bind]; rewrite ?double_forEach_area; cbn [bind];
    rewrite ?double_forEach_bunker; reflexivity.
Qed.


End DoubleSums.

(** ** The order of the records at sample values *)

Section DoubleSamples.

Import PrimFloat.

(** The sample area with a population given as a double. *)
Definition sampleDoubleArea (poptot : float) : Doubles.Area.t :=
  Doubles.Area.mk (Some (Area.mkGeom (Some (Rings [sampleRing])))) poptot.



End DoubleSamples.
